(** * PathSix CRM backend: visibility, filtering, assignment.

    A shallow embedding of the route handlers of
    [backend/app/routes/clients.py], [leads.py] and [projects.py], and the
    properties of the visibility and query-composition engine proved on it.

    Conventions.
    - Identifiers are Python integers: [Z].
    - A [datetime] is the number of microseconds since the epoch: [Z].
      [datetime.utcnow()] is an explicit argument [now] of every handler
      that reads the clock.
    - A nullable column is an [option].
    - A table is the list of its rows, in the order the store scans them.
    - A handler takes the authenticated user (what [requires_auth] leaves in
      [g.user] / [request.user]) and the store, and returns its reply and the
      store as it is after the request: a handler that does not reach
      [session.commit()] leaves the store as it found it, and a commit that
      is reached succeeds (the store checks no constraint of its own). *)

From Stdlib Require Import Ascii String ZArith Lia DecimalString.
From stdpp Require Import base option strings list gmap sorting numbers.

Local Open Scope Z_scope.
#[local] Set Warnings "-clear-no-such-hyp".

(** ** Python values and builtins *)

Module Py.

(** What a JSON body, or an attribute that was set from one, holds. *)
Inductive value :=
  | VNone
  | VBool (b : bool)
  | VInt (z : Z)
  | VStr (s : string).

#[global] Instance value_eq_dec : EqDecision value.
Proof. solve_decision. Defined.

Inductive exn :=
  | ValueError
  | TypeError
  | OperationalError   (* raised by the database driver on execution *)
  | DeliveryError.     (* raised by the mail collaborator *)

#[global] Instance exn_eq_dec : EqDecision exn.
Proof. solve_decision. Defined.

(** [bool(v)]: what [if v:] and [v or d] test. *)
Definition truthy (v : value) : bool :=
  match v with
  | VNone => false
  | VBool b => b
  | VInt z => negb (z =? 0)
  | VStr s => negb (String.eqb s "")
  end.

(** [v or None] *)
Definition or_none (v : value) : value :=
  if truthy v then v else VNone.

(** The white space [int] skips around the number in an ASCII [str]: tab,
    line feed, vertical tab, form feed, carriage return and space. (The
    separators 28 to 31 are white space to [str.isspace], not to [int].) *)
Definition is_space (a : ascii) : bool :=
  let n := nat_of_ascii a in
  ((9 <=? n) && (n <=? 13) || (n =? 32))%nat.

Fixpoint lstrip (s : list ascii) : list ascii :=
  match s with
  | a :: s' => if is_space a then lstrip s' else s
  | [] => []
  end.

Definition strip (s : list ascii) : list ascii :=
  rev (lstrip (rev (lstrip s))).

Definition digit_of (a : ascii) : option Z :=
  let n := nat_of_ascii a in
  if ((48 <=? n) && (n <=? 57))%nat then Some (Z.of_nat n - 48) else None.

(** A character that is not white space, a sign or an underscore. *)
Definition plain (a : ascii) : Prop :=
  is_space a = false ∧ Ascii.eqb a "_" = false
  ∧ Ascii.eqb a "-" = false ∧ Ascii.eqb a "+" = false.

(** Decimal digits, a single underscore allowed between two digits. *)
Fixpoint digits (acc : Z) (after_digit : bool) (s : list ascii) : option Z :=
  match s with
  | [] => if after_digit then Some acc else None
  | a :: s' =>
      if Ascii.eqb a "_" then
        if after_digit then digits acc false s' else None
      else
        match digit_of a with
        | Some d => digits (10 * acc + d) true s'
        | None => None
        end
  end.

(** [int(s)] for a [str] of ASCII characters, base 10: surrounding white
    space, an optional sign, digits. Anything else raises [ValueError]. *)
Definition int_of_str (s : string) : exn + Z :=
  let parsed :=
    match strip (list_ascii_of_string s) with
    | a :: s' =>
        if Ascii.eqb a "-" then Z.opp <$> digits 0 false s'
        else if Ascii.eqb a "+" then digits 0 false s'
        else digits 0 false (a :: s')
    | [] => None
    end in
  match parsed with
  | Some z => inr z
  | None => inl ValueError
  end.

(** [int(args.get(key, default))] where [args] holds strings and
    [default] is an [int]. *)
Definition int_arg (args : gmap string string) (key : string) (default : Z)
  : exn + Z :=
  match args !! key with
  | Some s => int_of_str s
  | None => inr default
  end.

(** [str(n)] for an [int], as an f-string spells it. *)
Definition str_of_int (n : Z) : string := NilZero.string_of_int (Z.to_int n).

(** [timedelta(days=n)] in microseconds. *)
Definition days (n : Z) : Z := n * 86400 * 1000000.

End Py.

(** ** The relational operators the handlers compose *)

Module Sql.

Section operators.
Context {A B : Type}.

(** [l JOIN r ON on] *)
Definition join (on : A → B → bool) (l : list A) (r : list B) : list (A * B) :=
  a ← l; (λ b, (a, b)) <$> filter (λ b, on a b) r.

(** [l LEFT OUTER JOIN r ON on]: a row of [l] without a match is kept once,
    with NULL in the columns of [r]. *)
Definition outerjoin (on : A → B → bool) (l : list A) (r : list B)
  : list (A * option B) :=
  a ← l;
  match filter (λ b, on a b) r with
  | [] => [(a, None)]
  | matches => (λ b, (a, Some b)) <$> matches
  end.

(** [SELECT DISTINCT] *)
Definition distinct `{EqDecision A} (rows : list A) : list A :=
  remove_dups rows.

(** [OFFSET off LIMIT lim]. The handlers pass on whatever [int] read, and
    what a negative bound means is the engine's affair, [negative]: it
    rejects the statement, or it takes another window instead, skipping
    some rows and keeping a number of the rest or all of them. (Bounds too
    large for the driver to bind are outside this model.) *)
Definition window (negative : Z → Z → Py.exn + (nat * option nat))
    (off lim : Z) (rows : list A) : Py.exn + list A :=
  if (off <? 0) || (lim <? 0) then
    match negative off lim with
    | inl e => inl e
    | inr (skip, Some count) => inr (take count (drop skip rows))
    | inr (skip, None) => inr (drop skip rows)
    end
  else inr (take (Z.to_nat lim) (drop (Z.to_nat off) rows)).

End operators.

(** [col.in_(ids)]; NULL is in no list. *)
Definition in_ (col : option Z) (ids : list Z) : bool :=
  match col with
  | Some k => bool_decide (k ∈ ids)
  | None => false
  end.

(** [max(col)] over the rows of a group; NULL for a group without a value. *)
Definition max_agg (vals : list Z) : option Z :=
  foldr (λ v acc, Some (match acc with Some w => Z.max v w | None => v end))
        None vals.

(** [count(col)] *)
Definition count_agg {A} (rows : list A) : Z := Z.of_nat (length rows).

(** How an engine ranks a NULL sort key, which the source leaves to it
    ([order_by(desc(...))] without [nullslast()] or [nullsfirst()]): below
    every value, so last under DESC (SQLite, MySQL), or above every value,
    so first under DESC (PostgreSQL). *)
Definition null_least_le (x y : option Z) : Prop :=
  match x, y with
  | None, _ => True
  | Some _, None => False
  | Some a, Some b => a ≤ b
  end.

Definition null_greatest_le (x y : option Z) : Prop :=
  match x, y with
  | _, None => True
  | None, Some _ => False
  | Some a, Some b => a ≤ b
  end.

Definition null_le (desc_nulls_first : bool) : relation (option Z) :=
  if desc_nulls_first then null_greatest_le else null_least_le.

#[global] Instance null_least_le_dec : RelDecision null_least_le.
Proof. intros [a|] [b|]; simpl; apply _. Defined.

#[global] Instance null_greatest_le_dec : RelDecision null_greatest_le.
Proof. intros [a|] [b|]; simpl; apply _. Defined.

#[global] Instance null_le_dec b : RelDecision (null_le b).
Proof. destruct b; apply _. Defined.

(** What the source leaves to the database engine. *)
Record Dialect := {
  desc_nulls_first : bool;
    (* [ORDER BY ... DESC] puts NULL before the values *)
  negative_window : Z → Z → Py.exn + (nat * option nat);
    (* [OFFSET]/[LIMIT] with a negative bound *)
}.

Definition str_le (s t : string) : Prop := String.leb s t.

#[global] Instance str_le_dec : RelDecision str_le.
Proof. intros s t. unfold str_le. apply _. Defined.

Section ordering.
Context {A K : Type} (le : relation K) `{!RelDecision le}.

(** [ORDER BY key ASC], [ORDER BY key DESC]. Rows with equal keys stay in
    the order the sort leaves them; no property below depends on it. *)
Definition order_by_asc (key : A → K) (rows : list A) : list A :=
  @merge_sort A (λ a b, le (key a) (key b))
              (λ a b, decide_rel le (key a) (key b)) rows.

Definition order_by_desc (key : A → K) (rows : list A) : list A :=
  @merge_sort A (λ a b, le (key b) (key a))
              (λ a b, decide_rel le (key b) (key a)) rows.

End ordering.

End Sql.

(** ** Rows

    [app.models] is not among the sources. The columns below are the ones
    the handlers read and write; which of them may be NULL follows the data
    model of the spec. *)

(** Modelled from the spec: "User: id, tenant_id, email, active flag, set
    of Roles". *)
Record User := {
  u_id : Z;
  u_tenant_id : Z;
  u_email : string;
  u_is_active : bool;
  u_roles : list string;      (* [role.name for role in user.roles] *)
}.

(** Modelled from the spec: "Client / Lead: ... [created_by] (owning user),
    nullable [assigned_to] (delegate user), [created_at], nullable
    [updated_by/updated_at], nullable [deleted_at/deleted_by]". *)
Record Client := {
  c_id : Z;
  c_tenant_id : Z;
  c_created_by : Z;
  c_assigned_to : option Z;
  c_name : string;
  c_created_at : Z;
  c_updated_by : option Z;
  c_updated_at : option Z;
  c_deleted_at : option Z;
  c_deleted_by : option Z;
  c_columns : gmap string Py.value;   (* the contact and address columns *)
}.

(** Modelled from the spec: the shape of a Client, and "[lead_status]
    ([open|converted|closed|lost]) and nullable [converted_on]". *)
Record Lead := {
  l_id : Z;
  l_tenant_id : Z;
  l_created_by : Z;
  l_assigned_to : option Z;
  l_created_at : Z;
  l_updated_by : option Z;
  l_updated_at : option Z;
  l_deleted_at : option Z;
  l_deleted_by : option Z;
  l_lead_status : option string;
  l_converted_on : option Z;
  l_columns : gmap string Py.value;   (* name, contact and address columns *)
}.

(** Modelled from the spec: "Interaction: belongs to exactly one of Client
    or Lead, [contact_date], ..., optional [follow_up]": [contact_date] is
    not nullable, [client_id] and [lead_id] are. *)
Record Interaction := {
  i_id : Z;
  i_tenant_id : Z;
  i_client_id : option Z;
  i_lead_id : option Z;
  i_contact_date : Z;
}.

(** Modelled from the spec: "Project: project_name, type, [project_status]
    from a fixed option set, ..., optional [project_start]/[project_end],
    ..., [created_by], [created_at]". The columns [update_project] copies
    from the body unchanged are kept as the body's values. *)
Record Project := {
  p_id : Z;
  p_tenant_id : Z;
  p_created_by : Z;
  p_project_status : string;
  p_project_start : option Z;
  p_project_end : option Z;
  p_created_at : option Z;
  p_columns : gmap string Py.value;
    (* project_name, type, project_description, project_worth, client_id,
       lead_id, notes *)
}.

(** Modelled from the spec: "ActivityLog: ... tenant_id, user_id, action,
    entity_type, entity_id". *)
Record ActivityLog := {
  a_tenant_id : Z;
  a_user_id : Z;
  a_action : string;
  a_entity_type : string;
  a_entity_id : Z;
}.

#[global] Instance User_eq_dec : EqDecision User.
Proof. solve_decision. Defined.
#[global] Instance Client_eq_dec : EqDecision Client.
Proof. solve_decision. Defined.
#[global] Instance Lead_eq_dec : EqDecision Lead.
Proof. solve_decision. Defined.
#[global] Instance Interaction_eq_dec : EqDecision Interaction.
Proof. solve_decision. Defined.
#[global] Instance Project_eq_dec : EqDecision Project.
Proof. solve_decision. Defined.
#[global] Instance ActivityLog_eq_dec : EqDecision ActivityLog.
Proof. solve_decision. Defined.

(** The store: one list of rows per table, and the engine that keeps
    them. *)
Record DB := {
  users : list User;
  clients : list Client;
  leads : list Lead;
  interactions : list Interaction;
  projects : list Project;
  activity_log : list ActivityLog;
  dialect : Sql.Dialect;
}.

(** What a handler answers. *)
Inductive reply (A : Type) :=
  | Ok (body : A)                          (* [jsonify(body)], status 200 *)
  | Error (status : Z) (message : string)  (* [jsonify({"error": ..}), status] *)
  | Raise (e : Py.exn).                    (* an exception leaves the handler *)
Arguments Ok {A} body.
Arguments Error {A} status message.
Arguments Raise {A} e.

(** [any(role.name == "admin" for role in user.roles)] *)
Definition is_admin (user : User) : bool :=
  bool_decide ("admin" ∈ u_roles user).

(** [x ← e; k]: run [e]; an exception it raises leaves the handler. *)
Definition try_exn {A B} (e : Py.exn + A) (k : A → reply B) : reply B :=
  match e with
  | inr a => k a
  | inl err => Raise err
  end.

(** A query under construction: the rows it selects, and the tables its FROM
    clause names besides the entity's own. It runs when [count()], [all()]
    or [first()] is called; a FROM clause that names one table twice is
    rejected there. *)
Record query (A : Type) := {
  q_rows : list A;
  q_joined : list string;
}.
Arguments q_rows {A} _.
Arguments q_joined {A} _.

Definition execute {A} (q : query A) : Py.exn + list A :=
  if bool_decide (NoDup (q_joined q)) then inr (q_rows q)
  else inl Py.OperationalError.

(** ** [routes/clients.py] *)

(** The filter of [list_clients]: tenant, not soft-deleted, and assigned to
    the user or unassigned and created by them. *)
Definition client_listed (user : User) (c : Client) : bool :=
  bool_decide (c_tenant_id c = u_tenant_id user)
  && bool_decide (c_deleted_at c = None)
  && (bool_decide (c_assigned_to c = Some (u_id user))
      || bool_decide (c_assigned_to c = None)
         && bool_decide (c_created_by c = u_id user)).

(** [Client.id == Interaction.client_id] *)
Definition on_client (c : Client) (i : Interaction) : bool :=
  bool_decide (i_client_id i = Some (c_id c)).

(** The subquery of the "inactive" branch: the distinct non-NULL
    [client_id]s of the Interactions dated [since] or later. *)
Definition recent_interaction_clients (since : Z) (db : DB) : list (option Z) :=
  Sql.distinct
    (i_client_id <$>
       filter (λ i, bool_decide (i_client_id i ≠ None)
                    && bool_decide (since ≤ i_contact_date i))
              (interactions db)).

(** "Apply activity filtering" *)
Definition client_activity_filter (activity_filter : string) (now : Z)
    (db : DB) (q : query Client) : query Client :=
  if bool_decide (activity_filter = "active") then
    let thirty_days_ago := now - Py.days 30 in
    {| q_rows :=
         Sql.distinct
           (fst <$>
              filter (λ r, bool_decide (thirty_days_ago ≤ i_contact_date r.2))
                     (Sql.join on_client (q_rows q) (interactions db)));
       q_joined := "interactions" :: q_joined q |}
  else if bool_decide (activity_filter = "inactive") then
    let ninety_days_ago := now - Py.days 90 in
    {| q_rows :=
         fst <$>
           filter (λ r, bool_decide (r.2 ≫= id = None))
                  (Sql.outerjoin
                     (λ c cid, bool_decide (cid = Some (c_id c)))
                     (q_rows q)
                     (recent_interaction_clients ninety_days_ago db));
       q_joined := "anon_1" :: q_joined q |}
  else if bool_decide (activity_filter = "new") then
    let seven_days_ago := now - Py.days 7 in
    {| q_rows :=
         filter (λ c, bool_decide (seven_days_ago ≤ c_created_at c)) (q_rows q);
       q_joined := q_joined q |}
  else q.

(** [func.max(Interaction.contact_date)] in the group of client [c] of
    [clients LEFT OUTER JOIN interactions ... GROUP BY clients.id]: the rows
    of the query are clients, one group each; a client without Interactions
    is joined to one all-NULL row, which [max] skips. *)
Definition last_contact (db : DB) (c : Client) : option Z :=
  Sql.max_agg (i_contact_date <$> filter (λ i, on_client c i) (interactions db)).

(** "Apply sorting" *)
Definition client_sort (sort_order : string) (db : DB) (q : query Client)
  : query Client :=
  if bool_decide (sort_order = "newest") then
    {| q_rows := Sql.order_by_desc Z.le c_created_at (q_rows q);
       q_joined := q_joined q |}
  else if bool_decide (sort_order = "oldest") then
    {| q_rows := Sql.order_by_asc Z.le c_created_at (q_rows q);
       q_joined := q_joined q |}
  else if bool_decide (sort_order = "alphabetical") then
    {| q_rows := Sql.order_by_asc Sql.str_le c_name (q_rows q);
       q_joined := q_joined q |}
  else if bool_decide (sort_order = "activity") then
    {| q_rows :=
         Sql.order_by_desc (Sql.null_le (Sql.desc_nulls_first (dialect db)))
           (last_contact db) (q_rows q);
       q_joined := "interactions" :: q_joined q |}
  else q.

(** One entry of [interaction_stats]. *)
Record stats := {
  interaction_count : Z;
  last_interaction_date : option Z;
}.

(** The grouped query behind the statistics: one row per [client_id] among
    the Interactions whose [client_id] is in [client_ids]. *)
Definition interaction_data (client_ids : list Z) (db : DB) : list (Z * stats) :=
  let rows :=
    filter (λ i, Sql.in_ (i_client_id i) client_ids) (interactions db) in
  (λ k, let group := filter (λ i, bool_decide (i_client_id i = Some k)) rows in
        (k, {| interaction_count := Sql.count_agg group;
               last_interaction_date := Sql.max_agg (i_contact_date <$> group) |}))
    <$> Sql.distinct (omap i_client_id rows).

Definition interaction_stats (client_ids : list Z) (db : DB) : gmap Z stats :=
  match client_ids with
  | [] => ∅
  | _ => foldl (λ m d, <[d.1 := d.2]> m) ∅ (interaction_data client_ids db)
  end.

(** One element of the ["clients"] array of a list reply: the row and its
    decoration. (How the row is spelled out in JSON is left out.) *)
Record ClientItem := {
  ci_client : Client;
  ci_interaction_count : Z;
  ci_last_interaction_date : option Z;
}.

Record ClientList := {
  cl_clients : list ClientItem;
  cl_total : Z;
  cl_page : Z;
  cl_per_page : Z;
  cl_sort_order : string;
  cl_activity_filter : string;
}.

Definition decorate (interaction_stats : gmap Z stats) (c : Client) : ClientItem :=
  {| ci_client := c;
     ci_interaction_count :=
       default 0 (interaction_count <$> interaction_stats !! c_id c);
     ci_last_interaction_date :=
       interaction_stats !! c_id c ≫= last_interaction_date |}.

(** The part [list_clients] and [list_all_clients] share, from reading the
    arguments on; [base] is the handler's own filter. *)
Definition client_listing (base : list Client) (args : gmap string string)
    (now : Z) (db : DB) : reply ClientList :=
  try_exn (Py.int_arg args "page" 1) (λ page,
  try_exn (Py.int_arg args "per_page" 20) (λ per_page,
  let sort_order := default "newest" (args !! "sort") in
  let activity_filter := default "all" (args !! "activity_filter") in
  let sort_order :=
    if bool_decide (sort_order ∈ ["newest"; "oldest"; "alphabetical"; "activity"])
    then sort_order else "newest" in
  let q := {| q_rows := base; q_joined := [] |} in
  let q := client_activity_filter activity_filter now db q in
  let q := client_sort sort_order db q in
  try_exn (execute q) (λ rows,
  let total := Z.of_nat (length rows) in
  try_exn (Sql.window (Sql.negative_window (dialect db))
             ((page - 1) * per_page) per_page rows) (λ clients,
  let client_ids := c_id <$> clients in
  let interaction_stats := interaction_stats client_ids db in
  Ok {| cl_clients := decorate interaction_stats <$> clients;
        cl_total := total;
        cl_page := page;
        cl_per_page := per_page;
        cl_sort_order := sort_order;
        cl_activity_filter := activity_filter |})))).

Definition list_clients (user : User) (args : gmap string string) (now : Z)
    (db : DB) : reply ClientList :=
  client_listing (filter (λ c, client_listed user c) (clients db)) args now db.

(** [relationship.has(User.email == email)] for the user a column points to. *)
Definition has_email (db : DB) (user_id : option Z) (email : string) : bool :=
  bool_decide
    (Exists (λ u, Some (u_id u) = user_id ∧ u_email u = email) (users db)).

Definition list_all_clients (user : User) (args : gmap string string) (now : Z)
    (db : DB) : reply ClientList :=
  let base :=
    filter (λ c, bool_decide (c_tenant_id c = u_tenant_id user)
                 && bool_decide (c_deleted_at c = None))
           (clients db) in
  let base :=
    match args !! "user_email" with
    | Some user_email =>
        if negb (String.eqb user_email "") then
          filter (λ c, has_email db (c_assigned_to c) user_email
                       || has_email db (Some (c_created_by c)) user_email)
                 base
        else base
    | None => base
    end in
  client_listing base args now db.

Definition list_assigned_clients (user : User) (db : DB) : reply (list Client) :=
  Ok (filter (λ c, bool_decide (c_tenant_id c = u_tenant_id user)
                   && bool_decide (c_assigned_to c = Some (u_id user))
                   && bool_decide (c_deleted_at c = None))
             (clients db)).

Definition viewed (user : User) (entity_type : string) (entity_id : Z)
  : ActivityLog :=
  {| a_tenant_id := u_tenant_id user;
     a_user_id := u_id user;
     a_action := "viewed";
     a_entity_type := entity_type;
     a_entity_id := entity_id |}.

(** [session.add(log); session.commit()] *)
Definition add_log (log : ActivityLog) (db : DB) : DB :=
  {| users := users db;
     clients := clients db;
     leads := leads db;
     interactions := interactions db;
     projects := projects db;
     activity_log := activity_log db ++ [log];
     dialect := dialect db |}.

Definition get_client (user : User) (client_id : Z) (db : DB)
  : reply Client * DB :=
  let client_query :=
    filter (λ c, bool_decide (c_id c = client_id)
                 && bool_decide (c_tenant_id c = u_tenant_id user)
                 && bool_decide (c_deleted_at c = None))
           (clients db) in
  let client_query :=
    if negb (is_admin user) then
      filter (λ c, bool_decide (c_created_by c = u_id user)
                   || bool_decide (c_assigned_to c = Some (u_id user)))
             client_query
    else client_query in
  match head client_query with
  | None => (Error 404 "Client not found", db)
  | Some client =>
      (Ok client, add_log (viewed user "client" (c_id client)) db)
  end.

(** The fields [assign_client] sets on the row. *)
Definition client_assign (assigned_to : option Z) (by_user : Z) (now : Z)
    (c : Client) : Client :=
  {| c_id := c_id c;
     c_tenant_id := c_tenant_id c;
     c_created_by := c_created_by c;
     c_assigned_to := assigned_to;
     c_name := c_name c;
     c_created_at := c_created_at c;
     c_updated_by := Some by_user;
     c_updated_at := Some now;
     c_deleted_at := c_deleted_at c;
     c_deleted_by := c_deleted_by c;
     c_columns := c_columns c |}.

(** The store with row [i] of [clients] written back. *)
Definition put_client (i : nat) (c : Client) (db : DB) : DB :=
  {| users := users db;
     clients := <[i := c]> (clients db);
     leads := leads db;
     interactions := interactions db;
     projects := projects db;
     activity_log := activity_log db;
     dialect := dialect db |}.

(** The filter both assignment handlers validate the assignee with:
    [User.id == assigned_to], same tenant, active. *)
Definition assignable (user : User) (assigned_to : option Z) (u : User) : Prop :=
  Some (u_id u) = assigned_to
  ∧ u_tenant_id u = u_tenant_id user
  ∧ u_is_active u = true.

#[global] Instance assignable_dec user assigned_to u :
  Decision (assignable user assigned_to u).
Proof. unfold assignable. apply _. Defined.

(** [bool(assigned_to)] for [assigned_to = data.get("assigned_to")]: a user
    id, or [None] when the body has no such key or has null there. *)
Definition given (assigned_to : option Z) : bool :=
  Py.truthy (from_option Py.VInt Py.VNone assigned_to).

Section client_assignment.

(** The mail collaborator, [app.utils.email_utils.send_assignment_notification]
    ([to_email], [entity_type], [entity_name], [assigned_by]): it returns
    ([None]), or it raises. *)
Context (send_assignment_notification :
           string → string → Py.value → string → option Py.exn).

Definition assign_client (user : User) (client_id : Z) (assigned_to : option Z)
    (now : Z) (db : DB) : reply string * DB :=
  if negb (given assigned_to) then (Error 400 "Missing assigned_to", db)
  else
    match list_find (λ c, c_id c = client_id
                          ∧ c_tenant_id c = u_tenant_id user
                          ∧ c_deleted_at c = None) (clients db) with
    | None => (Error 404 "Client not found", db)
    | Some (i, client) =>
        match list_find (assignable user assigned_to) (users db) with
        | None => (Error 400 "Assigned user not found or inactive", db)
        | Some (_, assigned_user) =>
            let client := client_assign assigned_to (u_id user) now client in
            match send_assignment_notification
                    (u_email assigned_user) "client"
                    (Py.VStr (c_name client)) (u_email user) with
            | Some e => (Raise e, db)   (* not caught: no commit *)
            | None =>
                (Ok "Client assigned successfully", put_client i client db)
            end
        end
    end.

End client_assignment.

(** ** [routes/leads.py] *)

Definition lead_listed (user : User) (l : Lead) : bool :=
  bool_decide (l_tenant_id l = u_tenant_id user)
  && bool_decide (l_deleted_at l = None)
  && (bool_decide (l_assigned_to l = Some (u_id user))
      || bool_decide (l_assigned_to l = None)
         && bool_decide (l_created_by l = u_id user)).

Definition list_leads (user : User) (db : DB) : reply (list Lead) :=
  Ok (filter (λ l, lead_listed user l) (leads db)).

Definition list_all_leads_admin (user : User) (db : DB) : reply (list Lead) :=
  Ok (filter (λ l, bool_decide (l_tenant_id l = u_tenant_id user)
                   && bool_decide (l_deleted_at l = None))
             (leads db)).

Definition list_assigned_leads (user : User) (db : DB) : reply (list Lead) :=
  Ok (filter (λ l, bool_decide (l_tenant_id l = u_tenant_id user)
                   && bool_decide (l_deleted_at l = None)
                   && bool_decide (l_assigned_to l ≠ None))
             (leads db)).

Definition get_lead (user : User) (lead_id : Z) (db : DB) : reply Lead * DB :=
  let lead_query :=
    filter (λ l, bool_decide (l_id l = lead_id)
                 && bool_decide (l_tenant_id l = u_tenant_id user)
                 && bool_decide (l_deleted_at l = None))
           (leads db) in
  let lead_query :=
    if negb (is_admin user) then
      filter (λ l, bool_decide (l_created_by l = u_id user)
                   || bool_decide (l_assigned_to l = Some (u_id user)))
             lead_query
    else lead_query in
  match head lead_query with
  | None => (Error 404 "Lead not found", db)
  | Some lead => (Ok lead, add_log (viewed user "lead" (l_id lead)) db)
  end.

Definition put_lead (i : nat) (l : Lead) (db : DB) : DB :=
  {| users := users db;
     clients := clients db;
     leads := <[i := l]> (leads db);
     interactions := interactions db;
     projects := projects db;
     activity_log := activity_log db;
     dialect := dialect db |}.

(** The rows [update_lead] and [delete_lead] may touch. *)
Definition lead_editable (user : User) (lead_id : Z) (l : Lead) : Prop :=
  l_id l = lead_id
  ∧ l_tenant_id l = u_tenant_id user
  ∧ (l_created_by l = u_id user ∨ l_assigned_to l = Some (u_id user))
  ∧ l_deleted_at l = None.

#[global] Instance lead_editable_dec user lead_id l :
  Decision (lead_editable user lead_id l).
Proof. unfold lead_editable. apply _. Defined.

Definition lead_text_fields : list string :=
  ["name"; "contact_person"; "contact_title"; "email"; "phone"; "phone_label";
   "secondary_phone"; "secondary_phone_label";
   "address"; "city"; "state"; "zip"; "notes"].

(** [for field in fields: if field in data: setattr(row, field, f(data[field]))] *)
Definition copy_fields (f : Py.value → Py.value) (fields : list string)
    (data columns : gmap string Py.value) : gmap string Py.value :=
  foldl (λ cols field,
           match data !! field with
           | Some v => <[field := f v]> cols
           | None => cols
           end)
        columns fields.

(** "Handle lead_status and converted_on": the new [lead_status] and
    [converted_on] of the row. *)
Definition lead_status_update (data : gmap string Py.value) (now : Z) (l : Lead)
  : option string * option Z :=
  match data !! "lead_status" with
  | Some (Py.VStr new_status) =>
      if bool_decide (new_status ∈ ["open"; "converted"; "closed"; "lost"]) then
        (Some new_status,
         if bool_decide (new_status = "converted")
            && bool_decide (l_lead_status l ≠ Some "converted")
         then Some now else l_converted_on l)
      else (l_lead_status l, l_converted_on l)
  | _ => (l_lead_status l, l_converted_on l)
  end.

Definition update_lead (user : User) (lead_id : Z) (data : gmap string Py.value)
    (now : Z) (db : DB) : reply Z * DB :=
  match list_find (lead_editable user lead_id) (leads db) with
  | None => (Error 404 "Lead not found", db)
  | Some (i, lead) =>
      let columns := copy_fields Py.or_none lead_text_fields data (l_columns lead) in
      let status := lead_status_update data now lead in
      let lead :=
        {| l_id := l_id lead;
           l_tenant_id := l_tenant_id lead;
           l_created_by := l_created_by lead;
           l_assigned_to := l_assigned_to lead;
           l_created_at := l_created_at lead;
           l_updated_by := Some (u_id user);
           l_updated_at := Some now;
           l_deleted_at := l_deleted_at lead;
           l_deleted_by := l_deleted_by lead;
           l_lead_status := status.1;
           l_converted_on := status.2;
           l_columns := columns |} in
      (Ok (l_id lead), put_lead i lead db)
  end.

Definition lead_assign (assigned_to : option Z) (by_user : Z) (now : Z)
    (l : Lead) : Lead :=
  {| l_id := l_id l;
     l_tenant_id := l_tenant_id l;
     l_created_by := l_created_by l;
     l_assigned_to := assigned_to;
     l_created_at := l_created_at l;
     l_updated_by := Some by_user;
     l_updated_at := Some now;
     l_deleted_at := l_deleted_at l;
     l_deleted_by := l_deleted_by l;
     l_lead_status := l_lead_status l;
     l_converted_on := l_converted_on l;
     l_columns := l_columns l |}.

(** [lead.name] *)
Definition l_name (l : Lead) : Py.value := default Py.VNone (l_columns l !! "name").

Section lead_assignment.

Context (send_assignment_notification :
           string → string → Py.value → string → option Py.exn).

(** [f"User {assigned_to} not found or not active"] *)
Definition no_such_user (assigned_to : option Z) : string :=
  "User " ++ from_option Py.str_of_int "None" assigned_to
  ++ " not found or not active".

(** [session.commit()] is taken to succeed, here as in every handler: the
    [except] branches that answer 500 when it fails are not reached. *)
Definition assign_lead (user : User) (lead_id : Z) (assigned_to : option Z)
    (now : Z) (db : DB) : reply string * DB :=
  match list_find (λ l, l_id l = lead_id
                        ∧ l_tenant_id l = u_tenant_id user
                        ∧ l_deleted_at l = None) (leads db) with
  | None => (Error 404 "Lead not found", db)
  | Some (i, lead) =>
      if given assigned_to
         && bool_decide (list_find (assignable user assigned_to) (users db) = None)
      then (Error 400 (no_such_user assigned_to), db)
      else
        let lead := lead_assign assigned_to (u_id user) now lead in
        let commit := (Ok "Lead assigned successfully", put_lead i lead db) in
        if given assigned_to then
          (* [session.query(User).get(assigned_to)] *)
          match list_find (λ u, Some (u_id u) = assigned_to) (users db) with
          | Some (_, assigned_user) =>
              match send_assignment_notification
                      (u_email assigned_user) "lead" (l_name lead)
                      (u_email user) with
              | None => commit
              | Some email_error => commit   (* caught and printed *)
              end
          | None => commit
          end
        else commit
  end.

End lead_assignment.

(** ** [routes/projects.py] *)

Section projects.

(** [datetime.fromisoformat] on a [str]: the parsed time, or [None] where it
    raises [ValueError]. *)
Context (fromisoformat : string → option Z).

(** [app.constants.PROJECT_STATUS_OPTIONS] *)
Context (PROJECT_STATUS_OPTIONS : list string).

Definition parse_date_with_default_time (value : Py.value) : Py.exn + option Z :=
  if negb (Py.truthy value) then inr None
  else
    match value with
    | Py.VStr s =>
        match fromisoformat s with
        | Some d => inr (Some d)
        | None =>
            match fromisoformat (s ++ "T00:00:00") with
            | Some d => inr (Some d)
            | None => inr None
            end
        end
    | _ => inl Py.TypeError   (* [fromisoformat]: argument must be str *)
    end.

(** The row [get_project], [update_project] and [delete_project] work on:
    [Project.id == project_id, Project.tenant_id == user.tenant_id]. *)
Definition project_in_tenant (user : User) (project_id : Z) (p : Project) : Prop :=
  p_id p = project_id ∧ p_tenant_id p = u_tenant_id user.

#[global] Instance project_in_tenant_dec user project_id p :
  Decision (project_in_tenant user project_id p).
Proof. unfold project_in_tenant. apply _. Defined.

Definition get_project (user : User) (project_id : Z) (db : DB)
  : reply Project * DB :=
  match list_find (project_in_tenant user project_id) (projects db) with
  | None => (Error 404 "Project not found", db)
  | Some (_, project) =>
      (Ok project, add_log (viewed user "project" (p_id project)) db)
  end.

(** Modelled from the spec: "optional foreign link to exactly one of Client
    or Lead (or neither)": [project.client] and [project.lead], the rows
    the foreign keys [client_id] and [lead_id] point to. The relationship
    follows the key and reads no other column. *)
Definition project_client (db : DB) (p : Project) : option Client :=
  snd <$> list_find (λ c, p_columns p !! "client_id" = Some (Py.VInt (c_id c)))
                    (clients db).

Definition project_lead (db : DB) (p : Project) : option Lead :=
  snd <$> list_find (λ l, p_columns p !! "lead_id" = Some (Py.VInt (l_id l)))
                    (leads db).

(** ["client_name"] and ["lead_name"] in the replies of [get_project],
    [list_projects] and [list_all_projects]:
    [p.client.name if p.client else None], [p.lead.name if p.lead else None] *)
Definition client_name (db : DB) (p : Project) : option string :=
  c_name <$> project_client db p.

Definition lead_name (db : DB) (p : Project) : option Py.value :=
  l_name <$> project_lead db p.

Definition with_projects (ps : list Project) (db : DB) : DB :=
  {| users := users db;
     clients := clients db;
     leads := leads db;
     interactions := interactions db;
     projects := ps;
     activity_log := activity_log db;
     dialect := dialect db |}.

Definition project_fields : list string :=
  ["project_name"; "type"; "project_description"; "project_worth";
   "client_id"; "lead_id"; "notes"].

(** [if key in data: (parse data[key]) else: (keep)] for the two dates. *)
Definition date_update (data : gmap string Py.value) (key : string)
    (current : option Z) : Py.exn + option Z :=
  match data !! key with
  | Some value => parse_date_with_default_time value
  | None => inr current
  end.

Definition update_project (user : User) (project_id : Z)
    (data : gmap string Py.value) (db : DB) : reply Z * DB :=
  match list_find (project_in_tenant user project_id) (projects db) with
  | None => (Error 404 "Project not found", db)
  | Some (i, project) =>
      let columns := copy_fields id project_fields data (p_columns project) in
      let status :=
        match data !! "project_status" with
        | Some (Py.VStr status) =>
            if bool_decide (status ∈ PROJECT_STATUS_OPTIONS) then status
            else p_project_status project
        | _ => p_project_status project
        end in
      match date_update data "project_start" (p_project_start project) with
      | inl e => (Raise e, db)
      | inr project_start =>
          match date_update data "project_end" (p_project_end project) with
          | inl e => (Raise e, db)
          | inr project_end =>
              let project :=
                {| p_id := p_id project;
                   p_tenant_id := p_tenant_id project;
                   p_created_by := p_created_by project;
                   p_project_status := status;
                   p_project_start := project_start;
                   p_project_end := project_end;
                   p_created_at := p_created_at project;
                   p_columns := columns |} in
              (Ok (p_id project), with_projects (<[i := project]> (projects db)) db)
          end
      end
  end.

Definition delete_project (user : User) (project_id : Z) (db : DB)
  : reply string * DB :=
  match list_find (project_in_tenant user project_id) (projects db) with
  | None => (Error 404 "Project not found", db)
  | Some (i, project) =>
      (Ok "Project deleted", with_projects (delete i (projects db)) db)
  end.

End projects.

(** ** Well-formed stores *)

(** [id] is the primary key of each table. *)
Definition primary_keys (db : DB) : Prop :=
  NoDup (c_id <$> clients db)
  ∧ NoDup (l_id <$> leads db)
  ∧ NoDup (p_id <$> projects db)
  ∧ NoDup (u_id <$> users db).

#[global] Instance primary_keys_dec db : Decision (primary_keys db).
Proof. unfold primary_keys. apply _. Defined.

(** ** A small store

    Tenant 1 with the three users of [seed_test_data.py], a deactivated
    colleague and a user of another tenant; used to run the handlers. *)

Definition demo_now : Z := Py.days 1000.

Definition mk_user (id tenant : Z) (email : string) (active : bool)
    (roles : list string) : User :=
  {| u_id := id; u_tenant_id := tenant; u_email := email;
     u_is_active := active; u_roles := roles |}.

Definition admin : User := mk_user 1 1 "admin@demo.com" true ["admin"].
Definition user1 : User := mk_user 2 1 "user1@demo.com" true ["user"].
Definition user2 : User := mk_user 3 1 "user2@demo.com" true ["user"].
Definition retired : User := mk_user 4 1 "old@demo.com" false ["user"].
Definition outsider : User := mk_user 5 2 "user@other.com" true ["user"].

Definition mk_client (id tenant created_by : Z) (assigned_to : option Z)
    (name : string) (created_at : Z) (deleted_at : option Z) : Client :=
  {| c_id := id; c_tenant_id := tenant; c_created_by := created_by;
     c_assigned_to := assigned_to; c_name := name; c_created_at := created_at;
     c_updated_by := None; c_updated_at := None;
     c_deleted_at := deleted_at; c_deleted_by := deleted_at ≫= λ _, Some created_by;
     c_columns := ∅ |}.

(** created by user1, unassigned, last contact 10 days ago *)
Definition client_a : Client :=
  mk_client 1 1 2 None "Alpha" (Py.days 900) None.
(** created by user1, assigned to user2, last contact 100 days ago *)
Definition client_b : Client :=
  mk_client 2 1 2 (Some 3) "Bravo" (Py.days 910) None.
(** created by user2, soft-deleted *)
Definition client_c : Client :=
  mk_client 3 1 3 None "Charlie" (Py.days 920) (Some (Py.days 950)).
(** created by user1, unassigned, never contacted *)
Definition client_d : Client :=
  mk_client 4 1 2 None "Delta" (Py.days 998) None.
(** of tenant 2 *)
Definition client_e : Client :=
  mk_client 5 2 5 None "Echo" (Py.days 930) None.

Definition mk_lead (id tenant created_by : Z) (assigned_to : option Z)
    (name : string) (status : string) (converted_on deleted_at : option Z)
  : Lead :=
  {| l_id := id; l_tenant_id := tenant; l_created_by := created_by;
     l_assigned_to := assigned_to; l_created_at := Py.days 900;
     l_updated_by := None; l_updated_at := None;
     l_deleted_at := deleted_at; l_deleted_by := deleted_at ≫= λ _, Some created_by;
     l_lead_status := Some status; l_converted_on := converted_on;
     l_columns := {[ "name" := Py.VStr name ]} |}.

Definition lead_a : Lead := mk_lead 1 1 2 None "Lima" "open" None None.
Definition lead_b : Lead :=
  mk_lead 2 1 2 (Some 3) "Mike" "converted" (Some (Py.days 940)) None.
Definition lead_c : Lead :=
  mk_lead 3 1 3 None "November" "open" None (Some (Py.days 950)).

Definition mk_interaction (id : Z) (client_id lead_id : option Z) (date : Z)
  : Interaction :=
  {| i_id := id; i_tenant_id := 1; i_client_id := client_id;
     i_lead_id := lead_id; i_contact_date := date |}.

Definition mk_project (id tenant created_by : Z) (name : string) : Project :=
  {| p_id := id; p_tenant_id := tenant; p_created_by := created_by;
     p_project_status := "pending"; p_project_start := None;
     p_project_end := None; p_created_at := Some (Py.days 900);
     p_columns := {[ "project_name" := Py.VStr name ]} |}.

Definition project_a : Project := mk_project 1 1 1 "Unattached Project A".
Definition project_b : Project := mk_project 2 1 3 "Unattached Project B".

(** Two engines: one that ranks NULL lowest, reads a negative OFFSET as 0
    and a negative LIMIT as no limit (as SQLite does), and one that ranks
    NULL highest and rejects a negative bound (as PostgreSQL does). *)
Definition lenient : Sql.Dialect :=
  {| Sql.desc_nulls_first := false;
     Sql.negative_window := λ off lim,
       inr (Z.to_nat off, if lim <? 0 then None else Some (Z.to_nat lim)) |}.

Definition strict : Sql.Dialect :=
  {| Sql.desc_nulls_first := true;
     Sql.negative_window := λ _ _, inl Py.OperationalError |}.

Definition demo_db : DB :=
  {| users := [admin; user1; user2; retired; outsider];
     clients := [client_a; client_b; client_c; client_d; client_e];
     leads := [lead_a; lead_b; lead_c];
     interactions :=
       [mk_interaction 1 (Some 1) None (Py.days 990);
        mk_interaction 2 (Some 2) None (Py.days 900);
        mk_interaction 3 (Some 1) None (Py.days 800);
        mk_interaction 4 None (Some 1) (Py.days 990);
        mk_interaction 5 (Some 3) None (Py.days 995)];
     projects := [project_a; project_b];
     activity_log := [];
     dialect := lenient |}.

(** The same rows on the other engine. *)
Definition demo_db_strict : DB :=
  {| users := users demo_db;
     clients := clients demo_db;
     leads := leads demo_db;
     interactions := interactions demo_db;
     projects := projects demo_db;
     activity_log := activity_log demo_db;
     dialect := strict |}.

(** A mail collaborator that always delivers, and one that always fails. *)
Definition mail_ok : string → string → Py.value → string → option Py.exn :=
  λ _ _ _ _, None.
Definition mail_down : string → string → Py.value → string → option Py.exn :=
  λ _ _ _ _, Some Py.DeliveryError.

(** The store with two more projects, both made by user2: one for client 1
    and one for lead 1. *)
Definition project_c : Project :=
  {| p_id := 3; p_tenant_id := 1; p_created_by := 3;
     p_project_status := "pending"; p_project_start := None;
     p_project_end := None; p_created_at := Some (Py.days 950);
     p_columns := {[ "project_name" := Py.VStr "Roof";
                     "client_id" := Py.VInt 1 ]} |}.

Definition project_d : Project :=
  {| p_id := 4; p_tenant_id := 1; p_created_by := 3;
     p_project_status := "pending"; p_project_start := None;
     p_project_end := None; p_created_at := Some (Py.days 960);
     p_columns := {[ "project_name" := Py.VStr "Fence";
                     "lead_id" := Py.VInt 1 ]} |}.

Definition demo_db_attached : DB :=
  with_projects [project_a; project_b; project_c; project_d] demo_db.

(** The store with a project for the soft-deleted client 3 and one for the
    soft-deleted lead 3, both made by user1. *)
Definition project_e : Project :=
  {| p_id := 5; p_tenant_id := 1; p_created_by := 2;
     p_project_status := "pending"; p_project_start := None;
     p_project_end := None; p_created_at := Some (Py.days 940);
     p_columns := {[ "project_name" := Py.VStr "Porch";
                     "client_id" := Py.VInt 3 ]} |}.

Definition project_f : Project :=
  {| p_id := 6; p_tenant_id := 1; p_created_by := 2;
     p_project_status := "pending"; p_project_start := None;
     p_project_end := None; p_created_at := Some (Py.days 941);
     p_columns := {[ "project_name" := Py.VStr "Shed";
                     "lead_id" := Py.VInt 3 ]} |}.

Definition demo_db_linked : DB :=
  with_projects [project_a; project_b; project_e; project_f] demo_db.

(** A reader of ISO dates that knows one instant. *)
Definition one_date (s : string) : option Z :=
  if String.eqb s "2024-05-01T00:00:00" then Some (Py.days 700) else None.

(** ** Vocabulary of the statements *)

(** The sort keyword a list request ends up with, and its filter keyword. *)
Definition sort_arg (args : gmap string string) : string :=
  let sort_order := default "newest" (args !! "sort") in
  if bool_decide (sort_order ∈ ["newest"; "oldest"; "alphabetical"; "activity"])
  then sort_order else "newest".

Definition activity_arg (args : gmap string string) : string :=
  default "all" (args !! "activity_filter").

(** The query [client_listing] builds before it counts and cuts a page. *)
Definition client_query (base : list Client) (args : gmap string string)
    (now : Z) (db : DB) : query Client :=
  client_sort (sort_arg args) db
    (client_activity_filter (activity_arg args) now db
       {| q_rows := base; q_joined := [] |}).

(** The clients of a reply. *)
Definition listed_clients (body : ClientList) : list Client :=
  ci_client <$> cl_clients body.




(** Client [c] is on some page of the list [list_clients] gives [user] for
    the arguments [args]. *)
Definition on_some_page (user : User) (args : gmap string string) (now : Z)
    (db : DB) (c : Client) : Prop :=
  ∃ page body,
    list_clients user (<["page" := page]> args) now db = Ok body
    ∧ c ∈ listed_clients body.

(** Client [c] has an Interaction dated [since] or later; has one at all. *)
Definition contacted_since (db : DB) (c : Client) (since : Z) : Prop :=
  ∃ i, i ∈ interactions db ∧ i_client_id i = Some (c_id c)
       ∧ since ≤ i_contact_date i.

Definition contacted (db : DB) (c : Client) : Prop :=
  ∃ i, i ∈ interactions db ∧ i_client_id i = Some (c_id c).

(** ** The other handlers of [clients.py], [leads.py] and [projects.py]

    [create_client] and [update_client] are left out: [Client.name] is kept
    as a string here, and both may store whatever the body holds. *)

(** The rows [update_client] and [delete_client] may touch. *)
Definition client_editable (user : User) (client_id : Z) (c : Client) : Prop :=
  c_id c = client_id
  ∧ c_tenant_id c = u_tenant_id user
  ∧ c_deleted_at c = None
  ∧ (c_created_by c = u_id user ∨ c_assigned_to c = Some (u_id user)).

#[global] Instance client_editable_dec user client_id c :
  Decision (client_editable user client_id c).
Proof. unfold client_editable. apply _. Defined.

(** The fields [delete_client] sets on the row. *)
Definition client_soft_delete (by_user : Z) (now : Z) (c : Client) : Client :=
  {| c_id := c_id c;
     c_tenant_id := c_tenant_id c;
     c_created_by := c_created_by c;
     c_assigned_to := c_assigned_to c;
     c_name := c_name c;
     c_created_at := c_created_at c;
     c_updated_by := c_updated_by c;
     c_updated_at := c_updated_at c;
     c_deleted_at := Some now;
     c_deleted_by := Some by_user;
     c_columns := c_columns c |}.

Definition delete_client (user : User) (client_id : Z) (now : Z) (db : DB)
  : reply string * DB :=
  match list_find (client_editable user client_id) (clients db) with
  | None => (Error 404 "Client not found", db)
  | Some (i, client) =>
      (Ok "Client soft-deleted successfully",
       put_client i (client_soft_delete (u_id user) now client) db)
  end.

Definition lead_soft_delete (by_user : Z) (now : Z) (l : Lead) : Lead :=
  {| l_id := l_id l;
     l_tenant_id := l_tenant_id l;
     l_created_by := l_created_by l;
     l_assigned_to := l_assigned_to l;
     l_created_at := l_created_at l;
     l_updated_by := l_updated_by l;
     l_updated_at := l_updated_at l;
     l_deleted_at := Some now;
     l_deleted_by := Some by_user;
     l_lead_status := l_lead_status l;
     l_converted_on := l_converted_on l;
     l_columns := l_columns l |}.

Definition delete_lead (user : User) (lead_id : Z) (now : Z) (db : DB)
  : reply string * DB :=
  match list_find (lead_editable user lead_id) (leads db) with
  | None => (Error 404 "Lead not found", db)
  | Some (i, lead) =>
      (Ok "Lead soft-deleted successfully",
       put_lead i (lead_soft_delete (u_id user) now lead) db)
  end.

(** What [create_lead] does: the new row is in the store under the id the
    store gave it (201), or [data["name"]] raised [KeyError]. *)
Inductive created :=
  | Created (id : Z) (db : DB)
  | KeyError (key : string).

(** [data.get(key)] and [data.get(key, default)] *)
Definition get_or (data : gmap string Py.value) (key : string)
    (otherwise : Py.value) : Py.value :=
  default otherwise (data !! key).

Section create_lead.

(** The id the store gives the new row, and the [lead_status] the model
    class gives a lead that is created without one. *)
Context (new_id : Z) (default_status : option string).

Definition create_lead (user : User) (data : gmap string Py.value) (now : Z)
    (db : DB) : created :=
  match data !! "name" with
  | None => KeyError "name"
  | Some name =>
      let columns : gmap string Py.value :=
        <["name" := name]>
        (<["phone_label" := get_or data "phone_label" (Py.VStr "work")]>
        (foldr (λ field cols, <[field := get_or data field Py.VNone]> cols) ∅
           ["contact_person"; "contact_title"; "email"; "phone";
            "secondary_phone"; "secondary_phone_label";
            "address"; "city"; "state"; "zip"; "notes"])) in
      let lead :=
        {| l_id := new_id;
           l_tenant_id := u_tenant_id user;
           l_created_by := u_id user;
           l_assigned_to := None;
           l_created_at := now;
           l_updated_by := None;
           l_updated_at := None;
           l_deleted_at := None;
           l_deleted_by := None;
           l_lead_status := default_status;
           l_converted_on := None;
           l_columns := columns |} in
      Created new_id
        {| users := users db;
           clients := clients db;
           leads := leads db ++ [lead];
           interactions := interactions db;
           projects := projects db;
           activity_log := activity_log db;
           dialect := dialect db |}
  end.

End create_lead.

(** What [create_project] does: the new row is in the store (201), or the
    handler was left by an exception. *)
Inductive project_created :=
  | ProjectCreated (id : Z) (db : DB)
  | ProjectKeyError (key : string)   (* [data["project_name"]] *)
  | ProjectIndexError                (* [PROJECT_STATUS_OPTIONS[0]], no options *)
  | ProjectRaise (e : Py.exn).

Section create_project.

Context (fromisoformat : string → option Z).
Context (PROJECT_STATUS_OPTIONS : list string).

(** The id the store gives the new row. *)
Context (new_id : Z).

Definition create_project (user : User) (data : gmap string Py.value)
    (now : Z) (db : DB) : project_created :=
  match PROJECT_STATUS_OPTIONS with
  | [] => ProjectIndexError
  | first :: _ =>
      let status :=
        match data !! "project_status" with
        | Some (Py.VStr status) =>
            if bool_decide (status ∈ PROJECT_STATUS_OPTIONS) then status
            else first
        | _ => first
        end in
      match data !! "project_name" with
      | None => ProjectKeyError "project_name"
      | Some project_name =>
          match parse_date_with_default_time fromisoformat
                  (get_or data "project_start" Py.VNone) with
          | inl e => ProjectRaise e
          | inr project_start =>
              match parse_date_with_default_time fromisoformat
                      (get_or data "project_end" Py.VNone) with
              | inl e => ProjectRaise e
              | inr project_end =>
                  let columns : gmap string Py.value :=
                    <["project_name" := project_name]>
                    (<["type" := get_or data "type" (Py.VStr "None")]>
                    (foldr (λ field cols,
                              <[field := get_or data field Py.VNone]> cols) ∅
                       ["client_id"; "lead_id"; "project_description";
                        "notes"; "project_worth"])) in
                  let project :=
                    {| p_id := new_id;
                       p_tenant_id := u_tenant_id user;
                       p_created_by := u_id user;
                       p_project_status := status;
                       p_project_start := project_start;
                       p_project_end := project_end;
                       p_created_at := Some now;
                       p_columns := columns |} in
                  ProjectCreated new_id
                    (with_projects (projects db ++ [project]) db)
              end
          end
      end
  end.

End create_project.

Definition list_projects (user : User) (db : DB) : reply (list Project) :=
  Ok (filter (λ p, bool_decide (p_tenant_id p = u_tenant_id user)
                   && bool_decide (p_created_by p = u_id user))
             (projects db)).

(** [Project.client_id == client_id], [Project.lead_id == lead_id] *)
Definition of_client (client_id : Z) (p : Project) : bool :=
  bool_decide (p_columns p !! "client_id" = Some (Py.VInt client_id)).

Definition of_lead (lead_id : Z) (p : Project) : bool :=
  bool_decide (p_columns p !! "lead_id" = Some (Py.VInt lead_id)).

(** [ORDER BY created_at DESC] on a nullable column: where the rows without
    a date go is the engine's affair. *)
Definition newest_first (db : DB) (ps : list Project) : list Project :=
  Sql.order_by_desc (Sql.null_le (Sql.desc_nulls_first (dialect db)))
    p_created_at ps.

Definition list_projects_by_client (user : User) (client_id : Z) (db : DB)
  : reply (list Project) :=
  match list_find (λ c, c_id c = client_id
                        ∧ c_tenant_id c = u_tenant_id user
                        ∧ c_deleted_at c = None) (clients db) with
  | None => Error 404 "Client not found"
  | Some (_, client) =>
      if negb (is_admin user)
         && (bool_decide (c_assigned_to client ≠ Some (u_id user))
             && bool_decide (c_created_by client ≠ u_id user))
      then Error 403 "Forbidden"
      else
        Ok (newest_first db
              (filter (λ p, of_client client_id p
                            && bool_decide (p_tenant_id p = u_tenant_id user))
                      (projects db)))
  end.

Definition list_projects_by_lead (user : User) (lead_id : Z) (db : DB)
  : reply (list Project) :=
  match list_find (λ l, l_id l = lead_id
                        ∧ l_tenant_id l = u_tenant_id user
                        ∧ l_deleted_at l = None) (leads db) with
  | None => Error 404 "Lead not found"
  | Some (_, lead) =>
      if negb (is_admin user)
         && (bool_decide (l_assigned_to lead ≠ Some (u_id user))
             && bool_decide (l_created_by lead ≠ u_id user))
      then Error 403 "Forbidden"
      else
        Ok (newest_first db
              (filter (λ p, of_lead lead_id p
                            && bool_decide (p_tenant_id p = u_tenant_id user))
                      (projects db)))
  end.

(** ** Vocabulary of the further statements *)

(** Client [c] is on some page of the list [list_all_clients] gives an
    admin for the arguments [args]. *)
Definition on_some_admin_page (user : User) (args : gmap string string)
    (now : Z) (db : DB) (c : Client) : Prop :=
  ∃ page body,
    list_all_clients user (<["page" := page]> args) now db = Ok body
    ∧ c ∈ listed_clients body.


(** The rows of every tenant but [tenant] are the same in both stores, and
    so are the users and the Interactions. *)
Definition other_tenants_untouched (tenant : Z) (db db' : DB) : Prop :=
  (∀ c, c_tenant_id c ≠ tenant → c ∈ clients db' ↔ c ∈ clients db)
  ∧ (∀ l, l_tenant_id l ≠ tenant → l ∈ leads db' ↔ l ∈ leads db)
  ∧ (∀ p, p_tenant_id p ≠ tenant → p ∈ projects db' ↔ p ∈ projects db)
  ∧ users db' = users db ∧ interactions db' = interactions db.

(** Every project of the store has one of the statuses [options]. *)
Definition statuses_known (options : list string) (db : DB) : Prop :=
  ∀ p, p ∈ projects db → p_project_status p ∈ options.

#[global] Instance contacted_since_dec db c since :
  Decision (contacted_since db c since).
Proof.
  refine (cast_if (decide (Exists (λ i, i_client_id i = Some (c_id c)
                                        ∧ since ≤ i_contact_date i)
                             (interactions db))));
    unfold contacted_since; rewrite list.Exists_exists in *; naive_solver.
Defined.

(** What an activity filter asks of a client, said of the tables: an
    Interaction in the last 30 days for "active", none in the last 90 for
    "inactive", a creation date in the last 7 for "new", and nothing for
    any other keyword. *)
Definition passes_filter (activity_filter : string) (now : Z) (db : DB)
    (c : Client) : Prop :=
  if decide (activity_filter = "active") then
    contacted_since db c (now - Py.days 30)
  else if decide (activity_filter = "inactive") then
    ¬ contacted_since db c (now - Py.days 90)
  else if decide (activity_filter = "new") then
    now - Py.days 7 ≤ c_created_at c
  else True.

#[global] Instance passes_filter_dec f now db c :
  Decision (passes_filter f now db c).
Proof. unfold passes_filter. repeat case_decide; apply _. Defined.

(** * Properties *)

(** ** Reading integers *)

Section int_of_str.

Lemma digit_char_spec (d : nat) :
  (d < 10)%nat →
  Py.digit_of (ascii_of_nat (48 + d)) = Some (Z.of_nat d)
  ∧ Py.plain (ascii_of_nat (48 + d)).
Proof.
  intros Hd. do 10 (destruct d as [|d]; [by vm_compute|]). lia.
Qed.

Lemma digits_snoc acc after cs v a d :
  Py.digits acc after cs = Some v →
  Py.digit_of a = Some d → Ascii.eqb a "_" = false →
  Py.digits acc after (cs ++ [a]) = Some (10 * v + d).
Proof.
  revert acc after. induction cs as [|c cs IH]; intros acc after; simpl.
  - destruct after; [|done]. intros [= ->] -> ->. done.
  - destruct (Ascii.eqb c "_").
    + destruct after; [|done]. apply IH.
    + destruct (Py.digit_of c); [|done]. apply IH.
Qed.

Lemma lstrip_plain cs : Forall Py.plain cs → Py.lstrip cs = cs.
Proof. destruct 1 as [|a cs [Ha _] _]; simpl; [done|]. by rewrite Ha. Qed.

Lemma strip_plain cs : Forall Py.plain cs → Py.strip cs = cs.
Proof.
  intros H. unfold Py.strip. rewrite (lstrip_plain cs H).
  rewrite lstrip_plain; [apply rev_involutive|].
  by apply Forall_rev.
Qed.

Lemma decimal_exists (n : nat) :
  ∃ cs, cs ≠ [] ∧ Forall Py.plain cs ∧ Py.digits 0 false cs = Some (Z.of_nat n).
Proof.
  induction (lt_wf n) as [n _ IH].
  destruct (decide (n < 10)%nat) as [Hn|Hn].
  - destruct (digit_char_spec n Hn) as [Hd Hp].
    exists [ascii_of_nat (48 + n)]. split_and!; [done|by constructor|].
    cbn [Py.digits]. destruct Hp as (_ & -> & _). rewrite Hd. f_equal; lia.
  - destruct (IH (n / 10)%nat) as (cs & Hne & Hcs & Hv).
    { apply Nat.div_lt; lia. }
    destruct (digit_char_spec (n mod 10)) as [Hd Hp].
    { apply Nat.mod_upper_bound. lia. }
    exists (cs ++ [ascii_of_nat (48 + n mod 10)]). split_and!.
    + by destruct cs.
    + apply Forall_app. split; [done|by constructor].
    + rewrite (digits_snoc _ _ _ _ _ _ Hv Hd); [|apply Hp].
      f_equal. rewrite (Nat.div_mod_eq n 10) at 3. lia.
Qed.

(** Every natural number has a spelling [int] reads back. *)
Lemma int_of_str_surj (n : Z) : 0 ≤ n → ∃ s, Py.int_of_str s = inr n.
Proof.
  intros Hn. destruct (decimal_exists (Z.to_nat n)) as (cs & Hne & Hcs & Hv).
  exists (string_of_list_ascii cs). unfold Py.int_of_str.
  rewrite list_ascii_of_string_of_list_ascii, (strip_plain cs Hcs).
  destruct cs as [|a cs]; [done|].
  destruct (Forall_inv Hcs) as (_ & _ & -> & ->).
  rewrite Hv. f_equal. lia.
Qed.

End int_of_str.

(** ** The relational operators *)

Section sql_facts.
Context {A B : Type}.
Implicit Types (l rows : list A) (r : list B) (on : A → B → bool).

Lemma elem_of_join on l r a b :
  (a, b) ∈ Sql.join on l r ↔ a ∈ l ∧ b ∈ r ∧ on a b.
Proof.
  unfold Sql.join. rewrite list_elem_of_bind. split.
  - intros (a' & Hab & Ha').
    destruct (proj1 (list_elem_of_fmap _ _ _) Hab) as (b' & Heq & Hb').
    simplify_eq. destruct (proj1 (list_elem_of_filter _ _ _) Hb'). naive_solver.
  - intros (Ha & Hb & Hon). exists a. split; [|done].
    apply list_elem_of_fmap. exists b. split; [done|].
    by apply list_elem_of_filter.
Qed.

Lemma elem_of_outerjoin_None on l r a :
  (a, None) ∈ Sql.outerjoin on l r ↔ a ∈ l ∧ ∀ b, b ∈ r → ¬ on a b.
Proof.
  unfold Sql.outerjoin. rewrite list_elem_of_bind. split.
  - intros (a' & Hab & Ha'). destruct (filter _ r) as [|b0 m] eqn:Hm.
    + apply list_elem_of_singleton in Hab as [= <-]. split; [done|].
      intros b Hb Hon. assert (b ∈ filter (λ b, on a b) r) as Hin
        by by apply list_elem_of_filter.
      rewrite Hm in Hin. by apply not_elem_of_nil in Hin.
    + apply list_elem_of_fmap in Hab as (b' & [=] & _).
  - intros (Ha & Hno). exists a. split; [|done].
    destruct (filter _ r) as [|b0 m] eqn:Hm; [apply list_elem_of_here|].
    assert (b0 ∈ filter (λ b, on a b) r) as Hin
      by (rewrite Hm; apply list_elem_of_here).
    apply list_elem_of_filter in Hin as [Hon Hb]. by destruct (Hno b0 Hb).
Qed.

Lemma elem_of_outerjoin_Some on l r a b :
  (a, Some b) ∈ Sql.outerjoin on l r ↔ a ∈ l ∧ b ∈ r ∧ on a b.
Proof.
  unfold Sql.outerjoin. rewrite list_elem_of_bind. split.
  - intros (a' & Hab & Ha'). destruct (filter _ r) as [|b0 m] eqn:Hm.
    + by apply list_elem_of_singleton in Hab.
    + destruct (proj1 (list_elem_of_fmap _ _ _) Hab) as (b' & Heq & Hb').
      simplify_eq. rewrite <- Hm in Hb'.
      destruct (proj1 (list_elem_of_filter _ _ _) Hb'). naive_solver.
  - intros (Ha & Hb & Hon). exists a. split; [|done].
    assert (b ∈ filter (λ b, on a b) r) as Hin by by apply list_elem_of_filter.
    destruct (filter _ r) as [|b0 m]; [by apply not_elem_of_nil in Hin|].
    apply list_elem_of_fmap. by exists b.
Qed.

Lemma elem_of_distinct `{EqDecision A} rows a :
  a ∈ Sql.distinct rows ↔ a ∈ rows.
Proof. apply elem_of_remove_dups. Qed.

Implicit Type negative : Z → Z → Py.exn + (nat * option nat).

(** Bounds that are not negative cut the same window on every engine. *)
Lemma window_in_range negative off lim rows :
  0 ≤ off → 0 ≤ lim →
  Sql.window negative off lim rows
  = inr (take (Z.to_nat lim) (drop (Z.to_nat off) rows)).
Proof.
  intros Ho Hl. unfold Sql.window.
  destruct (off <? 0) eqn:?, (lim <? 0) eqn:?; simpl; [lia..|done].
Qed.

(** Whatever the bounds and the engine, a window is a run of consecutive
    rows. *)
Lemma window_take_drop negative off lim rows w :
  Sql.window negative off lim rows = inr w →
  ∃ n m, w = take n (drop m rows).
Proof.
  unfold Sql.window. destruct ((off <? 0) || (lim <? 0)).
  - destruct (negative off lim) as [|[skip [count|]]]; intros [= <-].
    + by exists count, skip.
    + exists (length rows), skip. rewrite take_ge; [done|].
      rewrite length_drop. lia.
  - intros [= <-]. by eexists _, _.
Qed.

Lemma window_sublist negative off lim rows w :
  Sql.window negative off lim rows = inr w → w `sublist_of` rows.
Proof.
  intros (n & m & ->)%window_take_drop.
  etrans; [apply sublist_take|apply sublist_drop].
Qed.

Lemma window_length negative off lim rows w :
  0 ≤ off → 0 ≤ lim →
  Sql.window negative off lim rows = inr w → Z.of_nat (length w) ≤ lim.
Proof.
  intros Ho Hl. rewrite window_in_range by done. intros [= <-].
  rewrite length_take. lia.
Qed.

(** Every row lies in the window of some page. *)
Lemma window_covers negative per_page rows a :
  0 < per_page → a ∈ rows →
  ∃ page w, 1 ≤ page
    ∧ Sql.window negative ((page - 1) * per_page) per_page rows = inr w
    ∧ a ∈ w.
Proof.
  intros Hpp (i & Hi)%list_elem_of_lookup.
  set (k := Z.of_nat i / per_page).
  assert (0 ≤ k) by (apply Z.div_pos; lia).
  assert (k * per_page ≤ Z.of_nat i < k * per_page + per_page) as Hk.
  { pose proof (Z.mod_pos_bound (Z.of_nat i) per_page Hpp).
    pose proof (Z.div_mod (Z.of_nat i) per_page). subst k. lia. }
  exists (k + 1), (take (Z.to_nat per_page) (drop (Z.to_nat (k * per_page)) rows)).
  split_and!; [lia| |].
  - replace (k + 1 - 1) with k by lia. apply window_in_range; lia.
  - apply list_elem_of_lookup. exists (i - Z.to_nat (k * per_page))%nat.
    rewrite lookup_take_lt by lia. rewrite lookup_drop. rewrite <- Hi.
    f_equal. lia.
Qed.

End sql_facts.

Lemma max_agg_None vals : Sql.max_agg vals = None ↔ vals = [].
Proof. by destruct vals. Qed.

(** [max] is the greatest of the values. *)
Lemma max_agg_Some vals m :
  Sql.max_agg vals = Some m ↔ m ∈ vals ∧ ∀ v, v ∈ vals → v ≤ m.
Proof.
  revert m. induction vals as [|v vals IH]; intros m; simpl.
  - split; [done|]. intros [[]%not_elem_of_nil _].
  - change (foldr _ None vals) with (Sql.max_agg vals).
    destruct (Sql.max_agg vals) as [w|] eqn:Hw.
    + destruct (IH w) as [[Hin Hmax] _]; [done|]. split.
      * intros [= <-]. split.
        -- destruct (Z.max_spec v w) as [[_ ->]|[_ ->]];
             [by apply list_elem_of_further|apply list_elem_of_here].
        -- intros x [->|Hx]%elem_of_cons; [lia|].
           specialize (Hmax x Hx). lia.
      * intros [[->|Hm]%elem_of_cons Hall]; f_equal.
        -- specialize (Hall w (list_elem_of_further _ _ _ Hin)). lia.
        -- specialize (Hmax m Hm).
           pose proof (Hall v (list_elem_of_here _ _)).
           pose proof (Hall w (list_elem_of_further _ _ _ Hin)). lia.
    + apply max_agg_None in Hw as ->. split.
      * intros [= <-]. split; [apply list_elem_of_here|].
        by intros x ->%list_elem_of_singleton.
      * by intros [->%list_elem_of_singleton _].
Qed.

#[local] Instance null_least_le_trans : Transitive Sql.null_least_le.
Proof. intros [x|] [y|] [z|]; simpl; try done. lia. Qed.

#[local] Instance null_least_le_total : Total Sql.null_least_le.
Proof. intros [x|] [y|]; simpl; auto. lia. Qed.

#[local] Instance null_greatest_le_trans : Transitive Sql.null_greatest_le.
Proof. intros [x|] [y|] [z|]; simpl; try done. lia. Qed.

#[local] Instance null_greatest_le_total : Total Sql.null_greatest_le.
Proof. intros [x|] [y|]; simpl; auto. lia. Qed.

#[local] Instance null_le_trans b : Transitive (Sql.null_le b).
Proof. destruct b; apply _. Qed.

#[local] Instance null_le_total b : Total (Sql.null_le b).
Proof. destruct b; apply _. Qed.

(** The engines agree on two keys that are not NULL. *)
Lemma null_le_Some b x y : Sql.null_le b (Some x) (Some y) ↔ x ≤ y.
Proof. by destruct b. Qed.

Section order_facts.
Context {A K : Type} (le : relation K) `{!RelDecision le} (key : A → K).

Lemma order_by_asc_perm rows : Sql.order_by_asc le key rows ≡ₚ rows.
Proof. apply merge_sort_Permutation. Qed.

Lemma order_by_desc_perm rows : Sql.order_by_desc le key rows ≡ₚ rows.
Proof. apply merge_sort_Permutation. Qed.

Lemma order_by_desc_sorted `{!Transitive le, !Total le} rows :
  StronglySorted (λ a b, le (key b) (key a)) (Sql.order_by_desc le key rows).
Proof.
  apply @StronglySorted_merge_sort.
  - intros a b c Hab Hbc. by trans (key b).
  - intros a b. apply total, _.
Qed.

End order_facts.

(** ** The client list *)

Lemma execute_inv {A} (q : query A) rows :
  execute q = inr rows → rows = q_rows q.
Proof. unfold execute. case_bool_decide; naive_solver. Qed.

Lemma client_activity_filter_active now db q c :
  c ∈ q_rows (client_activity_filter "active" now db q)
  ↔ c ∈ q_rows q ∧ contacted_since db c (now - Py.days 30).
Proof.
  unfold client_activity_filter. rewrite bool_decide_eq_true_2 by done.
  cbn [q_rows]. rewrite elem_of_distinct, list_elem_of_fmap. split.
  - intros ([c' i] & -> & Hci). apply list_elem_of_filter in Hci as [Hd Hci].
    apply elem_of_join in Hci as (Hc & Hi & Hon). split; [done|].
    exists i. unfold on_client in Hon. simpl in *.
    apply bool_decide_unpack in Hd, Hon. done.
  - intros (Hc & i & Hi & Hid & Hd). exists (c, i). split; [done|].
    apply list_elem_of_filter. split; [by apply bool_decide_pack|].
    apply elem_of_join. split_and!; [done..|].
    by apply bool_decide_pack.
Qed.

Lemma elem_of_recent_interaction_clients since db (c : Client) :
  Some (c_id c) ∈ recent_interaction_clients since db ↔ contacted_since db c since.
Proof.
  unfold recent_interaction_clients.
  rewrite elem_of_distinct, list_elem_of_fmap. split.
  - intros (i & Hid & Hi). apply list_elem_of_filter in Hi as [Hp Hi].
    apply andb_prop_elim in Hp as [_ Hd]. apply bool_decide_unpack in Hd.
    by exists i.
  - intros (i & Hi & Hid & Hd). exists i. split; [done|].
    apply list_elem_of_filter. split; [|done].
    apply andb_prop_intro. split; apply bool_decide_pack; [|done].
    by rewrite Hid.
Qed.

Lemma client_activity_filter_inactive now db q c :
  c ∈ q_rows (client_activity_filter "inactive" now db q)
  ↔ c ∈ q_rows q ∧ ¬ contacted_since db c (now - Py.days 90).
Proof.
  unfold client_activity_filter.
  rewrite bool_decide_eq_false_2, bool_decide_eq_true_2 by done.
  cbn [q_rows]. rewrite <- elem_of_recent_interaction_clients.
  rewrite list_elem_of_fmap. split.
  - intros ([c' [cid|]] & -> & Hr); apply list_elem_of_filter in Hr as [Hn Hr];
      apply bool_decide_unpack in Hn; simpl in *.
    + apply elem_of_outerjoin_Some in Hr as (_ & Hin & _).
      subst cid. exfalso. revert Hin. unfold recent_interaction_clients.
      rewrite elem_of_distinct, list_elem_of_fmap.
      intros (i & Hid & Hi). apply list_elem_of_filter in Hi as [Hp _].
      apply andb_prop_elim in Hp as [Hnn _]. apply bool_decide_unpack in Hnn.
      done.
    + apply elem_of_outerjoin_None in Hr as [Hc Hno]. split; [done|].
      intros Hin. apply (Hno _ Hin). by apply bool_decide_pack.
  - intros [Hc Hno]. exists (c, None). split; [done|].
    apply list_elem_of_filter. split; [by apply bool_decide_pack|].
    apply elem_of_outerjoin_None. split; [done|].
    intros cid Hin Heq. apply bool_decide_unpack in Heq. by subst cid.
Qed.

Lemma client_activity_filter_new now db q c :
  c ∈ q_rows (client_activity_filter "new" now db q)
  ↔ c ∈ q_rows q ∧ now - Py.days 7 ≤ c_created_at c.
Proof.
  unfold client_activity_filter.
  rewrite !bool_decide_eq_false_2, bool_decide_eq_true_2 by done.
  cbn [q_rows]. rewrite list_elem_of_filter, bool_decide_spec. tauto.
Qed.

(** Any other keyword leaves the query alone. *)
Lemma client_activity_filter_other f now db q :
  f ∉ ["active"; "inactive"; "new"] → client_activity_filter f now db q = q.
Proof.
  intros Hf. unfold client_activity_filter.
  rewrite !bool_decide_eq_false_2; [done|set_solver..].
Qed.

(** No filter adds a row. *)
Lemma client_activity_filter_subseteq f now db q c :
  c ∈ q_rows (client_activity_filter f now db q) → c ∈ q_rows q.
Proof.
  destruct (decide (f = "active")) as [->|].
  { by intros [? _]%client_activity_filter_active. }
  destruct (decide (f = "inactive")) as [->|].
  { by intros [? _]%client_activity_filter_inactive. }
  destruct (decide (f = "new")) as [->|].
  { by intros [? _]%client_activity_filter_new. }
  rewrite client_activity_filter_other; [done|set_solver].
Qed.

(** Sorting rearranges the rows and does nothing else. *)
Lemma client_sort_perm s db q : q_rows (client_sort s db q) ≡ₚ q_rows q.
Proof.
  unfold client_sort. repeat case_bool_decide; cbn [q_rows];
    auto using order_by_asc_perm, order_by_desc_perm.
Qed.

Lemma elem_of_client_sort s db q c :
  c ∈ q_rows (client_sort s db q) ↔ c ∈ q_rows q.
Proof. by rewrite client_sort_perm. Qed.

Lemma listed_clients_decorate stats (rows : list Client) :
  ci_client <$> (decorate stats <$> rows) = rows.
Proof. rewrite <- list_fmap_compose. apply list_fmap_id. Qed.

(** What a successful list reply was computed from. *)
Lemma client_listing_Ok base args now db body :
  client_listing base args now db = Ok body →
  ∃ page per_page rows,
    Py.int_arg args "page" 1 = inr page
    ∧ Py.int_arg args "per_page" 20 = inr per_page
    ∧ execute (client_query base args now db) = inr rows
    ∧ Sql.window (Sql.negative_window (dialect db))
        ((page - 1) * per_page) per_page rows
      = inr (listed_clients body)
    ∧ cl_total body = Z.of_nat (length rows)
    ∧ cl_page body = page ∧ cl_per_page body = per_page.
Proof.
  unfold client_listing, try_exn.
  destruct (Py.int_arg args "page" 1) as [|page]; [done|].
  destruct (Py.int_arg args "per_page" 20) as [|per_page]; [done|].
  fold (sort_arg args). fold (activity_arg args).
  fold (client_query base args now db).
  destruct (execute _) as [|rows] eqn:Hq; [done|].
  destruct (Sql.window _ _ _ rows) as [|w] eqn:Hw; [done|].
  intros [= <-]. exists page, per_page, rows. unfold listed_clients. simpl.
  rewrite listed_clients_decorate. by split_and!.
Qed.

(** ... and the other way round: parsed arguments, a query that runs and a
    page that exists give a reply. *)
Lemma client_listing_run base args now db page per_page rows w :
  Py.int_arg args "page" 1 = inr page →
  Py.int_arg args "per_page" 20 = inr per_page →
  execute (client_query base args now db) = inr rows →
  Sql.window (Sql.negative_window (dialect db))
    ((page - 1) * per_page) per_page rows = inr w →
  ∃ body, client_listing base args now db = Ok body ∧ listed_clients body = w.
Proof.
  intros Hp Hpp Hq Hw. unfold client_listing, try_exn. rewrite Hp, Hpp.
  fold (sort_arg args). fold (activity_arg args).
  fold (client_query base args now db). rewrite Hq, Hw.
  eexists. split; [done|]. unfold listed_clients. simpl.
  apply listed_clients_decorate.
Qed.

(** The page number is the only argument the query does not read. *)
Lemma client_query_page base page args now db :
  client_query base (<["page" := page]> args) now db
  = client_query base args now db.
Proof.
  unfold client_query, sort_arg, activity_arg.
  by rewrite !lookup_insert_ne by done.
Qed.

Lemma int_arg_insert args key s default :
  Py.int_arg (<[key := s]> args) key default = Py.int_of_str s.
Proof. unfold Py.int_arg. by rewrite lookup_insert_eq. Qed.

Lemma int_arg_insert_ne args key key' s default :
  key' ≠ key →
  Py.int_arg (<[key' := s]> args) key default = Py.int_arg args key default.
Proof. intros. unfold Py.int_arg. by rewrite lookup_insert_ne. Qed.

(** The statement runs unless it joins [interactions] twice: the "active"
    filter and the "activity" sort both join it under its own name. *)
Lemma client_query_runs base args now db :
  ¬ (activity_arg args = "active" ∧ sort_arg args = "activity") →
  execute (client_query base args now db)
  = inr (q_rows (client_query base args now db)).
Proof.
  intros Hno. unfold execute. rewrite bool_decide_eq_true_2; [done|].
  unfold client_query, client_sort, client_activity_filter.
  repeat case_bool_decide; cbn [q_joined];
    try (by apply (bool_decide_unpack _)).
  naive_solver.
Qed.

Lemma client_query_rejected base args now db :
  activity_arg args = "active" → sort_arg args = "activity" →
  execute (client_query base args now db) = inl Py.OperationalError.
Proof.
  intros Hf Hs. unfold execute, client_query. rewrite Hf, Hs.
  by rewrite bool_decide_eq_false_2 by (by apply (bool_decide_unpack _)).
Qed.

Lemma client_listed_spec user c :
  client_listed user c ↔
    c_tenant_id c = u_tenant_id user ∧ c_deleted_at c = None
    ∧ (c_assigned_to c = Some (u_id user)
       ∨ (c_assigned_to c = None ∧ c_created_by c = u_id user)).
Proof.
  unfold client_listed.
  rewrite !andb_True, orb_True, andb_True, !bool_decide_spec. tauto.
Qed.

Lemma lead_listed_spec user l :
  lead_listed user l ↔
    l_tenant_id l = u_tenant_id user ∧ l_deleted_at l = None
    ∧ (l_assigned_to l = Some (u_id user)
       ∨ (l_assigned_to l = None ∧ l_created_by l = u_id user)).
Proof.
  unfold lead_listed.
  rewrite !andb_True, orb_True, andb_True, !bool_decide_spec. tauto.
Qed.

(** The rows the user's list is cut from: the handler's filter, then the
    activity filter. *)
Lemma on_some_page_sound user args now db c :
  on_some_page user args now db c →
  c ∈ q_rows (client_activity_filter (activity_arg args) now db
                {| q_rows := filter (λ c, client_listed user c) (clients db);
                   q_joined := [] |}).
Proof.
  intros (page & body & Hbody & Hc). unfold list_clients in Hbody.
  apply client_listing_Ok in Hbody as (p & pp & rows & _ & _ & Hq & Hw & _).
  apply window_sublist in Hw. apply (elem_of_sublist _ _ _ Hc) in Hw.
  apply execute_inv in Hq as ->. rewrite client_query_page in Hw.
  by apply elem_of_client_sort in Hw.
Qed.

(** With a positive page size, each of these rows is on some page, unless
    the request asks for the "active" filter together with the "activity"
    sort. *)
Lemma on_some_page_complete user args now db per_page c :
  Py.int_arg args "per_page" 20 = inr per_page → 0 < per_page →
  ¬ (activity_arg args = "active" ∧ sort_arg args = "activity") →
  c ∈ q_rows (client_activity_filter (activity_arg args) now db
                {| q_rows := filter (λ c, client_listed user c) (clients db);
                   q_joined := [] |}) →
  on_some_page user args now db c.
Proof.
  intros Hpp Hpos Hno Hc.
  set (base := filter (λ c, client_listed user c) (clients db)) in *.
  pose proof (client_query_runs base args now db Hno) as Hq.
  apply (elem_of_client_sort (sort_arg args) db) in Hc.
  fold (client_query base args now db) in Hc.
  destruct (window_covers (Sql.negative_window (dialect db)) per_page _ c
              Hpos Hc) as (p & w & Hp & Hw & Hcw).
  destruct (int_of_str_surj p) as [s Hs]; [lia|].
  destruct (client_listing_run base (<["page" := s]> args) now db p per_page
              (q_rows (client_query base args now db)) w)
    as (body & Hbody & Hl).
  - by rewrite int_arg_insert.
  - by rewrite int_arg_insert_ne.
  - by rewrite client_query_page.
  - done.
  - exists s, body. split; [done|]. by rewrite Hl.
Qed.

Lemma on_some_page_rows user args now db per_page c :
  Py.int_arg args "per_page" 20 = inr per_page → 0 < per_page →
  ¬ (activity_arg args = "active" ∧ sort_arg args = "activity") →
  on_some_page user args now db c
  ↔ c ∈ q_rows (client_activity_filter (activity_arg args) now db
                  {| q_rows := filter (λ c, client_listed user c) (clients db);
                     q_joined := [] |}).
Proof.
  intros Hpp Hpos Hno. split;
    eauto using on_some_page_sound, on_some_page_complete.
Qed.

(** ** Default visibility (C1) *)

(** C1. In the default list of a user (the lead list; the client list with
    its default arguments, over its pages) an entity of the user's tenant
    appears if and only if it is not soft-deleted and is assigned to the
    user or is unassigned and was created by them. So a client or lead that
    is assigned to somebody else is not in its creator's list. *)
Theorem default_list_visibility (user : User) (now : Z) (db : DB)
    (c : Client) (l : Lead) :
  (c ∈ clients db → c_tenant_id c = u_tenant_id user →
     (on_some_page user ∅ now db c ↔
        c_deleted_at c = None
        ∧ (c_assigned_to c = Some (u_id user)
           ∨ (c_assigned_to c = None ∧ c_created_by c = u_id user)))
     ∧ (∀ other, c_assigned_to c = Some other → other ≠ u_id user →
          ¬ on_some_page user ∅ now db c))
  ∧ (l ∈ leads db → l_tenant_id l = u_tenant_id user →
     ∃ ls, list_leads user db = Ok ls
       ∧ (l ∈ ls ↔
            l_deleted_at l = None
            ∧ (l_assigned_to l = Some (u_id user)
               ∨ (l_assigned_to l = None ∧ l_created_by l = u_id user)))
       ∧ (∀ other, l_assigned_to l = Some other → other ≠ u_id user →
            l ∉ ls)).
Proof.
  split.
  - intros Hc Ht.
    assert (on_some_page user ∅ now db c ↔
        c_deleted_at c = None
        ∧ (c_assigned_to c = Some (u_id user)
           ∨ (c_assigned_to c = None ∧ c_created_by c = u_id user))) as Hiff.
    { rewrite (on_some_page_rows user ∅ now db 20); [|done..|by intros [[=] _]].
      rewrite client_activity_filter_other by (by apply (bool_decide_unpack _)).
      cbn [q_rows]. rewrite list_elem_of_filter, client_listed_spec. tauto. }
    split; [done|]. intros other Ha Hne. rewrite Hiff, Ha. naive_solver.
  - intros Hl Ht. eexists. split; [done|].
    split; [rewrite list_elem_of_filter, lead_listed_spec; tauto|].
    intros other Ha Hne. rewrite list_elem_of_filter, lead_listed_spec, Ha.
    naive_solver.
Qed.

Lemma default_list_visibility_witness :
  on_some_page user1 ∅ demo_now demo_db client_a
  ∧ ¬ on_some_page user1 ∅ demo_now demo_db client_b
  ∧ ∃ ls, list_leads user1 demo_db = Ok ls ∧ lead_a ∈ ls ∧ lead_b ∉ ls.
Proof.
  pose proof (default_list_visibility user1 demo_now demo_db client_a lead_a)
    as [Ha Hla].
  pose proof (default_list_visibility user1 demo_now demo_db client_b lead_b)
    as [Hb Hlb].
  split_and!.
  - apply Ha; [set_solver|done|]. split; [done|]. by right.
  - apply Hb with (other := 3); [set_solver|done..].
  - destruct Hla as (ls & Hls & Hin & _); [set_solver|done|].
    destruct Hlb as (ls' & Hls' & _ & Hout); [set_solver|done|].
    rewrite Hls in Hls'. injection Hls' as <-.
    exists ls. split_and!; [done| |by apply Hout with (other := 3)].
    apply Hin. split; [done|]. by right.
Defined.

(** ** Fetching one entity (C2) *)

Section first_row.
Context {A : Type} (P : A → Prop) `{!∀ x, Decision (P x)}.

(** [query.filter(P).first()] *)
Lemma head_filter_Some l x : head (filter P l) = Some x → x ∈ l ∧ P x.
Proof.
  intros Hx. assert (x ∈ filter P l) as Hin.
  { destruct (filter P l); simplify_eq/=. apply list_elem_of_here. }
  apply list_elem_of_filter in Hin. tauto.
Qed.

Lemma head_filter_None l x : head (filter P l) = None → x ∈ l → ¬ P x.
Proof.
  intros Hx Hin HP. assert (x ∈ filter P l) as Hf by by apply list_elem_of_filter.
  destruct (filter P l); [by apply not_elem_of_nil in Hf|done].
Qed.

End first_row.

(** Rows with the same key are the same row. *)
Lemma primary_key {A} (key : A → Z) (l : list A) x y :
  NoDup (key <$> l) → x ∈ l → y ∈ l → key x = key y → x = y.
Proof.
  intros Hnd (i & Hi)%list_elem_of_lookup (j & Hj)%list_elem_of_lookup Hk.
  assert (i = j) as ->; [|congruence].
  apply (NoDup_lookup (key <$> l) i j (key x)); [done|..];
    rewrite list_lookup_fmap; [by rewrite Hi|by rewrite Hj, Hk].
Qed.

Lemma get_client_Ok user client_id db c :
  (get_client user client_id db).1 = Ok c →
  c ∈ clients db ∧ c_id c = client_id
  ∧ c_tenant_id c = u_tenant_id user ∧ c_deleted_at c = None
  ∧ (is_admin user ∨ c_created_by c = u_id user
     ∨ c_assigned_to c = Some (u_id user)).
Proof.
  unfold get_client.
  destruct (head _) as [c'|] eqn:Hh; [|done]. intros [= ->].
  destruct (is_admin user); simpl in Hh.
  - apply head_filter_Some in Hh as [Hin Hp].
    rewrite !andb_True, !bool_decide_spec in Hp. naive_solver.
  - apply head_filter_Some in Hh as [Hin Ho].
    apply list_elem_of_filter in Hin as [Hp Hin].
    rewrite !andb_True, !bool_decide_spec in Hp.
    rewrite orb_True, !bool_decide_spec in Ho. naive_solver.
Qed.

(** A fetch answers with a row, or with 404 when no row qualifies. *)
Lemma get_client_cases user client_id db :
  (∃ c, get_client user client_id db
        = (Ok c, add_log (viewed user "client" (c_id c)) db))
  ∨ (get_client user client_id db = (Error 404 "Client not found", db)
     ∧ ∀ c, c ∈ clients db → c_id c = client_id →
            c_tenant_id c = u_tenant_id user → c_deleted_at c = None →
            ¬ (is_admin user ∨ c_created_by c = u_id user
               ∨ c_assigned_to c = Some (u_id user))).
Proof.
  unfold get_client. destruct (head _) as [c'|] eqn:Hh; [left; by eexists|].
  right. split; [done|]. intros c Hin Hid Ht Hd Hown.
  assert (bool_decide (c_id c = client_id)
          && bool_decide (c_tenant_id c = u_tenant_id user)
          && bool_decide (c_deleted_at c = None)) as Hp.
  { rewrite !andb_True, !bool_decide_spec. done. }
  destruct (is_admin user); simpl in Hh.
  - by eapply head_filter_None in Hh.
  - eapply head_filter_None in Hh; [|by apply list_elem_of_filter].
    apply Hh. rewrite orb_True, !bool_decide_spec. naive_solver.
Qed.

Lemma get_lead_Ok user lead_id db l :
  (get_lead user lead_id db).1 = Ok l →
  l ∈ leads db ∧ l_id l = lead_id
  ∧ l_tenant_id l = u_tenant_id user ∧ l_deleted_at l = None
  ∧ (is_admin user ∨ l_created_by l = u_id user
     ∨ l_assigned_to l = Some (u_id user)).
Proof.
  unfold get_lead.
  destruct (head _) as [l'|] eqn:Hh; [|done]. intros [= ->].
  destruct (is_admin user); simpl in Hh.
  - apply head_filter_Some in Hh as [Hin Hp].
    rewrite !andb_True, !bool_decide_spec in Hp. naive_solver.
  - apply head_filter_Some in Hh as [Hin Ho].
    apply list_elem_of_filter in Hin as [Hp Hin].
    rewrite !andb_True, !bool_decide_spec in Hp.
    rewrite orb_True, !bool_decide_spec in Ho. naive_solver.
Qed.

Lemma get_lead_cases user lead_id db :
  (∃ l, get_lead user lead_id db
        = (Ok l, add_log (viewed user "lead" (l_id l)) db))
  ∨ (get_lead user lead_id db = (Error 404 "Lead not found", db)
     ∧ ∀ l, l ∈ leads db → l_id l = lead_id →
            l_tenant_id l = u_tenant_id user → l_deleted_at l = None →
            ¬ (is_admin user ∨ l_created_by l = u_id user
               ∨ l_assigned_to l = Some (u_id user))).
Proof.
  unfold get_lead. destruct (head _) as [l'|] eqn:Hh; [left; by eexists|].
  right. split; [done|]. intros l Hin Hid Ht Hd Hown.
  assert (bool_decide (l_id l = lead_id)
          && bool_decide (l_tenant_id l = u_tenant_id user)
          && bool_decide (l_deleted_at l = None)) as Hp.
  { rewrite !andb_True, !bool_decide_spec. done. }
  destruct (is_admin user); simpl in Hh.
  - by eapply head_filter_None in Hh.
  - eapply head_filter_None in Hh; [|by apply list_elem_of_filter].
    apply Hh. rewrite orb_True, !bool_decide_spec. naive_solver.
Qed.

(** C2. A fetch by id answers with the row of that id exactly when the row
    is in the caller's tenant, is not soft-deleted, and the caller is an
    admin, its creator or its assignee; the creator keeps this access
    whoever the row is assigned to. Every other fetch answers 404. *)
Theorem get_by_id_visibility (user : User) (db : DB) (client_id lead_id : Z) :
  primary_keys db →
  ((∀ c, (get_client user client_id db).1 = Ok c ↔
           c ∈ clients db ∧ c_id c = client_id
           ∧ c_tenant_id c = u_tenant_id user ∧ c_deleted_at c = None
           ∧ (is_admin user ∨ c_created_by c = u_id user
              ∨ c_assigned_to c = Some (u_id user)))
   ∧ ((∃ c, (get_client user client_id db).1 = Ok c)
      ∨ get_client user client_id db = (Error 404 "Client not found", db)))
  ∧ ((∀ l, (get_lead user lead_id db).1 = Ok l ↔
           l ∈ leads db ∧ l_id l = lead_id
           ∧ l_tenant_id l = u_tenant_id user ∧ l_deleted_at l = None
           ∧ (is_admin user ∨ l_created_by l = u_id user
              ∨ l_assigned_to l = Some (u_id user)))
     ∧ ((∃ l, (get_lead user lead_id db).1 = Ok l)
        ∨ get_lead user lead_id db = (Error 404 "Lead not found", db))).
Proof.
  intros (Hc & Hl & _). split; split.
  - intros c. split; [apply get_client_Ok|].
    intros (Hin & Hid & Ht & Hd & Hown).
    destruct (get_client_cases user client_id db) as [[c' Hget]|[_ Hno]].
    + rewrite Hget. simpl. f_equal.
      assert ((get_client user client_id db).1 = Ok c') as Hok by by rewrite Hget.
      apply get_client_Ok in Hok as (Hin' & Hid' & _).
      apply (primary_key c_id (clients db)); congruence.
    + by destruct (Hno c).
  - destruct (get_client_cases user client_id db) as [[c' Hget]|[Hget _]];
      [left; exists c'; by rewrite Hget|by right].
  - intros l. split; [apply get_lead_Ok|].
    intros (Hin & Hid & Ht & Hd & Hown).
    destruct (get_lead_cases user lead_id db) as [[l' Hget]|[_ Hno]].
    + rewrite Hget. simpl. f_equal.
      assert ((get_lead user lead_id db).1 = Ok l') as Hok by by rewrite Hget.
      apply get_lead_Ok in Hok as (Hin' & Hid' & _).
      apply (primary_key l_id (leads db)); congruence.
    + by destruct (Hno l).
  - destruct (get_lead_cases user lead_id db) as [[l' Hget]|[Hget _]];
      [left; exists l'; by rewrite Hget|by right].
Qed.

(** The creator of a client that is assigned to somebody else still gets it;
    a user who is neither creator nor assignee does not; an admin does. *)
Lemma get_by_id_visibility_witness :
  (get_client user1 2 demo_db).1 = Ok client_b
  ∧ (get_client user2 1 demo_db).1 ≠ Ok client_a
  ∧ (get_client admin 1 demo_db).1 = Ok client_a
  ∧ (get_lead user1 2 demo_db).1 = Ok lead_b.
Proof.
  assert (primary_keys demo_db) as Hpk by by apply (bool_decide_unpack _).
  split_and!.
  - apply (get_by_id_visibility user1 demo_db 2 2 Hpk).
    split_and!; [set_solver|done..|]. right. by left.
  - intros H. apply (get_by_id_visibility user2 demo_db 1 1 Hpk) in H.
    destruct H as (_ & _ & _ & _ & [H|[H|H]]); done.
  - apply (get_by_id_visibility admin demo_db 1 1 Hpk).
    split_and!; [set_solver|done..|]. by left.
  - apply (get_by_id_visibility user1 demo_db 2 2 Hpk).
    split_and!; [set_solver|done..|]. right. by left.
Defined.

(** ** Soft-deleted rows (C3) *)

(** A list reply shows rows of the handler's base filter only. *)
Lemma client_listing_subseteq base args now db body c :
  client_listing base args now db = Ok body →
  c ∈ listed_clients body → c ∈ base.
Proof.
  intros (page & per_page & rows & _ & _ & Hq & Hw & _)%client_listing_Ok Hc.
  apply window_sublist in Hw. apply (elem_of_sublist _ _ _ Hc) in Hw.
  apply execute_inv in Hq as ->. unfold client_query in Hw.
  apply elem_of_client_sort, client_activity_filter_subseteq in Hw. done.
Qed.

Lemma list_clients_not_deleted user args now db body c :
  list_clients user args now db = Ok body → c ∈ listed_clients body →
  c ∈ clients db ∧ c_deleted_at c = None.
Proof.
  intros Hbody Hc. apply (client_listing_subseteq _ _ _ _ _ _ Hbody) in Hc.
  apply list_elem_of_filter in Hc as [Hp Hc].
  apply client_listed_spec in Hp. tauto.
Qed.

Lemma list_all_clients_not_deleted user args now db body c :
  list_all_clients user args now db = Ok body → c ∈ listed_clients body →
  c ∈ clients db ∧ c_deleted_at c = None.
Proof.
  intros Hbody Hc. apply (client_listing_subseteq _ _ _ _ _ _ Hbody) in Hc.
  assert (c ∈ filter (λ c, bool_decide (c_tenant_id c = u_tenant_id user)
                           && bool_decide (c_deleted_at c = None))
                     (clients db)) as Hin.
  { destruct (args !! "user_email") as [e|]; [|done].
    destruct (negb (String.eqb e "")); [|done].
    by apply list_elem_of_filter in Hc as [_ Hc]. }
  apply list_elem_of_filter in Hin as [Hp Hin].
  rewrite andb_True, !bool_decide_spec in Hp. tauto.
Qed.

(** The statistics have entries for listed clients only. *)
Lemma interaction_stats_dom client_ids db k :
  k ∈ dom (interaction_stats client_ids db) → k ∈ client_ids.
Proof.
  unfold interaction_stats.
  destruct client_ids as [|k0 ids]; [by rewrite dom_empty_L|].
  generalize (k0 :: ids). clear k0 ids. intros ids.
  assert (∀ (l : list (Z * stats)) (m : gmap Z stats),
    k ∈ dom (foldl (λ m d, <[d.1 := d.2]> m) m l) → k ∈ dom m ∨ k ∈ l.*1)
    as Hfold.
  { induction l as [|d l IH]; intros m; simpl; [by left|].
    intros [Hk|Hk]%IH; [|right; by apply list_elem_of_further].
    rewrite dom_insert_L in Hk.
    apply elem_of_union in Hk as [->%elem_of_singleton|Hk];
      [right; apply list_elem_of_here|by left]. }
  intros [Hk|Hk]%Hfold; [by rewrite dom_empty_L in Hk|].
  unfold interaction_data in Hk.
  rewrite <- list_fmap_compose in Hk.
  apply list_elem_of_fmap in Hk as (k' & -> & Hk). simpl.
  apply elem_of_distinct, list_elem_of_omap in Hk as (i & Hi & Hid).
  apply list_elem_of_filter in Hi as [Hp _]. rewrite Hid in Hp. simpl in Hp.
  by apply bool_decide_unpack in Hp.
Qed.

Section assign_lookup.
Context (send : string → string → Py.value → string → option Py.exn).

(** An assignment that does not find its target changes nothing. *)
Lemma assign_client_not_found user client_id assigned_to now db :
  given assigned_to →
  (∀ c, c ∈ clients db → c_id c = client_id →
        c_tenant_id c = u_tenant_id user → c_deleted_at c ≠ None) →
  assign_client send user client_id assigned_to now db
  = (Error 404 "Client not found", db).
Proof.
  intros Hg Hno. unfold assign_client.
  destruct (given assigned_to); [simpl|done].
  destruct (list_find _ (clients db)) as [[i c]|] eqn:Hf; [|done].
  apply list_find_Some in Hf as (Hi & (Hid & Ht & Hd) & _).
  destruct (Hno c); [by eapply list_elem_of_lookup_2|done..].
Qed.

Lemma assign_lead_not_found user lead_id assigned_to now db :
  (∀ l, l ∈ leads db → l_id l = lead_id →
        l_tenant_id l = u_tenant_id user → l_deleted_at l ≠ None) →
  assign_lead send user lead_id assigned_to now db
  = (Error 404 "Lead not found", db).
Proof.
  intros Hno. unfold assign_lead.
  destruct (list_find _ (leads db)) as [[i l]|] eqn:Hf; [|done].
  apply list_find_Some in Hf as (Hi & (Hid & Ht & Hd) & _).
  destruct (Hno l); [by eapply list_elem_of_lookup_2|done..].
Qed.

Lemma assign_client_missing user client_id assigned_to now db :
  ¬ given assigned_to →
  assign_client send user client_id assigned_to now db
  = (Error 400 "Missing assigned_to", db).
Proof. intros Hg. unfold assign_client. by destruct (given assigned_to). Qed.

End assign_lookup.

(** A soft-deleted client is not always "not found": the assignment of
    client 3 of the demo store that names no assignee is answered 400, not
    404. And the replies of the project handlers are no part of what the
    soft delete hides: a project linked to a soft-deleted client or lead is
    served, and its reply shows the name of that client or lead. *)
Lemma soft_deleted_counterexample :
  client_c ∈ clients demo_db ∧ c_id client_c = 3
  ∧ c_deleted_at client_c ≠ None
  ∧ assign_client mail_ok admin 3 None demo_now demo_db
    = (Error 400 "Missing assigned_to", demo_db)
  ∧ (assign_client mail_ok admin 3 None demo_now demo_db).1
    ≠ Error 404 "Client not found"
  ∧ (get_project user1 5 demo_db_linked).1 = Ok project_e
  ∧ client_name demo_db_linked project_e = Some "Charlie"
  ∧ lead_c ∈ leads demo_db ∧ l_deleted_at lead_c ≠ None
  ∧ (get_project user1 6 demo_db_linked).1 = Ok project_f
  ∧ lead_name demo_db_linked project_f = Some (Py.VStr "November").
Proof.
  split_and!; try done; try by vm_compute.
  - do 2 apply list_elem_of_further. apply list_elem_of_here.
  - do 2 apply list_elem_of_further. apply list_elem_of_here.
Qed.

(** C3, as the code has it. Whatever the caller's roles, a soft-deleted
    client or lead is in no list reply of the client and lead handlers (the
    user's list, the admin list, the assigned list), has no entry in the
    statistics a list reply is decorated with, is not found by a fetch
    (404), and is not found by an assignment that names an assignee (404,
    nothing written); a client assignment that names no assignee is turned
    down with 400 before the row is looked up. *)
Theorem soft_deleted_never_served
    (send : string → string → Py.value → string → option Py.exn)
    (user : User) (db : DB) (now : Z) (c : Client) (l : Lead) :
  primary_keys db →
  (c ∈ clients db → c_deleted_at c ≠ None →
     (∀ args body,
        (list_clients user args now db = Ok body
         ∨ list_all_clients user args now db = Ok body) →
        (c ∉ listed_clients body)
        ∧ (c_id c ∉ dom (interaction_stats (c_id <$> listed_clients body) db)))
     ∧ (∀ cs, list_assigned_clients user db = Ok cs → c ∉ cs)
     ∧ get_client user (c_id c) db = (Error 404 "Client not found", db)
     ∧ (∀ assigned_to,
          assign_client send user (c_id c) assigned_to now db
          = (if given assigned_to then Error 404 "Client not found"
             else Error 400 "Missing assigned_to", db)))
  ∧ (l ∈ leads db → l_deleted_at l ≠ None →
     (∀ ls, (list_leads user db = Ok ls
             ∨ list_all_leads_admin user db = Ok ls
             ∨ list_assigned_leads user db = Ok ls) → l ∉ ls)
     ∧ get_lead user (l_id l) db = (Error 404 "Lead not found", db)
     ∧ (∀ assigned_to,
          assign_lead send user (l_id l) assigned_to now db
          = (Error 404 "Lead not found", db))).
Proof.
  intros (Hpc & Hpl & _). split.
  - intros Hc Hdel.
    assert (∀ x, x ∈ clients db → c_id x = c_id c → c_deleted_at x ≠ None)
      as Hrow.
    { intros x Hx Hid. by rewrite (primary_key c_id (clients db) x c). }
    split_and!.
    + intros args body Hbody.
      assert (∀ x, x ∈ listed_clients body →
                   x ∈ clients db ∧ c_deleted_at x = None) as Hlive.
      { intros x Hx. destruct Hbody as [Hbody|Hbody].
        - by apply (list_clients_not_deleted user args now db body).
        - by apply (list_all_clients_not_deleted user args now db body). }
      split.
      * intros Hin. by destruct (Hlive c Hin).
      * intros Hk%interaction_stats_dom.
        apply list_elem_of_fmap in Hk as (x & Hid & Hx).
        destruct (Hlive x Hx) as [Hxin Hxd]. by destruct (Hrow x).
    + intros cs [= <-] Hin. apply list_elem_of_filter in Hin as [Hp _].
      rewrite !andb_True, !bool_decide_spec in Hp. tauto.
    + destruct (get_client_cases user (c_id c) db) as [[x Hget]|[Hget _]];
        [|done].
      assert ((get_client user (c_id c) db).1 = Ok x) as Hok by by rewrite Hget.
      apply get_client_Ok in Hok as (Hx & Hid & _ & Hd & _).
      by destruct (Hrow x).
    + intros assigned_to. destruct (given assigned_to) eqn:Hg.
      * apply assign_client_not_found; [by apply Is_true_true_2|auto].
      * apply assign_client_missing. by apply Is_true_false_2.
  - intros Hl Hdel.
    assert (∀ x, x ∈ leads db → l_id x = l_id l → l_deleted_at x ≠ None)
      as Hrow.
    { intros x Hx Hid. by rewrite (primary_key l_id (leads db) x l). }
    split_and!.
    + intros ls [[= <-]|[[= <-]|[= <-]]] Hin;
        apply list_elem_of_filter in Hin as [Hp _].
      * apply lead_listed_spec in Hp. tauto.
      * rewrite !andb_True, !bool_decide_spec in Hp. tauto.
      * rewrite !andb_True, !bool_decide_spec in Hp. tauto.
    + destruct (get_lead_cases user (l_id l) db) as [[x Hget]|[Hget _]];
        [|done].
      assert ((get_lead user (l_id l) db).1 = Ok x) as Hok by by rewrite Hget.
      apply get_lead_Ok in Hok as (Hx & Hid & _ & Hd & _).
      by destruct (Hrow x).
    + intros assigned_to. apply assign_lead_not_found. auto.
Qed.

(** The soft-deleted client and lead of the demo store, asked for by the
    admin. *)
Lemma soft_deleted_never_served_witness :
  get_client admin 3 demo_db = (Error 404 "Client not found", demo_db)
  ∧ assign_client mail_ok admin 3 (Some 2) demo_now demo_db
    = (Error 404 "Client not found", demo_db)
  ∧ get_lead admin 3 demo_db = (Error 404 "Lead not found", demo_db)
  ∧ assign_lead mail_ok admin 3 (Some 2) demo_now demo_db
    = (Error 404 "Lead not found", demo_db)
  ∧ ∀ body, list_all_clients admin ∅ demo_now demo_db = Ok body →
            client_c ∉ listed_clients body.
Proof.
  assert (primary_keys demo_db) as Hpk by by apply (bool_decide_unpack _).
  destruct (soft_deleted_never_served mail_ok admin demo_db demo_now
              client_c lead_c Hpk) as [Hc Hl].
  destruct Hc as (Hlist & _ & Hget & Hassign); [set_solver|done|].
  destruct Hl as (_ & Hgetl & Hassignl); [set_solver|done|].
  split_and!; [done|apply (Hassign (Some 2))|done|apply (Hassignl (Some 2))|].
  intros body Hbody. apply (Hlist ∅ body). by right.
Defined.

(** ** Activity filters (C4) *)

Lemma activity_arg_Some args f :
  args !! "activity_filter" = Some f → activity_arg args = f.
Proof. unfold activity_arg. by intros ->. Qed.

Lemma sort_arg_Some args s :
  args !! "sort" = Some s →
  s ∈ ["newest"; "oldest"; "alphabetical"; "activity"] → sort_arg args = s.
Proof.
  intros Hs Hin. unfold sort_arg. rewrite Hs. simpl.
  by rewrite bool_decide_eq_true_2.
Qed.

(** X26. Where the two filters work. With [activity_filter=inactive] the
    pages of the user's client list hold exactly the clients of the list's
    visibility set that have no Interaction dated [now] - 90 days or later;
    with [activity_filter=active] and a sort other than "activity", exactly
    those that have an Interaction dated [now] - 30 days or later. A
    visible client without any Interaction is in the first and not in the
    second. *)
Theorem activity_filter_semantics (user : User) (args : gmap string string)
    (now : Z) (db : DB) (per_page : Z) (c : Client) :
  Py.int_arg args "per_page" 20 = inr per_page → 0 < per_page →
  (args !! "activity_filter" = Some "inactive" →
     (on_some_page user args now db c ↔
        c ∈ clients db ∧ client_listed user c
        ∧ ¬ contacted_since db c (now - Py.days 90))
     ∧ (c ∈ clients db → client_listed user c → ¬ contacted db c →
        on_some_page user args now db c))
  ∧ (args !! "activity_filter" = Some "active" →
     (sort_arg args ≠ "activity" →
        on_some_page user args now db c ↔
          c ∈ clients db ∧ client_listed user c
          ∧ contacted_since db c (now - Py.days 30))
     ∧ (¬ contacted db c → ¬ on_some_page user args now db c)).
Proof.
  intros Hpp Hpos. split; intros Hf.
  - assert (on_some_page user args now db c ↔
        c ∈ clients db ∧ client_listed user c
        ∧ ¬ contacted_since db c (now - Py.days 90)) as Hiff.
    { rewrite (on_some_page_rows user args now db per_page c Hpp Hpos).
      - rewrite (activity_arg_Some _ _ Hf), client_activity_filter_inactive.
        cbn [q_rows]. rewrite list_elem_of_filter. tauto.
      - rewrite (activity_arg_Some _ _ Hf). by intros [[=] _]. }
    split; [done|]. intros Hc Hl Hno. apply Hiff. split_and!; [done..|].
    intros (i & Hi & Hid & _). apply Hno. by exists i.
  - split.
    + intros Hs.
      rewrite (on_some_page_rows user args now db per_page c Hpp Hpos);
        [|by intros [_ ?]].
      rewrite (activity_arg_Some _ _ Hf), client_activity_filter_active.
      cbn [q_rows]. rewrite list_elem_of_filter. tauto.
    + intros Hno Hpage%on_some_page_sound. revert Hpage.
      rewrite (activity_arg_Some _ _ Hf), client_activity_filter_active.
      intros [_ (i & Hi & Hid & _)]. apply Hno. by exists i.
Qed.

(** In the demo store user1 sees Alpha (contacted 10 days ago) and Delta
    (never contacted). *)
Lemma activity_filter_semantics_witness :
  on_some_page user1 {[ "activity_filter" := "inactive" ]} demo_now demo_db
    client_d
  ∧ ¬ on_some_page user1 {[ "activity_filter" := "inactive" ]} demo_now demo_db
        client_a
  ∧ on_some_page user1 {[ "activity_filter" := "active" ]} demo_now demo_db
      client_a
  ∧ ¬ on_some_page user1 {[ "activity_filter" := "active" ]} demo_now demo_db
        client_d.
Proof.
  assert (¬ contacted demo_db client_d) as Hd.
  { intros (i & Hi & Hid). revert Hid.
    repeat (apply elem_of_cons in Hi as [->|Hi]; [done|]).
    by apply not_elem_of_nil in Hi. }
  assert (∀ n, n ∈ [30; 90] →
            contacted_since demo_db client_a (demo_now - Py.days n)) as Ha.
  { intros n Hn. exists (mk_interaction 1 (Some 1) None (Py.days 990)).
    split_and!; [apply list_elem_of_here|done|].
    apply elem_of_cons in Hn as [->|Hn]; [by vm_compute|].
    apply list_elem_of_singleton in Hn as ->. by vm_compute. }
  assert (∀ c, c ∈ [client_a; client_d] →
            c ∈ clients demo_db ∧ client_listed user1 c) as Hvis.
  { intros c Hc. apply elem_of_cons in Hc as [->|Hc].
    - split; [apply list_elem_of_here|done].
    - apply list_elem_of_singleton in Hc as ->.
      split; [do 3 apply list_elem_of_further; apply list_elem_of_here|done]. }
  assert (∀ f : string,
            Py.int_arg {[ "activity_filter" := f ]} "per_page" 20 = inr 20)
    as Hpp by done.
  assert (0 < 20) as Hpos by done.
  destruct (activity_filter_semantics user1
              {[ "activity_filter" := "inactive" ]} demo_now demo_db 20
              client_d (Hpp _) Hpos) as [Hin_d _].
  destruct (activity_filter_semantics user1
              {[ "activity_filter" := "inactive" ]} demo_now demo_db 20
              client_a (Hpp _) Hpos) as [Hin_a _].
  destruct (activity_filter_semantics user1
              {[ "activity_filter" := "active" ]} demo_now demo_db 20
              client_a (Hpp _) Hpos) as [_ Hact_a].
  destruct (activity_filter_semantics user1
              {[ "activity_filter" := "active" ]} demo_now demo_db 20
              client_d (Hpp _) Hpos) as [_ Hact_d].
  destruct Hin_d as [_ Hzero]; [done|].
  destruct Hin_a as [Hiff_a _]; [done|].
  destruct Hact_a as [Hiff_act _]; [done|].
  destruct Hact_d as [_ Hnone]; [done|].
  destruct (Hvis client_a) as [Hain Hal]; [apply list_elem_of_here|].
  destruct (Hvis client_d) as [Hdin Hdl];
    [apply list_elem_of_further, list_elem_of_here|].
  split_and!.
  - by apply Hzero.
  - intros Hp. apply Hiff_a in Hp as (_ & _ & Hp). apply Hp, Ha.
    apply list_elem_of_further, list_elem_of_here.
  - apply Hiff_act; [by vm_compute|]. split_and!; [done..|].
    apply Ha, list_elem_of_here.
  - by apply Hnone.
Defined.

(** C4, on the code. A request for [activity_filter=active] together with
    [sort=activity] never returns the clients the filter selects: the
    filter joins the Interactions and the sort joins them again under the
    same name, and the statement is rejected when it runs. The request
    fails on every page, for the user's list and for the admin list,
    whatever the store holds. *)
Theorem active_filter_fails_with_activity_sort (user : User)
    (args : gmap string string) (now : Z) (db : DB) (page per_page : Z) :
  args !! "activity_filter" = Some "active" →
  args !! "sort" = Some "activity" →
  Py.int_arg args "page" 1 = inr page →
  Py.int_arg args "per_page" 20 = inr per_page →
  list_clients user args now db = Raise Py.OperationalError
  ∧ list_all_clients user args now db = Raise Py.OperationalError
  ∧ ∀ c, ¬ on_some_page user args now db c.
Proof.
  intros Hf Hs Hp Hpp.
  assert (∀ base args',
            activity_arg args' = "active" → sort_arg args' = "activity" →
            ∀ body, client_listing base args' now db ≠ Ok body) as Hnever.
  { intros base args' Ha Hso body
      (p & pp & rows & _ & _ & Hq & _)%client_listing_Ok.
    by rewrite (client_query_rejected base args' now db Ha Hso) in Hq. }
  assert (∀ base, client_listing base args now db = Raise Py.OperationalError)
    as Hraise.
  { intros base. unfold client_listing, try_exn. rewrite Hp, Hpp.
    fold (sort_arg args). fold (activity_arg args).
    fold (client_query base args now db).
    rewrite (client_query_rejected base args now db); [done|..].
    - by apply activity_arg_Some.
    - apply sort_arg_Some; [done|set_solver]. }
  split_and!; [apply Hraise..|].
  intros c (s & body & Hbody & _). revert Hbody. apply Hnever.
  - unfold activity_arg. by rewrite lookup_insert_ne, Hf.
  - apply sort_arg_Some; [by rewrite lookup_insert_ne|set_solver].
Qed.

(** user1 asks for the active clients of the demo store, most recently
    contacted first: Alpha, contacted 10 days ago, is what the filter
    selects, and the request fails; sorted any other way it is answered. *)
Lemma active_filter_fails_with_activity_sort_witness :
  client_a ∈ clients demo_db ∧ client_listed user1 client_a
  ∧ contacted_since demo_db client_a (demo_now - Py.days 30)
  ∧ list_clients user1 {[ "activity_filter" := "active"; "sort" := "activity" ]}
      demo_now demo_db = Raise Py.OperationalError
  ∧ (∀ c, ¬ on_some_page user1
              {[ "activity_filter" := "active"; "sort" := "activity" ]}
              demo_now demo_db c)
  ∧ ∃ body, list_clients user1
              {[ "activity_filter" := "active"; "sort" := "newest" ]}
              demo_now demo_db = Ok body
      ∧ listed_clients body = [client_a].
Proof.
  destruct (active_filter_fails_with_activity_sort user1
              {[ "activity_filter" := "active"; "sort" := "activity" ]}
              demo_now demo_db 1 20) as (Hraise & _ & Hnone); [done..|].
  split_and!; [apply list_elem_of_here|done| |done|done|].
  - exists (mk_interaction 1 (Some 1) None (Py.days 990)).
    split_and!; [apply list_elem_of_here|done|by vm_compute].
  - eexists. split; by vm_compute.
Defined.

(** ** Sorting by activity (C5) *)

Section sorted_facts.
Context {A : Type} (R : relation A).

Lemma StronglySorted_lookup l i j a b :
  StronglySorted R l → l !! i = Some a → l !! j = Some b → (i < j)%nat →
  R a b.
Proof.
  intros Hs Hi Hj Hij. rewrite <- (take_drop j l) in Hs.
  apply (StronglySorted_app_1_elem_of R _ _ a b Hs).
  - apply list_elem_of_lookup. exists i. by rewrite lookup_take_lt.
  - apply list_elem_of_lookup. exists 0%nat.
    rewrite lookup_drop. by rewrite Nat.add_0_r.
Qed.

Lemma StronglySorted_take_drop l n m :
  StronglySorted R l → StronglySorted R (take n (drop m l)).
Proof.
  intros Hs. rewrite <- (take_drop m l) in Hs.
  apply StronglySorted_app_1_r in Hs.
  rewrite <- (take_drop n (drop m l)) in Hs.
  by apply StronglySorted_app_1_l in Hs.
Qed.

End sorted_facts.

(** [last_contact] is the date of the client's latest Interaction. *)
Lemma last_contact_Some db c m :
  last_contact db c = Some m ↔
    (∃ i, i ∈ interactions db ∧ i_client_id i = Some (c_id c)
          ∧ i_contact_date i = m)
    ∧ (∀ i, i ∈ interactions db → i_client_id i = Some (c_id c) →
            i_contact_date i ≤ m).
Proof.
  unfold last_contact. rewrite max_agg_Some. split.
  - intros [Hm Hall]. split.
    + apply list_elem_of_fmap in Hm as (i & -> & Hi).
      apply list_elem_of_filter in Hi as [Hon Hi].
      apply bool_decide_unpack in Hon. by exists i.
    + intros i Hi Hid. apply Hall, list_elem_of_fmap. exists i.
      split; [done|]. apply list_elem_of_filter. split; [|done].
      by apply bool_decide_pack.
  - intros [(i & Hi & Hid & <-) Hall]. split.
    + apply list_elem_of_fmap. exists i. split; [done|].
      apply list_elem_of_filter. split; [|done]. by apply bool_decide_pack.
    + intros v (i' & -> & Hi')%list_elem_of_fmap.
      apply list_elem_of_filter in Hi' as [Hon Hi'].
      apply bool_decide_unpack in Hon. by apply Hall.
Qed.

Lemma last_contact_None db c : last_contact db c = None ↔ ¬ contacted db c.
Proof.
  unfold last_contact. rewrite max_agg_None. split.
  - intros Hnil (i & Hi & Hid).
    assert (i_contact_date i ∈
              i_contact_date <$> filter (λ i, on_client c i) (interactions db))
      as Hin.
    { apply list_elem_of_fmap. exists i. split; [done|].
      apply list_elem_of_filter. split; [|done]. by apply bool_decide_pack. }
    rewrite Hnil in Hin. by apply not_elem_of_nil in Hin.
  - intros Hno. destruct (filter _ (interactions db)) as [|i t] eqn:Hf; [done|].
    destruct Hno. exists i.
    assert (i ∈ filter (λ i, on_client c i) (interactions db)) as Hin
      by (rewrite Hf; apply list_elem_of_here).
    apply list_elem_of_filter in Hin as [Hon Hin].
    apply bool_decide_unpack in Hon. done.
Qed.

(** C5, on the code. With [sort=activity] the clients that have
    Interactions are in descending order of their latest one, and clients
    without Interactions are kept (with no activity filter every client of
    the visibility set is on some page). Where a client without
    Interactions goes is not in the handler, which orders by
    [desc(max(contact_date))] and names no place for NULL: on an engine
    that puts NULL last under DESC it comes after every client that has an
    Interaction, as the spec has it, and on an engine that puts NULL first
    it comes before every one of them. *)
Theorem activity_sort_order (user : User) (args : gmap string string)
    (now : Z) (db : DB) (per_page : Z) :
  args !! "sort" = Some "activity" →
  (∀ body, list_clients user args now db = Ok body →
     (∀ i j a b,
        listed_clients body !! i = Some a →
        listed_clients body !! j = Some b → (i < j)%nat →
        contacted db a →
        ∀ ib, ib ∈ interactions db → i_client_id ib = Some (c_id b) →
          ∃ ia, ia ∈ interactions db ∧ i_client_id ia = Some (c_id a)
                ∧ i_contact_date ib ≤ i_contact_date ia)
     ∧ (∀ i j a b,
          listed_clients body !! i = Some a →
          listed_clients body !! j = Some b →
          ¬ contacted db a → contacted db b →
          if Sql.desc_nulls_first (dialect db) then (i < j)%nat
          else (j < i)%nat))
  ∧ (Py.int_arg args "per_page" 20 = inr per_page → 0 < per_page →
     args !! "activity_filter" = None →
     ∀ c, c ∈ clients db → client_listed user c →
          on_some_page user args now db c).
Proof.
  intros Hsort. split.
  - intros body Hbody. unfold list_clients in Hbody.
    apply client_listing_Ok in Hbody as (p & pp & rows & _ & _ & Hq & Hw & _).
    apply execute_inv in Hq as ->.
    apply window_take_drop in Hw as (n & m & Hw).
    assert (StronglySorted
       (λ a b, Sql.null_le (Sql.desc_nulls_first (dialect db))
                 (last_contact db b) (last_contact db a))
       (listed_clients body)) as Hs.
    { rewrite Hw. apply StronglySorted_take_drop.
      unfold client_query. rewrite (sort_arg_Some args "activity" Hsort)
        by set_solver.
      unfold client_sort.
      rewrite !bool_decide_eq_false_2, bool_decide_eq_true_2 by done.
      cbn [q_rows].
      exact (order_by_desc_sorted
               (Sql.null_le (Sql.desc_nulls_first (dialect db)))
               (last_contact db) _). }
    split.
    + intros i j a b Hi Hj Hij Ha ib Hib Hidb.
      pose proof (StronglySorted_lookup _ _ _ _ _ _ Hs Hi Hj Hij) as Hle.
      cbv beta in Hle.
      destruct (last_contact db a) as [ma|] eqn:Hma;
        [|by apply last_contact_None in Hma].
      destruct (last_contact db b) as [mb|] eqn:Hmb.
      * apply null_le_Some in Hle.
        apply last_contact_Some in Hmb as [_ Hmaxb].
        apply last_contact_Some in Hma as [(ia & Hia & Hida & <-) _].
        exists ia. split_and!; [done..|]. specialize (Hmaxb ib Hib Hidb). lia.
      * apply last_contact_None in Hmb. destruct Hmb. by exists ib.
    + intros i j a b Hi Hj Hna Hb.
      apply last_contact_None in Hna.
      destruct (last_contact db b) as [mb|] eqn:Hmb;
        [|by apply last_contact_None in Hmb].
      assert (i ≠ j) as Hne.
      { intros ->. rewrite Hi in Hj. injection Hj as ->. congruence. }
      destruct (Sql.desc_nulls_first (dialect db)) eqn:Hd.
      * destruct (decide (i < j)%nat) as [|Hge]; [done|]. exfalso.
        assert (j < i)%nat as Hji by lia.
        pose proof (StronglySorted_lookup _ _ _ _ _ _ Hs Hj Hi Hji) as Hle.
        cbv beta in Hle. by rewrite Hna, Hmb in Hle.
      * destruct (decide (j < i)%nat) as [|Hge]; [done|]. exfalso.
        assert (i < j)%nat as Hij by lia.
        pose proof (StronglySorted_lookup _ _ _ _ _ _ Hs Hi Hj Hij) as Hle.
        cbv beta in Hle. by rewrite Hna, Hmb in Hle.
  - intros Hpp Hpos Hf c Hc Hl.
    apply (on_some_page_complete user args now db per_page c Hpp Hpos).
    + unfold activity_arg. rewrite Hf. by intros [[=] _].
    + unfold activity_arg. rewrite Hf.
      rewrite client_activity_filter_other by (by apply (bool_decide_unpack _)).
      cbn [q_rows]. by apply list_elem_of_filter.
Qed.

(** The activity-sorted list of user1 in the demo store holds Alpha
    (contacted) and Delta (never contacted): Delta comes last on the engine
    that ranks NULL lowest and first on the engine that ranks it highest. *)
Lemma activity_sort_order_witness :
  contacted demo_db_strict client_a ∧ ¬ contacted demo_db_strict client_d
  ∧ (∃ body, list_clients user1 {[ "sort" := "activity" ]} demo_now
               demo_db_strict = Ok body
       ∧ listed_clients body = [client_d; client_a])
  ∧ (∃ body, list_clients user1 {[ "sort" := "activity" ]} demo_now
               demo_db = Ok body
       ∧ listed_clients body = [client_a; client_d])
  ∧ ∀ body i j,
      list_clients user1 {[ "sort" := "activity" ]} demo_now demo_db_strict
      = Ok body →
      listed_clients body !! i = Some client_d →
      listed_clients body !! j = Some client_a → (i < j)%nat.
Proof.
  assert (contacted demo_db_strict client_a) as Ha.
  { exists (mk_interaction 1 (Some 1) None (Py.days 990)).
    split; [apply list_elem_of_here|done]. }
  assert (¬ contacted demo_db_strict client_d) as Hd.
  { intros (i & Hi & Hid). revert Hid.
    repeat (apply elem_of_cons in Hi as [->|Hi]; [done|]).
    by apply not_elem_of_nil in Hi. }
  destruct (activity_sort_order user1 {[ "sort" := "activity" ]} demo_now
              demo_db_strict 20) as [Hs _]; [done|].
  split_and!; [done|done| | |].
  - eexists. split; by vm_compute.
  - eexists. split; by vm_compute.
  - intros body i j Hbody Hi Hj.
    destruct (Hs body Hbody) as [_ Hnull].
    exact (Hnull i j client_d client_a Hi Hj Hd Ha).
Defined.

(** ** Pagination (C6) *)







(** ** Assignment and the mail collaborator (C7) *)

Section assign_mail.
Context (send : string → string → Py.value → string → option Py.exn).

(** What [assign_lead] answers and writes does not depend on the mail
    collaborator: whatever it raises is caught. *)
Lemma assign_lead_mail_independent send' user lead_id assigned_to now db :
  assign_lead send user lead_id assigned_to now db
  = assign_lead send' user lead_id assigned_to now db.
Proof.
  unfold assign_lead.
  destruct (list_find _ (leads db)) as [[i l]|]; [|done].
  destruct (given assigned_to && _); [done|].
  destruct (given assigned_to); [|done].
  destruct (list_find (λ u, Some (u_id u) = assigned_to) (users db))
    as [[j u]|]; [|done].
  by destruct (send _ _ _ _), (send' _ _ _ _).
Qed.

(** A valid lead assignment is written, mail or no mail. *)
Lemma assign_lead_valid user lead_id assigned_to now db i lead j assigned_user :
  list_find (λ l, l_id l = lead_id ∧ l_tenant_id l = u_tenant_id user
                  ∧ l_deleted_at l = None) (leads db) = Some (i, lead) →
  list_find (assignable user assigned_to) (users db) = Some (j, assigned_user) →
  assign_lead send user lead_id assigned_to now db
  = (Ok "Lead assigned successfully",
     put_lead i (lead_assign assigned_to (u_id user) now lead) db).
Proof.
  intros Hl Hu. unfold assign_lead. rewrite Hl, Hu.
  rewrite (bool_decide_eq_false_2 (Some _ = None)) by done.
  rewrite andb_false_r. destruct (given assigned_to); [|done].
  destruct (list_find (λ u, Some (u_id u) = assigned_to) (users db))
    as [[k u]|]; [|done].
  by destruct (send _ _ _ _).
Qed.

(** A valid client assignment is written when the mail collaborator
    returns, and lost when it raises: the exception leaves the handler
    before [session.commit()]. *)
Lemma assign_client_valid user client_id assigned_to now db i client j
    assigned_user :
  given assigned_to →
  list_find (λ c, c_id c = client_id ∧ c_tenant_id c = u_tenant_id user
                  ∧ c_deleted_at c = None) (clients db) = Some (i, client) →
  list_find (assignable user assigned_to) (users db) = Some (j, assigned_user) →
  assign_client send user client_id assigned_to now db
  = match send (u_email assigned_user) "client" (Py.VStr (c_name client))
                (u_email user) with
    | Some e => (Raise e, db)
    | None =>
        (Ok "Client assigned successfully",
         put_client i (client_assign assigned_to (u_id user) now client) db)
    end.
Proof.
  intros Hg Hc Hu. unfold assign_client. rewrite Hc, Hu.
  by destruct (given assigned_to).
Qed.

End assign_mail.

(** C7, on the code. The admin assigns client 1 and lead 1 of the demo
    store to user2, a valid assignee, while the mail collaborator fails.
    The lead assignment is written ([assigned_to], [updated_by],
    [updated_at]) and answered with 200. The client assignment is not: the
    exception reaches the caller and nothing is written, although the same
    request is written when the mail goes out. *)
Theorem assign_client_lost_when_mail_fails :
  assign_client mail_down admin 1 (Some 3) demo_now demo_db
    = (Raise Py.DeliveryError, demo_db)
  ∧ assign_client mail_ok admin 1 (Some 3) demo_now demo_db
    = (Ok "Client assigned successfully",
       put_client 0 (client_assign (Some 3) 1 demo_now client_a) demo_db)
  ∧ assign_lead mail_down admin 1 (Some 3) demo_now demo_db
    = (Ok "Lead assigned successfully",
       put_lead 0 (lead_assign (Some 3) 1 demo_now lead_a) demo_db).
Proof. split_and!; by vm_compute. Qed.

(** ** Assignment to an invalid assignee (C8) *)

Section assign_invalid.
Context (send : string → string → Py.value → string → option Py.exn).

Lemma no_assignable user assigned_to db :
  (∀ u, u ∈ users db → Some (u_id u) = assigned_to →
        u_tenant_id u ≠ u_tenant_id user ∨ u_is_active u = false) →
  list_find (assignable user assigned_to) (users db) = None.
Proof.
  intros Hno. apply list_find_None, Forall_forall.
  intros u Hu%list_elem_of_In (Hid & Ht & Ha).
  destruct (Hno u Hu Hid); congruence.
Qed.

Lemma list_find_is_Some {A} (P : A → Prop) `{!∀ x, Decision (P x)} l x :
  x ∈ l → P x → ∃ i y, list_find P l = Some (i, y).
Proof.
  intros Hx HP. destruct (list_find_elem_of P l x Hx HP) as [[i y] Hf]. eauto.
Qed.

End assign_invalid.

(** C8, on the code. The admin of the demo store assigns lead 1 to user 0,
    whom the store does not have. [assign_lead] validates the assignee
    under [if assigned_to:], which takes 0 for "no assignee": the request
    is not validated and goes on to the commit, so the reply is 200 and the
    row is written with [assigned_to = 0], [updated_by] and [updated_at].
    [assign_client] answers the same request for client 1 with 400 and
    writes nothing. *)
Theorem assign_lead_zero_not_validated :
  (∀ u, u ∈ users demo_db → u_id u ≠ 0)
  ∧ assign_lead mail_ok admin 1 (Some 0) demo_now demo_db
    = (Ok "Lead assigned successfully",
       put_lead 0 (lead_assign (Some 0) 1 demo_now lead_a) demo_db)
  ∧ leads demo_db !! 0%nat = Some lead_a
  ∧ l_assigned_to lead_a = None ∧ l_updated_at lead_a = None
  ∧ (∃ l', leads (assign_lead mail_ok admin 1 (Some 0) demo_now demo_db).2
           !! 0%nat = Some l'
       ∧ l_id l' = 1 ∧ l_assigned_to l' = Some 0
       ∧ l_updated_by l' = Some 1 ∧ l_updated_at l' = Some demo_now)
  ∧ assign_client mail_ok admin 1 (Some 0) demo_now demo_db
    = (Error 400 "Missing assigned_to", demo_db).
Proof.
  split_and!; [|by vm_compute..| |by vm_compute].
  - intros u Hu. repeat (apply elem_of_cons in Hu as [->|Hu]; [done|]).
    by apply not_elem_of_nil in Hu.
  - eexists. split; [by vm_compute|]. by split_and!.
Qed.

(** X27. Every other invalid assignee is turned down. An assignment
    request that names an assignee (a non-zero user id) who does not exist,
    is of another tenant or is not active is answered 400 when its target
    is a live row of the caller's tenant, and whatever its target nothing
    is written. *)
Theorem invalid_assignee_rejected
    (send : string → string → Py.value → string → option Py.exn)
    (user : User) (assigned_to : option Z) (now : Z) (db : DB)
    (client_id lead_id : Z) :
  given assigned_to →
  (∀ u, u ∈ users db → Some (u_id u) = assigned_to →
        u_tenant_id u ≠ u_tenant_id user ∨ u_is_active u = false) →
  ((∃ c, c ∈ clients db ∧ c_id c = client_id
         ∧ c_tenant_id c = u_tenant_id user ∧ c_deleted_at c = None) →
     assign_client send user client_id assigned_to now db
     = (Error 400 "Assigned user not found or inactive", db))
  ∧ ((∃ l, l ∈ leads db ∧ l_id l = lead_id
           ∧ l_tenant_id l = u_tenant_id user ∧ l_deleted_at l = None) →
     assign_lead send user lead_id assigned_to now db
     = (Error 400 (no_such_user assigned_to), db))
  ∧ (assign_client send user client_id assigned_to now db).2 = db
  ∧ (assign_lead send user lead_id assigned_to now db).2 = db.
Proof.
  intros Hg Hno. pose proof (no_assignable user assigned_to db Hno) as Hnone.
  apply Is_true_true in Hg.
  split_and!.
  - intros (c & Hc & Hid & Ht & Hd). unfold assign_client. rewrite Hg. simpl.
    destruct (list_find_is_Some
                (λ c, c_id c = client_id ∧ c_tenant_id c = u_tenant_id user
                      ∧ c_deleted_at c = None) (clients db) c)
      as (i & c' & ->); [done..|]. by rewrite Hnone.
  - intros (l & Hl & Hid & Ht & Hd). unfold assign_lead.
    destruct (list_find_is_Some
                (λ l, l_id l = lead_id ∧ l_tenant_id l = u_tenant_id user
                      ∧ l_deleted_at l = None) (leads db) l)
      as (i & l' & ->); [done..|].
    by rewrite Hg, Hnone.
  - unfold assign_client. rewrite Hg. simpl.
    destruct (list_find _ (clients db)) as [[i c]|]; [|done].
    by rewrite Hnone.
  - unfold assign_lead.
    destruct (list_find _ (leads db)) as [[i l]|]; [|done].
    by rewrite Hg, Hnone.
Qed.

(** The admin of the demo store tries a deactivated colleague (4), a user of
    another tenant (5) and an id nobody has (99). *)
Lemma invalid_assignee_rejected_witness :
  assign_client mail_ok admin 1 (Some 4) demo_now demo_db
    = (Error 400 "Assigned user not found or inactive", demo_db)
  ∧ assign_lead mail_ok admin 1 (Some 5) demo_now demo_db
    = (Error 400 "User 5 not found or not active", demo_db)
  ∧ assign_lead mail_ok admin 1 (Some 99) demo_now demo_db
    = (Error 400 "User 99 not found or not active", demo_db).
Proof.
  assert (∀ a, a ∈ [4; 5; 99] → ∀ u, u ∈ users demo_db →
            Some (u_id u) = Some a →
            u_tenant_id u ≠ u_tenant_id admin ∨ u_is_active u = false) as Hbad.
  { intros a Ha u Hu Hid.
    repeat (apply elem_of_cons in Hu as [->|Hu];
            [vm_compute in Hid; injection Hid as <-; set_solver|]).
    by apply not_elem_of_nil in Hu. }
  split_and!.
  - apply (invalid_assignee_rejected mail_ok admin (Some 4) demo_now demo_db 1 1);
      [done|apply Hbad; set_solver|].
    exists client_a. split_and!; [set_solver|done..].
  - apply (invalid_assignee_rejected mail_ok admin (Some 5) demo_now demo_db 1 1);
      [done|apply Hbad; set_solver|].
    exists lead_a. split_and!; [set_solver|done..].
  - apply (invalid_assignee_rejected mail_ok admin (Some 99) demo_now demo_db 1 1);
      [done|apply Hbad; set_solver|].
    exists lead_a. split_and!; [set_solver|done..].
Defined.

(** ** Finding the row of an id *)

Section find_row.
Context {A : Type} (P : A → Prop) `{!∀ x, Decision (P x)}.

(** Under a primary key, [filter(...).first()] finds the one row whose key
    the filter fixes. *)
Lemma list_find_unique (key : A → Z) l x :
  NoDup (key <$> l) → x ∈ l → P x → (∀ y, P y → key y = key x) →
  ∃ i, list_find P l = Some (i, x).
Proof.
  intros Hnd Hx HP Hkey.
  destruct (list_find_elem_of P l x Hx HP) as [[i y] Hf].
  exists i. rewrite Hf. do 2 f_equal.
  apply list_find_Some in Hf as (Hi & HPy & _).
  apply (primary_key key l); [done|by eapply list_elem_of_lookup_2|done|auto].
Qed.

(** Writing back a row the filter still accepts does not move it. *)
Lemma list_find_insert_same l i x y :
  list_find P l = Some (i, x) → P y →
  list_find P (<[i := y]> l) = Some (i, y).
Proof.
  intros (Hi & _ & Hbefore)%list_find_Some Hy. apply list_find_Some.
  split_and!; [|done|].
  - apply list_lookup_insert_eq. by eapply lookup_lt_Some.
  - intros j z Hj Hlt. rewrite list_lookup_insert_ne in Hj by lia. eauto.
Qed.

End find_row.

(** ** Converting a lead (C9) *)

Lemma lead_status_update_converted data now l :
  data !! "lead_status" = Some (Py.VStr "converted") →
  lead_status_update data now l
  = (Some "converted",
     if decide (l_lead_status l = Some "converted") then l_converted_on l
     else Some now).
Proof.
  intros Hd. unfold lead_status_update. rewrite Hd.
  rewrite bool_decide_eq_true_2 by set_solver.
  rewrite (bool_decide_eq_true_2 ("converted" = "converted")) by done.
  simpl. destruct (decide (l_lead_status l = Some "converted")).
  - by rewrite bool_decide_eq_false_2 by auto.
  - by rewrite bool_decide_eq_true_2.
Qed.

(** One update that sets [lead_status] to "converted", on the row it finds. *)
Lemma update_lead_converted user lead_id data now db i lead :
  list_find (lead_editable user lead_id) (leads db) = Some (i, lead) →
  data !! "lead_status" = Some (Py.VStr "converted") →
  ∃ lead',
    update_lead user lead_id data now db = (Ok (l_id lead), put_lead i lead' db)
    ∧ lead_editable user lead_id lead'
    ∧ l_id lead' = l_id lead
    ∧ l_lead_status lead' = Some "converted"
    ∧ l_converted_on lead'
      = if decide (l_lead_status lead = Some "converted")
        then l_converted_on lead else Some now.
Proof.
  intros Hf Hd. unfold update_lead. rewrite Hf.
  rewrite (lead_status_update_converted data now lead Hd).
  apply list_find_Some in Hf as (_ & Hed & _).
  eexists. split; [reflexivity|].
  unfold lead_editable in *.
  cbn [l_id l_tenant_id l_created_by l_assigned_to l_deleted_at
       l_lead_status l_converted_on fst snd].
  split; [exact Hed|]. by split_and!.
Qed.

(** What is in row [i] after it was written back. *)
Lemma put_lead_lookup i l l' db :
  leads db !! i = Some l →
  leads (put_lead i l' db) = <[i := l']> (leads db)
  ∧ leads (put_lead i l' db) !! i = Some l'.
Proof.
  intros Hi. split; [done|]. cbn [put_lead leads].
  apply list_lookup_insert_eq. by eapply lookup_lt_Some.
Qed.

(** C9. An update that sets [lead_status] to "converted" is written to the
    lead's row: the row then has status "converted", and its
    [converted_on] is the time of the update when the lead was not
    converted and is left as it was when the lead was converted already.
    So after a second such update the row still carries the stamp of the
    first. *)
Theorem converted_on_set_once (user : User) (data1 data2 : gmap string Py.value)
    (now1 now2 : Z) (db : DB) (lead : Lead) :
  primary_keys db →
  lead ∈ leads db → lead_editable user (l_id lead) lead →
  data1 !! "lead_status" = Some (Py.VStr "converted") →
  data2 !! "lead_status" = Some (Py.VStr "converted") →
  ∃ i lead1 lead2 db1 db2,
    leads db !! i = Some lead
    ∧ update_lead user (l_id lead) data1 now1 db = (Ok (l_id lead), db1)
    ∧ leads db1 = <[i := lead1]> (leads db)
    ∧ leads db1 !! i = Some lead1
    ∧ update_lead user (l_id lead) data2 now2 db1 = (Ok (l_id lead), db2)
    ∧ leads db2 = <[i := lead2]> (leads db1)
    ∧ leads db2 !! i = Some lead2
    ∧ l_id lead1 = l_id lead ∧ l_id lead2 = l_id lead
    ∧ l_lead_status lead1 = Some "converted"
    ∧ l_converted_on lead1
      = (if decide (l_lead_status lead = Some "converted")
         then l_converted_on lead else Some now1)
    ∧ l_lead_status lead2 = Some "converted"
    ∧ l_converted_on lead2 = l_converted_on lead1.
Proof.
  intros (_ & Hpk & _) Hin Hed Hd1 Hd2.
  destruct (list_find_unique (lead_editable user (l_id lead)) l_id
              (leads db) lead Hpk Hin Hed) as [i Hf].
  { by intros y (? & _). }
  pose proof Hf as (Hi & _)%list_find_Some.
  destruct (update_lead_converted user (l_id lead) data1 now1 db i lead Hf Hd1)
    as (lead1 & Hu1 & Hed1 & Hid1 & Hs1 & Hc1).
  destruct (put_lead_lookup i lead lead1 db Hi) as [Hl1 Hi1].
  assert (list_find (lead_editable user (l_id lead))
            (leads (put_lead i lead1 db)) = Some (i, lead1)) as Hf1.
  { simpl. by eapply list_find_insert_same. }
  destruct (update_lead_converted user (l_id lead) data2 now2
              (put_lead i lead1 db) i lead1 Hf1 Hd2)
    as (lead2 & Hu2 & _ & Hid2 & Hs2 & Hc2).
  destruct (put_lead_lookup i lead1 lead2 (put_lead i lead1 db) Hi1)
    as [Hl2 Hi2].
  exists i, lead1, lead2, (put_lead i lead1 db),
    (put_lead i lead2 (put_lead i lead1 db)).
  split_and!; try done.
  - by rewrite Hu2, Hid1.
  - congruence.
  - rewrite Hc2. by rewrite decide_True.
Qed.

(** user1 converts lead 1 of the demo store on day 1000 and sends the same
    update again on day 1001. *)
Lemma converted_on_set_once_witness :
  ∃ lead1 lead2 db1 db2,
    update_lead user1 1 {[ "lead_status" := Py.VStr "converted" ]}
      demo_now demo_db = (Ok 1, db1)
    ∧ update_lead user1 1 {[ "lead_status" := Py.VStr "converted" ]}
        (demo_now + Py.days 1) db1 = (Ok 1, db2)
    ∧ leads demo_db !! 0%nat = Some lead_a
    ∧ leads db1 !! 0%nat = Some lead1
    ∧ leads db2 !! 0%nat = Some lead2
    ∧ l_converted_on lead_a = None
    ∧ l_converted_on lead1 = Some demo_now
    ∧ l_converted_on lead2 = Some demo_now.
Proof.
  assert (primary_keys demo_db) as Hpk by by apply (bool_decide_unpack _).
  destruct (converted_on_set_once user1
              {[ "lead_status" := Py.VStr "converted" ]}
              {[ "lead_status" := Py.VStr "converted" ]}
              demo_now (demo_now + Py.days 1) demo_db lead_a Hpk)
    as (i & lead1 & lead2 & db1 & db2 & Hi & Hu1 & _ & Hi1 & Hu2 & _ & Hi2
        & _ & _ & _ & Hc1 & _ & Hc2);
    [set_solver|by apply (bool_decide_unpack _)|done..|].
  assert (i = 0%nat) as ->.
  { destruct i as [|[|[|i]]]; [done|by vm_compute in Hi..]. }
  exists lead1, lead2, db1, db2.
  split_and!; [done..|by rewrite Hc1|by rewrite Hc2, Hc1].
Defined.

(** ** Projects by id (C10) *)

Section project_access.
Context (fromisoformat : string → option Z) (options : list string).

(** A date that is a string, or is falsy, never makes the update fail. *)
Lemma parse_date_total value :
  (Py.truthy value → ∃ s, value = Py.VStr s) →
  ∃ d, parse_date_with_default_time fromisoformat value = inr d.
Proof.
  intros Hv. unfold parse_date_with_default_time.
  destruct (Py.truthy value) eqn:Ht; simpl; [|by eexists].
  destruct Hv as [s ->]; [done|].
  destruct (fromisoformat s); [by eexists|].
  destruct (fromisoformat _); by eexists.
Qed.

Lemma date_update_total data key current :
  (∀ v, data !! key = Some v → Py.truthy v → ∃ s, v = Py.VStr s) →
  ∃ d, date_update fromisoformat data key current = inr d.
Proof.
  intros Hv. unfold date_update.
  destruct (data !! key) as [v|]; [|by eexists].
  apply parse_date_total. auto.
Qed.

(** C10. Fetching, updating and deleting a project by id look the row up by
    id and tenant only. For any user of the project's tenant, whoever
    created the project and whatever the user's roles: the fetch answers
    with the project (and logs the view); the delete removes it; the update
    never answers 404, and is written whenever its two dates, if given, are
    strings or empty. *)
Theorem project_access_by_tenant_only (user : User) (db : DB) (p : Project)
    (data : gmap string Py.value) :
  primary_keys db →
  p ∈ projects db → p_tenant_id p = u_tenant_id user →
  ∃ i, projects db !! i = Some p
    ∧ get_project user (p_id p) db
      = (Ok p, add_log (viewed user "project" (p_id p)) db)
    ∧ delete_project user (p_id p) db
      = (Ok "Project deleted", with_projects (delete i (projects db)) db)
    ∧ (p ∉ projects (delete_project user (p_id p) db).2)
    ∧ (update_project fromisoformat options user (p_id p) data db).1
      ≠ Error 404 "Project not found"
    ∧ ((∀ key v, key ∈ ["project_start"; "project_end"] →
                 data !! key = Some v → Py.truthy v → ∃ s, v = Py.VStr s) →
       ∃ p', update_project fromisoformat options user (p_id p) data db
             = (Ok (p_id p), with_projects (<[i := p']> (projects db)) db)
         ∧ p_id p' = p_id p ∧ p_tenant_id p' = p_tenant_id p
         ∧ p_created_by p' = p_created_by p
         ∧ p_columns p' = copy_fields id project_fields data (p_columns p)).
Proof.
  intros (_ & _ & Hpk & _) Hin Ht.
  destruct (list_find_unique (project_in_tenant user (p_id p)) p_id
              (projects db) p Hpk Hin) as [i Hf]; [done|by intros y [? _]|].
  pose proof Hf as (Hi & _)%list_find_Some.
  exists i. split_and!; [done|..].
  - unfold get_project. by rewrite Hf.
  - unfold delete_project. by rewrite Hf.
  - unfold delete_project. rewrite Hf. simpl.
    intros (j & Hj)%list_elem_of_lookup.
    assert (NoDup (projects db)) as Hnd by by eapply NoDup_fmap_1.
    destruct (decide (j < i)%nat).
    + rewrite list_lookup_delete_lt in Hj by done.
      pose proof (NoDup_lookup _ _ _ _ Hnd Hi Hj). lia.
    + rewrite list_lookup_delete_ge in Hj by lia.
      pose proof (NoDup_lookup _ _ _ _ Hnd Hi Hj). lia.
  - unfold update_project. rewrite Hf.
    destruct (date_update _ _ "project_start" _); [done|].
    by destruct (date_update _ _ "project_end" _).
  - intros Hdates. unfold update_project. rewrite Hf.
    destruct (date_update_total data "project_start" (p_project_start p))
      as [d1 ->]; [intros v; apply Hdates; set_solver|].
    destruct (date_update_total data "project_end" (p_project_end p))
      as [d2 ->]; [intros v; apply Hdates; set_solver|].
    eexists. split; [done|]. done.
Qed.

End project_access.

(** user1, who is no admin, works on a project that user2 created. *)
Lemma project_access_by_tenant_only_witness :
  p_created_by project_b ≠ u_id user1 ∧ is_admin user1 = false
  ∧ (get_project user1 2 demo_db).1 = Ok project_b
  ∧ (delete_project user1 2 demo_db).1 = Ok "Project deleted"
  ∧ (project_b ∉ projects (delete_project user1 2 demo_db).2)
  ∧ (update_project (λ _, None) ["pending"; "won"; "lost"] user1 2
       {[ "notes" := Py.VStr "mine now" ]} demo_db).1 = Ok 2.
Proof.
  assert (primary_keys demo_db) as Hpk by by apply (bool_decide_unpack _).
  destruct (project_access_by_tenant_only (λ _, None) ["pending"; "won"; "lost"]
              user1 demo_db project_b {[ "notes" := Py.VStr "mine now" ]} Hpk)
    as (i & _ & Hget & Hdel & Hgone & _ & Hupd); [set_solver|done|].
  destruct Hupd as (p' & Hupd & _).
  { intros key v Hkey Hv.
    apply elem_of_cons in Hkey as [->|Hkey]; [done|].
    apply list_elem_of_singleton in Hkey as ->. done. }
  split_and!; [done|done| | |done|].
  - change 2 with (p_id project_b). by rewrite Hget.
  - change 2 with (p_id project_b) at 1. by rewrite Hdel.
  - change 2 with (p_id project_b) at 1. by rewrite Hupd.
Defined.

(** * Further properties *)

(** ** The statistics of a list reply *)

Lemma foldl_insert_lookup {V} (g : Z → V) (keys : list Z) (m : gmap Z V) k :
  foldl (λ m (d : Z * V), <[d.1 := d.2]> m) m ((λ k, (k, g k)) <$> keys) !! k
  = if decide (k ∈ keys) then Some (g k) else m !! k.
Proof.
  revert m. induction keys as [|a keys IH]; intros m.
  - by rewrite decide_False by apply not_elem_of_nil.
  - rewrite fmap_cons. cbn [foldl fst snd].
    rewrite IH. destruct (decide (k ∈ keys)) as [Hin|Hout].
    + by rewrite decide_True by by apply list_elem_of_further.
    + destruct (decide (k = a)) as [->|Hne].
      * rewrite lookup_insert_eq.
        by rewrite decide_True by apply list_elem_of_here.
      * rewrite lookup_insert_ne by done.
        rewrite decide_False; [done|]. by intros [?|?]%elem_of_cons.
Qed.

(** The entry of a listed client: none when it has no Interaction, else
    the number of its Interactions and the date of the latest. *)
Lemma interaction_stats_lookup client_ids db k :
  k ∈ client_ids →
  interaction_stats client_ids db !! k
  = let group :=
      filter (λ i, bool_decide (i_client_id i = Some k)) (interactions db) in
    match group with
    | [] => None
    | _ => Some {| interaction_count := Z.of_nat (length group);
                   last_interaction_date :=
                     Sql.max_agg (i_contact_date <$> group) |}
    end.
Proof.
  intros Hk. unfold interaction_stats.
  destruct client_ids as [|k0 ids]; [by apply not_elem_of_nil in Hk|].
  revert Hk. generalize (k0 :: ids). clear k0 ids. intros ids Hk.
  unfold interaction_data, Sql.count_agg.
  set (rows := filter (λ i, Sql.in_ (i_client_id i) ids) (interactions db)).
  rewrite (foldl_insert_lookup
    (λ k, {| interaction_count :=
               Z.of_nat (length (filter (λ i, bool_decide (i_client_id i = Some k))
                                   rows));
             last_interaction_date :=
               Sql.max_agg (i_contact_date <$>
                 filter (λ i, bool_decide (i_client_id i = Some k)) rows) |})).
  assert (filter (λ i, bool_decide (i_client_id i = Some k)) rows
          = filter (λ i, bool_decide (i_client_id i = Some k)) (interactions db))
    as Hgroup.
  { subst rows. rewrite list_filter_filter. apply list_filter_iff.
    intros i. split; [tauto|]. intros Hi. split; [done|].
    apply bool_decide_unpack in Hi. rewrite Hi. simpl.
    by apply bool_decide_pack. }
  rewrite Hgroup. cbv zeta.
  remember (filter (λ i, bool_decide (i_client_id i = Some k)) (interactions db))
    as group eqn:Hf.
  destruct group as [|i0 group].
  - rewrite decide_False; [by rewrite lookup_empty|].
    intros (i & Hi & Hid)%elem_of_distinct%list_elem_of_omap.
    assert (i ∈ filter (λ i, bool_decide (i_client_id i = Some k)) rows) as Hin.
    { apply list_elem_of_filter. split; [by apply bool_decide_pack|done]. }
    rewrite Hgroup in Hin. by apply not_elem_of_nil in Hin.
  - rewrite decide_True; [done|].
    apply elem_of_distinct, list_elem_of_omap. exists i0.
    assert (i0 ∈ filter (λ i, bool_decide (i_client_id i = Some k)) rows) as Hin.
    { rewrite Hgroup. apply list_elem_of_here. }
    apply list_elem_of_filter in Hin as [Hid Hin].
    apply bool_decide_unpack in Hid. done.
Qed.

Lemma client_listing_decorated base args now db body :
  client_listing base args now db = Ok body →
  cl_clients body
  = decorate (interaction_stats (c_id <$> listed_clients body) db)
      <$> listed_clients body.
Proof.
  unfold client_listing, try_exn.
  destruct (Py.int_arg args "page" 1) as [|page]; [done|].
  destruct (Py.int_arg args "per_page" 20) as [|per_page]; [done|].
  destruct (execute _) as [|rows]; [done|].
  destruct (Sql.window _ _ _ rows) as [|w]; [done|].
  intros [= <-]. unfold listed_clients. simpl.
  by rewrite listed_clients_decorate.
Qed.

(** X1. Every client of a list reply (the user's list or the admin's)
    carries the number of its Interactions and the date of the latest one;
    a client without Interactions carries 0 and no date. *)
Theorem stats_decoration (user : User) (args : gmap string string) (now : Z)
    (db : DB) (body : ClientList) (item : ClientItem) :
  (list_clients user args now db = Ok body
   ∨ list_all_clients user args now db = Ok body) →
  item ∈ cl_clients body →
  ci_interaction_count item
  = Z.of_nat (length (filter (λ i, on_client (ci_client item) i)
                        (interactions db)))
  ∧ ci_last_interaction_date item = last_contact db (ci_client item)
  ∧ (¬ contacted db (ci_client item) →
     ci_interaction_count item = 0 ∧ ci_last_interaction_date item = None).
Proof.
  intros Hbody Hitem.
  assert (cl_clients body
          = decorate (interaction_stats (c_id <$> listed_clients body) db)
              <$> listed_clients body) as Hdec.
  { destruct Hbody as [Hbody|Hbody]; by eapply client_listing_decorated. }
  rewrite Hdec in Hitem. apply list_elem_of_fmap in Hitem as (c & -> & Hc).
  assert (ci_interaction_count
            (decorate (interaction_stats (c_id <$> listed_clients body) db) c)
          = Z.of_nat (length (filter (λ i, on_client c i) (interactions db)))
          ∧ ci_last_interaction_date
              (decorate (interaction_stats (c_id <$> listed_clients body) db) c)
            = last_contact db c) as [Hcount Hlast].
  { unfold decorate, last_contact, on_client. cbn [ci_interaction_count
      ci_last_interaction_date ci_client].
    rewrite interaction_stats_lookup by by apply list_elem_of_fmap_2.
    cbv zeta.
    by destruct (filter (λ i, bool_decide (i_client_id i = Some (c_id c)))
                   (interactions db)). }
  change (ci_client (decorate
            (interaction_stats (c_id <$> listed_clients body) db) c)) with c.
  split_and!; [done..|].
  intros Hno%last_contact_None. rewrite Hcount, Hlast.
  split; [|done]. unfold last_contact in Hno.
  apply max_agg_None, fmap_nil_inv in Hno. by rewrite Hno.
Qed.

(** Alpha has two Interactions, the later on day 990; Delta has none. *)
Lemma stats_decoration_witness :
  ∃ body, list_clients user1 ∅ demo_now demo_db = Ok body
    ∧ ∀ item, item ∈ cl_clients body →
        ci_last_interaction_date item = last_contact demo_db (ci_client item).
Proof.
  eexists. split; [by vm_compute|]. intros item Hitem.
  eapply (stats_decoration user1 ∅ demo_now demo_db); [|done].
  left. by vm_compute.
Defined.

(** ** Totals and pages *)

Lemma filter_none {A} (P : A → Prop) `{!∀ x, Decision (P x)} (l : list A) :
  (∀ x, x ∈ l → ¬ P x) → filter P l = [].
Proof.
  induction l as [|a l IH]; [done|]. intros Hl.
  rewrite filter_cons, decide_False; [apply IH|]; set_solver.
Qed.

(** The anti-join of the "inactive" branch keeps a client at most once. *)
Lemma inactive_rows (base : list Client) (recent : list (option Z)) :
  fst <$> filter (λ r, bool_decide (r.2 ≫= id = None))
            (Sql.outerjoin (λ c cid, bool_decide (cid = Some (c_id c)))
               base recent)
  = filter (λ c, Some (c_id c) ∉ recent) base.
Proof.
  induction base as [|a base IH]; [done|].
  unfold Sql.outerjoin in *. rewrite bind_cons, list.filter_app, fmap_app, IH.
  rewrite (filter_cons _ a).
  destruct (filter (λ b, bool_decide (b = Some (c_id a))) recent)
    as [|b0 m] eqn:Hm.
  - rewrite decide_True; [done|]. intros Hin.
    assert (Some (c_id a)
              ∈ filter (λ b, bool_decide (b = Some (c_id a))) recent) as Hf
      by (apply list_elem_of_filter; split; [by apply bool_decide_pack|done]).
    rewrite Hm in Hf. by apply not_elem_of_nil in Hf.
  - assert (∀ b, b ∈ b0 :: m → b = Some (c_id a) ∧ b ∈ recent) as Hall.
    { intros b Hb. rewrite <- Hm in Hb.
      apply list_elem_of_filter in Hb as [Hb ?].
      by apply bool_decide_unpack in Hb. }
    rewrite decide_False.
    + rewrite filter_none; [done|].
      intros r (b & -> & Hb)%list_elem_of_fmap Hr.
      apply bool_decide_unpack in Hr. simpl in Hr.
      by destruct (Hall b Hb) as [-> _].
    + intros Hnot. destruct (Hall b0) as [-> Hin]; [apply list_elem_of_here|].
      done.
Qed.

(** A filter never repeats a row of a query that has none twice. *)
Lemma client_activity_filter_NoDup f now db q :
  NoDup (q_rows q) → NoDup (q_rows (client_activity_filter f now db q)).
Proof.
  intros Hq. unfold client_activity_filter.
  repeat case_bool_decide; cbn [q_rows]; [| | |done].
  - apply NoDup_remove_dups.
  - rewrite inactive_rows. by apply list.NoDup_filter.
  - by apply list.NoDup_filter.
Qed.

Lemma client_activity_filter_passes f now db q c :
  c ∈ q_rows (client_activity_filter f now db q)
  ↔ c ∈ q_rows q ∧ passes_filter f now db c.
Proof.
  unfold passes_filter.
  destruct (decide (f = "active")) as [->|];
    [apply client_activity_filter_active|].
  destruct (decide (f = "inactive")) as [->|];
    [apply client_activity_filter_inactive|].
  destruct (decide (f = "new")) as [->|];
    [apply client_activity_filter_new|].
  rewrite client_activity_filter_other by set_solver. tauto.
Qed.

(** X2. In a store with primary keys, the [total] of the user's client list
    is the number of clients of the table that the user may see and that
    pass the activity filter, each counted once however many Interactions
    it has; it is the same on every page of a request and is never less
    than the number of clients on the page. *)
Theorem total_is_page_independent (user : User) (args : gmap string string)
    (now : Z) (db : DB) (page1 page2 : string) (body1 body2 : ClientList) :
  primary_keys db →
  list_clients user (<["page" := page1]> args) now db = Ok body1 →
  list_clients user (<["page" := page2]> args) now db = Ok body2 →
  cl_total body1 = cl_total body2
  ∧ cl_total body1
    = Z.of_nat (length (filter (λ c, client_listed user c
                                     ∧ passes_filter (activity_arg args) now db c)
                          (clients db)))
  ∧ Z.of_nat (length (cl_clients body1)) ≤ cl_total body1.
Proof.
  intros (Hpk & _) H1 H2. unfold list_clients in *.
  apply client_listing_Ok in H1 as (p1 & pp1 & r1 & _ & _ & Hq1 & Hw1 & Ht1 & _).
  apply client_listing_Ok in H2 as (p2 & pp2 & r2 & _ & _ & Hq2 & _ & Ht2 & _).
  rewrite client_query_page in Hq1, Hq2.
  apply execute_inv in Hq1 as ->. apply execute_inv in Hq2 as ->.
  rewrite Ht1, Ht2. split_and!; [done| |].
  - f_equal. unfold client_query. rewrite client_sort_perm.
    apply Permutation_length, list.NoDup_Permutation.
    + apply client_activity_filter_NoDup. cbn [q_rows].
      apply list.NoDup_filter. by eapply NoDup_fmap_1.
    + apply list.NoDup_filter. by eapply NoDup_fmap_1.
    + intros c. rewrite client_activity_filter_passes. cbn [q_rows].
      rewrite !list_elem_of_filter. tauto.
  - apply window_sublist, sublist_length in Hw1.
    unfold listed_clients in Hw1. rewrite length_fmap in Hw1. lia.
Qed.

(** user1 sees Alpha and Delta; only Alpha was contacted in the last 30
    days, twice over the years. *)
Lemma total_is_page_independent_witness :
  ∃ body1 body2,
    list_clients user1 {[ "page" := "1"; "per_page" := "1" ]} demo_now demo_db
      = Ok body1
    ∧ list_clients user1 {[ "page" := "2"; "per_page" := "1" ]} demo_now demo_db
      = Ok body2
    ∧ cl_total body1 = 2 ∧ cl_total body2 = 2.
Proof.
  assert (primary_keys demo_db) as Hpk by by apply (bool_decide_unpack _).
  assert (∃ b, list_clients user1 {[ "page" := "1"; "per_page" := "1" ]}
                 demo_now demo_db = Ok b) as [b1 H1]
    by (eexists; by vm_compute).
  assert (∃ b, list_clients user1 {[ "page" := "2"; "per_page" := "1" ]}
                 demo_now demo_db = Ok b) as [b2 H2]
    by (eexists; by vm_compute).
  destruct (total_is_page_independent user1 {[ "per_page" := "1" ]}
              demo_now demo_db "1" "2" b1 b2 Hpk H1 H2) as (Heq & Hcount & _).
  exists b1, b2. split_and!; [done..| |].
  - rewrite Hcount. by vm_compute.
  - rewrite <- Heq, Hcount. by vm_compute.
Defined.



(** ** Keywords the handler does not know *)

(** X4. A sort keyword other than the four known ones is answered exactly
    like [sort=newest]; an activity filter other than [active], [inactive]
    and [new] filters nothing: the reply has the clients and the total of
    the unfiltered list (and echoes the keyword as it came). *)
Theorem unknown_keywords (user : User) (args : gmap string string) (now : Z)
    (db : DB) (keyword : string) :
  (keyword ∉ ["newest"; "oldest"; "alphabetical"; "activity"] →
     list_clients user (<["sort" := keyword]> args) now db
     = list_clients user (<["sort" := "newest"]> args) now db)
  ∧ (keyword ∉ ["active"; "inactive"; "new"] →
     ∀ body, list_clients user (<["activity_filter" := keyword]> args) now db
             = Ok body →
       ∃ body', list_clients user (<["activity_filter" := "all"]> args) now db
                = Ok body'
         ∧ cl_clients body' = cl_clients body
         ∧ cl_total body' = cl_total body
         ∧ cl_activity_filter body = keyword).
Proof.
  split; intros Hk.
  - unfold list_clients, client_listing, Py.int_arg.
    rewrite !lookup_insert_eq, !lookup_insert_ne by done. simpl.
    by rewrite (bool_decide_eq_false_2 (keyword ∈ _)) by done.
  - intros body. unfold list_clients, client_listing, Py.int_arg, try_exn.
    rewrite !lookup_insert_eq, !lookup_insert_ne by done. simpl.
    rewrite !client_activity_filter_other by set_solver.
    destruct (args !! "page") as [p|];
      [destruct (Py.int_of_str p) as [|page]; [done|]|];
      (destruct (args !! "per_page") as [pp|];
        [destruct (Py.int_of_str pp) as [|per_page]; [done|]|]);
      (destruct (execute _) as [|rows]; [done|]);
      (destruct (Sql.window _ _ _ rows) as [|w]; [done|]);
      intros [= <-]; by eexists.
Qed.

Lemma unknown_keywords_witness :
  list_clients user1 {[ "sort" := "recent" ]} demo_now demo_db
  = list_clients user1 {[ "sort" := "newest" ]} demo_now demo_db.
Proof.
  assert (∀ s : string, ({[ "sort" := s ]} : gmap string string)
                        = <["sort" := s]> ∅) as Hargs by done.
  rewrite !Hargs.
  apply (unknown_keywords user1 ∅ demo_now demo_db "recent").
  by apply (bool_decide_unpack _).
Defined.

(** ** The other sort orders *)

Lemma compare_not_Gt_trans s1 s2 s3 :
  String.compare s1 s2 ≠ Gt → String.compare s2 s3 ≠ Gt →
  String.compare s1 s3 ≠ Gt.
Proof.
  revert s2 s3. induction s1 as [|c1 s1 IH]; intros [|c2 s2] [|c3 s3];
    simpl; try done.
  unfold Ascii.compare.
  destruct (N.compare_spec (N_of_ascii c1) (N_of_ascii c2)) as [E12|L12|G12],
           (N.compare_spec (N_of_ascii c2) (N_of_ascii c3)) as [E23|L23|G23],
           (N.compare_spec (N_of_ascii c1) (N_of_ascii c3)) as [E13|L13|G13];
    try done; try lia; eauto.
Qed.

#[local] Instance str_le_trans : Transitive Sql.str_le.
Proof.
  intros s1 s2 s3. unfold Sql.str_le, String.leb.
  pose proof (compare_not_Gt_trans s1 s2 s3).
  destruct (String.compare s1 s2), (String.compare s2 s3),
    (String.compare s1 s3); simpl; naive_solver.
Qed.

#[local] Instance str_le_total : Total Sql.str_le.
Proof.
  intros s1 s2. unfold Sql.str_le.
  destruct (String.leb_total s1 s2) as [->| ->]; simpl; auto.
Qed.

Lemma order_by_asc_sorted {A K} (le : relation K) `{!RelDecision le}
    `{!Transitive le, !Total le} (key : A → K) rows :
  StronglySorted (λ a b, le (key a) (key b)) (Sql.order_by_asc le key rows).
Proof.
  apply @StronglySorted_merge_sort.
  - intros a b c Hab Hbc. by trans (key b).
  - intros a b. apply total, _.
Qed.

Lemma StronglySorted_impl {A} (R R' : relation A) l :
  StronglySorted R l → (∀ a b, R a b → R' a b) → StronglySorted R' l.
Proof.
  intros Hs Himpl. induction Hs as [|a l _ IH Hall]; constructor; [done|].
  clear IH. induction Hall; constructor; auto.
Qed.

(** X5. The clients of a reply come newest first for [sort=newest] (and for
    a missing or unknown sort keyword), oldest first for [sort=oldest], and
    by name in ascending character order for [sort=alphabetical]; the reply
    names the order it used. *)
Theorem sort_orders (user : User) (args : gmap string string) (now : Z)
    (db : DB) (body : ClientList) :
  list_clients user args now db = Ok body →
  cl_sort_order body = sort_arg args
  ∧ (sort_arg args = "newest" →
     StronglySorted (λ a b, c_created_at b ≤ c_created_at a)
       (listed_clients body))
  ∧ (sort_arg args = "oldest" →
     StronglySorted (λ a b, c_created_at a ≤ c_created_at b)
       (listed_clients body))
  ∧ (sort_arg args = "alphabetical" →
     StronglySorted (λ a b, String.leb (c_name a) (c_name b) = true)
       (listed_clients body)).
Proof.
  intros Hbody.
  assert (cl_sort_order body = sort_arg args) as Hecho.
  { revert Hbody. unfold list_clients, client_listing, try_exn.
    destruct (Py.int_arg args "page" 1) as [|page]; [done|].
    destruct (Py.int_arg args "per_page" 20) as [|per_page]; [done|].
    destruct (execute _) as [|rows]; [done|].
    destruct (Sql.window _ _ _ rows) as [|w]; [done|]. by intros [= <-]. }
  unfold list_clients in Hbody.
  apply client_listing_Ok in Hbody as (p & pp & rows & _ & _ & Hq & Hw & _).
  apply execute_inv in Hq as ->.
  apply window_take_drop in Hw as (n & m & ->).
  unfold client_query, client_sort.
  split_and!; [done|intros ->..]; apply StronglySorted_take_drop.
  - rewrite bool_decide_eq_true_2 by done. cbn [q_rows].
    exact (order_by_desc_sorted Z.le c_created_at _).
  - rewrite bool_decide_eq_false_2, bool_decide_eq_true_2 by done.
    cbn [q_rows]. exact (order_by_asc_sorted Z.le c_created_at _).
  - rewrite !bool_decide_eq_false_2, bool_decide_eq_true_2 by done.
    cbn [q_rows].
    eapply StronglySorted_impl;
      [exact (order_by_asc_sorted Sql.str_le c_name _)|].
    intros a b Hab. by apply Is_true_true.
Qed.

(** user1's list in the demo store: Delta (day 998) before Alpha (day 900)
    when newest first, Alpha before Delta by name. *)
Lemma sort_orders_witness :
  (∃ body, list_clients user1 ∅ demo_now demo_db = Ok body
     ∧ listed_clients body = [client_d; client_a]
     ∧ StronglySorted (λ a b, c_created_at b ≤ c_created_at a)
         (listed_clients body))
  ∧ (∃ body, list_clients user1 {[ "sort" := "alphabetical" ]} demo_now demo_db
             = Ok body
     ∧ listed_clients body = [client_a; client_d]
     ∧ StronglySorted (λ a b, String.leb (c_name a) (c_name b) = true)
         (listed_clients body)).
Proof.
  split.
  - assert (∃ b, list_clients user1 ∅ demo_now demo_db = Ok b
                 ∧ listed_clients b = [client_d; client_a]) as (b & Hb & Hl)
      by (eexists; by vm_compute).
    destruct (sort_orders user1 ∅ demo_now demo_db b Hb) as (_ & Hnew & _).
    exists b. split_and!; [done..|]. by apply Hnew.
  - assert (∃ b, list_clients user1 {[ "sort" := "alphabetical" ]}
                   demo_now demo_db = Ok b
                 ∧ listed_clients b = [client_a; client_d]) as (b & Hb & Hl)
      by (eexists; by vm_compute).
    destruct (sort_orders user1 {[ "sort" := "alphabetical" ]} demo_now
                demo_db b Hb) as (_ & _ & _ & Habc).
    exists b. split_and!; [done..|]. by apply Habc.
Defined.

(** ** The "new" filter and the admin's list *)

(** The pages of a listing over any base filter. *)
Lemma listing_pages base args now db per_page c :
  Py.int_arg args "per_page" 20 = inr per_page → 0 < per_page →
  ¬ (activity_arg args = "active" ∧ sort_arg args = "activity") →
  (∃ page body,
     client_listing base (<["page" := page]> args) now db = Ok body
     ∧ c ∈ listed_clients body)
  ↔ c ∈ q_rows (client_activity_filter (activity_arg args) now db
                  {| q_rows := base; q_joined := [] |}).
Proof.
  intros Hpp Hpos Hno. split.
  - intros (page & body & Hbody & Hc).
    apply client_listing_Ok in Hbody as (p & pp & rows & _ & _ & Hq & Hw & _).
    apply window_sublist in Hw. apply (elem_of_sublist _ _ _ Hc) in Hw.
    apply execute_inv in Hq as ->. rewrite client_query_page in Hw.
    by apply elem_of_client_sort in Hw.
  - intros Hc.
    pose proof (client_query_runs base args now db Hno) as Hq.
    apply (elem_of_client_sort (sort_arg args) db) in Hc.
    fold (client_query base args now db) in Hc.
    destruct (window_covers (Sql.negative_window (dialect db)) per_page _ c
                Hpos Hc) as (p & w & Hp & Hw & Hcw).
    destruct (int_of_str_surj p) as [s Hs]; [lia|].
    destruct (client_listing_run base (<["page" := s]> args) now db p per_page
                (q_rows (client_query base args now db)) w)
      as (body & Hbody & Hl).
    + by rewrite int_arg_insert.
    + by rewrite int_arg_insert_ne.
    + by rewrite client_query_page.
    + done.
    + exists s, body. split; [done|]. by rewrite Hl.
Qed.

(** X6. With [activity_filter=new] the pages of the user's client list hold
    exactly the visible clients created [now] - 7 days or later, whatever
    Interactions they have. *)
Theorem new_filter_semantics (user : User) (args : gmap string string)
    (now : Z) (db : DB) (per_page : Z) (c : Client) :
  Py.int_arg args "per_page" 20 = inr per_page → 0 < per_page →
  args !! "activity_filter" = Some "new" →
  on_some_page user args now db c ↔
    c ∈ clients db ∧ client_listed user c
    ∧ now - Py.days 7 ≤ c_created_at c.
Proof.
  intros Hpp Hpos Hf.
  rewrite (on_some_page_rows user args now db per_page c Hpp Hpos).
  - rewrite (activity_arg_Some _ _ Hf), client_activity_filter_new.
    cbn [q_rows]. rewrite list_elem_of_filter. tauto.
  - rewrite (activity_arg_Some _ _ Hf). by intros [[=] _].
Qed.

(** Delta was created 2 days ago, Alpha 100 days ago. *)
Lemma new_filter_semantics_witness :
  on_some_page user1 {[ "activity_filter" := "new" ]} demo_now demo_db client_d
  ∧ ¬ on_some_page user1 {[ "activity_filter" := "new" ]} demo_now demo_db
        client_a.
Proof.
  assert (Py.int_arg {[ "activity_filter" := "new" ]} "per_page" 20 = inr 20)
    as Hpp by done.
  assert (0 < 20) as Hpos by done.
  pose proof (new_filter_semantics user1 {[ "activity_filter" := "new" ]}
                demo_now demo_db 20 client_d Hpp Hpos eq_refl) as Hd.
  pose proof (new_filter_semantics user1 {[ "activity_filter" := "new" ]}
                demo_now demo_db 20 client_a Hpp Hpos eq_refl) as Ha.
  split.
  - apply Hd. split_and!; [|done|by vm_compute].
    do 3 apply list_elem_of_further. apply list_elem_of_here.
  - intros Hp. apply Ha in Hp as (_ & _ & Hp). by vm_compute in Hp.
Defined.

Lemma has_email_spec db user_id email :
  has_email db user_id email ↔
    ∃ u, u ∈ users db ∧ Some (u_id u) = user_id ∧ u_email u = email.
Proof.
  unfold has_email. rewrite bool_decide_spec, list.Exists_exists. done.
Qed.

Lemma list_all_clients_page user page args now db :
  list_all_clients user (<["page" := page]> args) now db
  = client_listing
      (let base :=
         filter (λ c, bool_decide (c_tenant_id c = u_tenant_id user)
                      && bool_decide (c_deleted_at c = None))
                (clients db) in
       match args !! "user_email" with
       | Some user_email =>
           if negb (String.eqb user_email "") then
             filter (λ c, has_email db (c_assigned_to c) user_email
                          || has_email db (Some (c_created_by c)) user_email)
                    base
           else base
       | None => base
       end)
      (<["page" := page]> args) now db.
Proof. unfold list_all_clients. by rewrite lookup_insert_ne. Qed.

(** X7. Without an activity filter the pages of the admin's list hold
    exactly the live clients of the admin's tenant; with [user_email],
    exactly those whose assignee or creator is a user with that e-mail
    address. Whatever is on a page of a tenant member's own list is on a
    page of the admin's list. *)
Theorem admin_list_contents (user : User) (args : gmap string string)
    (now : Z) (db : DB) (per_page : Z) (c : Client) :
  Py.int_arg args "per_page" 20 = inr per_page → 0 < per_page →
  args !! "activity_filter" = None →
  (args !! "user_email" = None →
     (on_some_admin_page user args now db c ↔
        c ∈ clients db ∧ c_tenant_id c = u_tenant_id user
        ∧ c_deleted_at c = None)
     ∧ (∀ member, u_tenant_id member = u_tenant_id user →
          on_some_page member args now db c →
          on_some_admin_page user args now db c))
  ∧ (∀ email, args !! "user_email" = Some email → email ≠ "" →
       on_some_admin_page user args now db c ↔
         c ∈ clients db ∧ c_tenant_id c = u_tenant_id user
         ∧ c_deleted_at c = None
         ∧ ∃ u, u ∈ users db ∧ u_email u = email
                ∧ (c_assigned_to c = Some (u_id u) ∨ c_created_by c = u_id u)).
Proof.
  intros Hpp Hpos Hf.
  assert (activity_arg args = "all") as Hall
    by (unfold activity_arg; by rewrite Hf).
  assert (¬ (activity_arg args = "active" ∧ sort_arg args = "activity")) as Hno
    by (rewrite Hall; by intros [[=] _]).
  assert (∀ base,
    (∃ page body,
       client_listing base (<["page" := page]> args) now db = Ok body
       ∧ c ∈ listed_clients body) ↔ c ∈ base) as Hpages.
  { intros base. rewrite (listing_pages base args now db per_page c Hpp Hpos Hno).
    rewrite Hall, client_activity_filter_other by (by apply (bool_decide_unpack _)).
    done. }
  split.
  - intros He.
    assert (on_some_admin_page user args now db c ↔
        c ∈ clients db ∧ c_tenant_id c = u_tenant_id user
        ∧ c_deleted_at c = None) as Hiff.
    { unfold on_some_admin_page. setoid_rewrite list_all_clients_page.
      rewrite He. cbv zeta. rewrite Hpages.
      rewrite list_elem_of_filter, andb_True, !bool_decide_spec. tauto. }
    split; [done|]. intros member Ht Hpage. apply Hiff.
    apply on_some_page_sound in Hpage. revert Hpage.
    rewrite Hall, client_activity_filter_other by (by apply (bool_decide_unpack _)).
    cbn [q_rows]. rewrite list_elem_of_filter, client_listed_spec.
    rewrite Ht. tauto.
  - intros email He Hne.
    unfold on_some_admin_page. setoid_rewrite list_all_clients_page.
    rewrite He. cbv zeta.
    assert (negb (String.eqb email "") = true) as ->.
    { apply negb_true_iff, String.eqb_neq. done. }
    rewrite Hpages. rewrite !list_elem_of_filter, andb_True, !bool_decide_spec.
    rewrite orb_True, !has_email_spec. split.
    + intros ([(u & Hu & Hid & Hmail)|(u & Hu & Hid & Hmail)] & (Ht & Hd) & Hc);
        (split_and!; [done..|]); exists u; split_and!; try done.
      * by left.
      * right. congruence.
    + intros (Hc & Ht & Hd & u & Hu & Hmail & [Ha|Hcr]); split_and!; try done.
      * left. by exists u.
      * right. exists u. by rewrite Hcr.
Qed.

(** The admin of the demo store asks for the clients of user2: Bravo, which
    is assigned to user2; filtering by user1 finds the clients user1
    created, Bravo among them. *)
Lemma admin_list_contents_witness :
  on_some_admin_page admin {[ "user_email" := "user2@demo.com" ]} demo_now
    demo_db client_b
  ∧ ¬ on_some_admin_page admin {[ "user_email" := "user2@demo.com" ]} demo_now
        demo_db client_a
  ∧ on_some_admin_page admin {[ "user_email" := "user1@demo.com" ]} demo_now
      demo_db client_b
  ∧ ¬ on_some_admin_page admin ∅ demo_now demo_db client_c.
Proof.
  assert (∀ e : string,
            Py.int_arg {[ "user_email" := e ]} "per_page" 20 = inr 20)
    as Hpp by done.
  assert (0 < 20) as Hpos by done.
  assert (client_b ∈ clients demo_db) as Hb
    by apply list_elem_of_further, list_elem_of_here.
  destruct (admin_list_contents admin {[ "user_email" := "user2@demo.com" ]}
              demo_now demo_db 20 client_b (Hpp _) Hpos eq_refl) as [_ Hb2].
  destruct (admin_list_contents admin {[ "user_email" := "user2@demo.com" ]}
              demo_now demo_db 20 client_a (Hpp _) Hpos eq_refl) as [_ Ha2].
  destruct (admin_list_contents admin {[ "user_email" := "user1@demo.com" ]}
              demo_now demo_db 20 client_b (Hpp _) Hpos eq_refl) as [_ Hb1].
  assert (Py.int_arg ∅ "per_page" 20 = inr 20) as Hpp0 by done.
  destruct (admin_list_contents admin ∅ demo_now demo_db 20 client_c
              Hpp0 Hpos eq_refl) as [Hc _].
  split_and!.
  - apply (Hb2 "user2@demo.com"); [done..|]. split_and!; [done..|].
    exists user2. split_and!; [|done|by left].
    do 2 apply list_elem_of_further. apply list_elem_of_here.
  - intros Hp. apply (Ha2 "user2@demo.com") in Hp as (_ & _ & _ & u & Hu & Hmail & Hown);
      [|done..].
    revert Hmail Hown.
    repeat (apply elem_of_cons in Hu as [->|Hu]; [by intros ? [?|?]|]).
    by apply not_elem_of_nil in Hu.
  - apply (Hb1 "user1@demo.com"); [done..|]. split_and!; [done..|].
    exists user1. split_and!; [|done|by right].
    apply list_elem_of_further, list_elem_of_here.
  - intros Hp. destruct Hc as [Hc _]; [done|]. apply Hc in Hp. by destruct Hp as (_ & _ & ?).
Defined.

(** ** Fetching and the activity log *)


(** ** Updating a lead *)

Section pointwise.
Context {A : Type} (R : A → A → Prop).

Lemma Forall2_diag l : (∀ x, R x x) → Forall2 R l l.
Proof. intros Hr. induction l; constructor; auto. Qed.

(** Writing one row back relates the table to itself row by row. *)
Lemma Forall2_insert_row l i x y :
  (∀ z, R z z) → l !! i = Some x → R x y → Forall2 R l (<[i := y]> l).
Proof.
  intros Hr Hi Hxy. rewrite <- (list_insert_id l i x Hi) at 1.
  apply Forall2_insert; [by apply Forall2_diag|done].
Qed.

End pointwise.

(** Two tables that agree row by row on the id and on a filter show the same
    ids through the filter. *)
Lemma filter_ids_pointwise {A} (key : A → Z) (P : A → bool) l l' :
  Forall2 (λ x x', key x' = key x ∧ P x' = P x) l l' →
  key <$> filter (λ x, P x) l' = key <$> filter (λ x, P x) l.
Proof.
  induction 1 as [|x x' l l' [Hk HP] _ IH]; [done|].
  rewrite !filter_cons, HP. destruct (decide (P x)); [|done].
  rewrite !fmap_cons. by rewrite Hk, IH.
Qed.

(** The row an update writes back. *)
Lemma update_lead_row user lead_id data now db i lead :
  list_find (lead_editable user lead_id) (leads db) = Some (i, lead) →
  ∃ lead',
    update_lead user lead_id data now db = (Ok (l_id lead), put_lead i lead' db)
    ∧ lead_editable user lead_id lead'
    ∧ l_id lead' = l_id lead ∧ l_tenant_id lead' = l_tenant_id lead
    ∧ l_created_by lead' = l_created_by lead
    ∧ l_assigned_to lead' = l_assigned_to lead
    ∧ l_created_at lead' = l_created_at lead
    ∧ l_deleted_at lead' = l_deleted_at lead
    ∧ l_updated_by lead' = Some (u_id user) ∧ l_updated_at lead' = Some now
    ∧ (l_lead_status lead', l_converted_on lead')
      = lead_status_update data now lead
    ∧ l_columns lead'
      = copy_fields Py.or_none lead_text_fields data (l_columns lead).
Proof.
  intros Hf. unfold update_lead. rewrite Hf.
  apply list_find_Some in Hf as (_ & Hed & _).
  eexists. split; [reflexivity|].
  unfold lead_editable in *.
  cbn [l_id l_tenant_id l_created_by l_assigned_to l_deleted_at l_created_at
       l_updated_by l_updated_at l_lead_status l_converted_on l_columns].
  split; [exact Hed|]. split_and!; try reflexivity.
  by destruct (lead_status_update data now lead).
Qed.

(** Columns outside the list are out of reach of the body. *)
Lemma copy_fields_other f fields data columns key :
  key ∉ fields → copy_fields f fields data columns !! key = columns !! key.
Proof.
  unfold copy_fields. revert columns.
  induction fields as [|field fields IH]; intros columns Hkey; [done|].
  apply not_elem_of_cons in Hkey as [Hne Hkey]. cbn [foldl].
  rewrite IH by done. destruct (data !! field); [|done].
  by rewrite lookup_insert_ne.
Qed.

(** X9. Whatever the body holds, [update_lead] leaves the other tables
    alone and changes no row's id, tenant, creator, assignee, creation date
    or deletion mark, and no row but the one it is allowed to edit; so every
    user's lead list shows the same leads after the update as before. Of
    the columns only the thirteen text fields can change. *)
Theorem update_lead_keeps_visibility (user : User) (lead_id : Z)
    (data : gmap string Py.value) (now : Z) (db : DB) :
  let db' := (update_lead user lead_id data now db).2 in
  users db' = users db ∧ clients db' = clients db
  ∧ interactions db' = interactions db ∧ projects db' = projects db
  ∧ activity_log db' = activity_log db
  ∧ Forall2 (λ l l',
       l_id l' = l_id l ∧ l_tenant_id l' = l_tenant_id l
       ∧ l_created_by l' = l_created_by l ∧ l_assigned_to l' = l_assigned_to l
       ∧ l_created_at l' = l_created_at l ∧ l_deleted_at l' = l_deleted_at l
       ∧ (¬ lead_editable user lead_id l → l' = l)
       ∧ (∀ key, key ∉ lead_text_fields →
                 l_columns l' !! key = l_columns l !! key))
      (leads db) (leads db')
  ∧ ∀ viewer,
      l_id <$> filter (λ l, lead_listed viewer l) (leads db')
      = l_id <$> filter (λ l, lead_listed viewer l) (leads db).
Proof.
  intros db'.
  assert (Forall2 (λ l l',
       l_id l' = l_id l ∧ l_tenant_id l' = l_tenant_id l
       ∧ l_created_by l' = l_created_by l ∧ l_assigned_to l' = l_assigned_to l
       ∧ l_created_at l' = l_created_at l ∧ l_deleted_at l' = l_deleted_at l
       ∧ (¬ lead_editable user lead_id l → l' = l)
       ∧ (∀ key, key ∉ lead_text_fields →
                 l_columns l' !! key = l_columns l !! key))
      (leads db) (leads db')
    ∧ users db' = users db ∧ clients db' = clients db
    ∧ interactions db' = interactions db ∧ projects db' = projects db
    ∧ activity_log db' = activity_log db) as (Hrows & Hu & Hc & Hi & Hp & Ha).
  { subst db'.
    destruct (list_find (lead_editable user lead_id) (leads db))
      as [[i lead]|] eqn:Hf.
    - destruct (update_lead_row user lead_id data now db i lead Hf)
        as (lead' & -> & Hed & Hid & Ht & Hcb & Hat & Hca & Hd & _ & _ & _ & Hcol).
      split_and!; try done. cbn [snd put_lead leads].
      apply list_find_Some in Hf as (Hi & Hed0 & _).
      apply (Forall2_insert_row _ _ i lead lead'); [by intros z|done|].
      split_and!; try done. intros key Hkey. rewrite Hcol.
      by apply copy_fields_other.
    - unfold update_lead. rewrite Hf. cbn [snd]. split_and!; try done.
      by apply Forall2_diag. }
  split_and!; try done. intros viewer.
  apply (filter_ids_pointwise l_id (lead_listed viewer)).
  clear -Hrows.
  induction Hrows as [|l l' ls ls' (Hid & Ht & Hcb & Hat & _ & Hd & _) _ IH];
    constructor; [|done].
  split; [done|]. unfold lead_listed. by rewrite Ht, Hcb, Hat, Hd.
Qed.

(** ** Editing needs ownership *)

(** X10. Updating a lead and soft-deleting a client or a lead are open to
    the creator and the assignee only. Any other caller — an admin too, who
    may fetch the row — is answered 404 and nothing is written. *)
Theorem edits_need_ownership (user : User) (data : gmap string Py.value)
    (now : Z) (db : DB) (c : Client) (l : Lead) :
  primary_keys db →
  (c ∈ clients db →
   c_created_by c ≠ u_id user → c_assigned_to c ≠ Some (u_id user) →
   delete_client user (c_id c) now db = (Error 404 "Client not found", db))
  ∧ (l ∈ leads db →
     l_created_by l ≠ u_id user → l_assigned_to l ≠ Some (u_id user) →
     update_lead user (l_id l) data now db = (Error 404 "Lead not found", db)
     ∧ delete_lead user (l_id l) now db = (Error 404 "Lead not found", db)).
Proof.
  intros (Hpc & Hpl & _). split.
  - intros Hc Hcb Hat. unfold delete_client.
    destruct (list_find _ (clients db)) as [[i x]|] eqn:Hf; [|done].
    apply list_find_Some in Hf as (Hi & (Hid & _ & _ & Hown) & _).
    assert (x = c) as ->.
    { apply (primary_key c_id (clients db)); [done| |done..].
      by eapply list_elem_of_lookup_2. }
    tauto.
  - intros Hl Hcb Hat.
    assert (list_find (lead_editable user (l_id l)) (leads db) = None) as Hf.
    { destruct (list_find _ (leads db)) as [[i x]|] eqn:Hf; [|done].
      apply list_find_Some in Hf as (Hi & (Hid & _ & Hown & _) & _).
      assert (x = l) as ->.
      { apply (primary_key l_id (leads db)); [done| |done..].
        by eapply list_elem_of_lookup_2. }
      tauto. }
    unfold update_lead, delete_lead. by rewrite Hf.
Qed.

(** The admin of the demo store fetches client 1 and lead 1, which user1
    created, but can neither delete nor update them. *)
Lemma edits_need_ownership_witness :
  is_admin admin = true
  ∧ (get_client admin 1 demo_db).1 = Ok client_a
  ∧ delete_client admin 1 demo_now demo_db
    = (Error 404 "Client not found", demo_db)
  ∧ update_lead admin 1 {[ "notes" := Py.VStr "mine" ]} demo_now demo_db
    = (Error 404 "Lead not found", demo_db)
  ∧ delete_lead admin 1 demo_now demo_db
    = (Error 404 "Lead not found", demo_db).
Proof.
  assert (primary_keys demo_db) as Hpk by by apply (bool_decide_unpack _).
  destruct (edits_need_ownership admin {[ "notes" := Py.VStr "mine" ]}
              demo_now demo_db client_a lead_a Hpk) as [Hc Hl].
  destruct Hl as [Hupd Hdel]; [apply list_elem_of_here|done..|].
  split_and!; [done|by vm_compute| |done|done].
  apply Hc; [apply list_elem_of_here|done..].
Defined.

(** ** Writing one row back *)

Section one_row.
Context {A : Type}.
Implicit Types l : list A.

Lemma elem_of_insert_other l i x y z :
  l !! i = Some x → z ∈ l → z ≠ x → z ∈ <[i := y]> l.
Proof.
  intros Hi (j & Hj)%list_elem_of_lookup Hne.
  apply list_elem_of_lookup. exists j.
  rewrite list_lookup_insert_ne; [done|]. intros ->. congruence.
Qed.

Lemma elem_of_insert_inv l i y z : z ∈ <[i := y]> l → z = y ∨ z ∈ l.
Proof.
  intros (j & Hj)%list_elem_of_lookup.
  apply list_lookup_insert_Some in Hj as [(_ & -> & _)|(_ & Hj)]; [by left|].
  right. by eapply list_elem_of_lookup_2.
Qed.

Lemma elem_of_insert_same l i x y : l !! i = Some x → y ∈ <[i := y]> l.
Proof.
  intros Hi. apply list_elem_of_lookup. exists i.
  apply list_lookup_insert_eq. by eapply lookup_lt_Some.
Qed.

Lemma elem_of_delete_other l i x z :
  l !! i = Some x → z ∈ l → z ≠ x → z ∈ delete i l.
Proof.
  intros Hi (j & Hj)%list_elem_of_lookup Hne.
  assert (j ≠ i) by (intros ->; congruence).
  apply list_elem_of_lookup. destruct (decide (j < i)%nat).
  - exists j. by rewrite list_lookup_delete_lt.
  - exists (pred j). rewrite list_lookup_delete_ge by lia.
    by replace (S (pred j)) with j by lia.
Qed.

Lemma elem_of_delete_inv l i z : z ∈ delete i l → z ∈ l.
Proof.
  intros (j & Hj)%list_elem_of_lookup. destruct (decide (j < i)%nat).
  - rewrite list_lookup_delete_lt in Hj by done.
    by eapply list_elem_of_lookup_2.
  - rewrite list_lookup_delete_ge in Hj by lia.
    by eapply list_elem_of_lookup_2.
Qed.

Context (key : A → Z).

(** A row written back under its old id keeps the primary key. *)
Lemma NoDup_insert_key l i x y :
  l !! i = Some x → key y = key x →
  NoDup (key <$> l) → NoDup (key <$> <[i := y]> l).
Proof.
  intros Hi Hk Hnd. rewrite list_fmap_insert, Hk.
  rewrite list_insert_id; [done|]. by rewrite list_lookup_fmap, Hi.
Qed.

(** ... and is then the only row with that id. *)
Lemma insert_key_unique l i x y z :
  NoDup (key <$> l) → l !! i = Some x → key y = key x →
  z ∈ <[i := y]> l → key z = key x → z = y.
Proof.
  intros Hnd Hi Hk Hz Hkz.
  apply (primary_key key (<[i := y]> l));
    [by eapply NoDup_insert_key|done|by eapply elem_of_insert_same|congruence].
Qed.

(** No row of a table has the id of a row that was deleted from it. *)
Lemma delete_key_gone l i x z :
  NoDup (key <$> l) → l !! i = Some x → z ∈ delete i l → key z ≠ key x.
Proof.
  intros Hnd Hi (j & Hj)%list_elem_of_lookup Hk.
  assert (∀ j', l !! j' = Some z → j' = i) as Hsame.
  { intros j' Hj'. apply (NoDup_lookup (key <$> l) j' i (key z)); [done|..].
    - by rewrite list_lookup_fmap, Hj'.
    - by rewrite list_lookup_fmap, Hi, Hk. }
  destruct (decide (j < i)%nat).
  - rewrite list_lookup_delete_lt in Hj by done. apply Hsame in Hj. lia.
  - rewrite list_lookup_delete_ge in Hj by lia. apply Hsame in Hj. lia.
Qed.

Lemma NoDup_delete_key l i :
  NoDup (key <$> l) → NoDup (key <$> delete i l).
Proof.
  intros Hnd. rewrite list_fmap_delete.
  eapply sublist_NoDup; [done|apply sublist_delete].
Qed.

End one_row.

(** ** The fields an update of a lead writes *)

(** What the loop over the fields leaves in one column. *)
Lemma copy_fields_lookup f fields data columns key :
  copy_fields f fields data columns !! key
  = if decide (key ∈ fields) then
      match data !! key with
      | Some v => Some (f v)
      | None => columns !! key
      end
    else columns !! key.
Proof.
  unfold copy_fields. revert columns.
  induction fields as [|field fields IH]; intros columns; [done|].
  cbn [foldl]. rewrite IH. destruct (decide (key = field)) as [->|Hne].
  - rewrite (decide_True (P := field ∈ field :: fields)) by set_solver.
    destruct (data !! field) as [v|] eqn:Hd; [|by destruct (decide _)].
    rewrite lookup_insert_eq. by destruct (decide _).
  - assert (match data !! field with
            | Some v => <[field := f v]> columns
            | None => columns
            end !! key = columns !! key) as ->.
    { destruct (data !! field); [by rewrite lookup_insert_ne|done]. }
    destruct (decide (key ∈ fields)).
    + by rewrite decide_True by set_solver.
    + by rewrite decide_False by set_solver.
Qed.

(** X11. An update by the creator or the assignee is written to the row of
    the lead, under the caller's name and the time of the update, and to no
    other row. Each of the thirteen text
    fields the body holds is stored as [value or None], so an empty string
    (or 0, or false) clears the column; a field the body does not hold is
    kept. A [lead_status] outside the four known ones, or one that is no
    string, changes neither the status nor [converted_on]. *)
Theorem update_lead_fields (user : User) (data : gmap string Py.value)
    (now : Z) (db : DB) (lead : Lead) :
  primary_keys db →
  lead ∈ leads db → lead_editable user (l_id lead) lead →
  ∃ i lead' db',
    leads db !! i = Some lead
    ∧ update_lead user (l_id lead) data now db = (Ok (l_id lead), db')
    ∧ leads db' = <[i := lead']> (leads db)
    ∧ leads db' !! i = Some lead'
    ∧ l_id lead' = l_id lead
    ∧ l_updated_by lead' = Some (u_id user) ∧ l_updated_at lead' = Some now
    ∧ (∀ field, field ∈ lead_text_fields →
         l_columns lead' !! field
         = match data !! field with
           | Some v => Some (if Py.truthy v then v else Py.VNone)
           | None => l_columns lead !! field
           end)
    ∧ ((∀ s, data !! "lead_status" = Some (Py.VStr s) →
             s ∉ ["open"; "converted"; "closed"; "lost"]) →
       l_lead_status lead' = l_lead_status lead
       ∧ l_converted_on lead' = l_converted_on lead).
Proof.
  intros (_ & Hpk & _) Hin Hed.
  destruct (list_find_unique (lead_editable user (l_id lead)) l_id
              (leads db) lead Hpk Hin Hed) as [i Hf].
  { by intros y (? & _). }
  destruct (update_lead_row user (l_id lead) data now db i lead Hf)
    as (lead' & Hupd & _ & Hid & _ & _ & _ & _ & _ & Hby & Hat & Hst & Hcol).
  pose proof Hf as (Hi & _)%list_find_Some.
  destruct (put_lead_lookup i lead lead' db Hi) as [Hl Hi'].
  exists i, lead', (put_lead i lead' db). split_and!; [done..| |].
  - intros field Hfield. rewrite Hcol, copy_fields_lookup.
    by rewrite decide_True by done.
  - intros Hunknown. unfold lead_status_update in Hst.
    destruct (data !! "lead_status") as [[| | |s]|] eqn:Hd;
      try (by injection Hst as -> ->).
    rewrite bool_decide_eq_false_2 in Hst by by apply Hunknown.
    by injection Hst as -> ->.
Qed.

(** user1 clears the notes of lead 1 of the demo store and sends a status
    the handler does not know. *)
Lemma update_lead_fields_witness :
  ∃ lead' db',
    update_lead user1 1
      {[ "notes" := Py.VStr ""; "lead_status" := Py.VStr "won" ]}
      demo_now demo_db = (Ok 1, db')
    ∧ leads db' = [lead'; lead_b; lead_c]
    ∧ l_columns lead' !! "notes" = Some Py.VNone
    ∧ l_columns lead' !! "name" = Some (Py.VStr "Lima")
    ∧ l_lead_status lead' = Some "open".
Proof.
  assert (primary_keys demo_db) as Hpk by by apply (bool_decide_unpack _).
  assert (lead_editable user1 (l_id lead_a) lead_a) as Hed
    by by apply (bool_decide_unpack _).
  destruct (update_lead_fields user1
              {[ "notes" := Py.VStr ""; "lead_status" := Py.VStr "won" ]}
              demo_now demo_db lead_a Hpk)
    as (i & lead' & db' & Hi & Hupd & Hl & _ & _ & _ & _ & Hcol & Hst);
    [set_solver|done|].
  assert (i = 0%nat) as ->.
  { destruct i as [|[|[|i]]]; [done|by vm_compute in Hi..]. }
  exists lead', db'. split_and!; [done|done|..].
  - rewrite (Hcol "notes"); [by vm_compute|].
    apply (bool_decide_unpack _). by vm_compute.
  - rewrite (Hcol "name"); [by vm_compute|].
    apply (bool_decide_unpack _). by vm_compute.
  - destruct Hst as [-> _]; [|done].
    intros s Hs. assert (s = "won") as -> by by vm_compute in Hs; injection Hs.
    set_solver.
Defined.

(** X12. [converted_on] is stamped on entering "converted" and is never
    cleared: the row of a lead that is moved to "open", "closed" or "lost"
    keeps the stamp it has, and converting the lead again afterwards
    replaces that stamp in the row by the time of the second conversion. *)
Theorem reconversion_restamps (user : User)
    (data1 data2 : gmap string Py.value) (status : string) (now1 now2 : Z)
    (db : DB) (lead : Lead) :
  primary_keys db →
  lead ∈ leads db → lead_editable user (l_id lead) lead →
  data1 !! "lead_status" = Some (Py.VStr status) →
  status ∈ ["open"; "closed"; "lost"] →
  data2 !! "lead_status" = Some (Py.VStr "converted") →
  ∃ i lead1 lead2 db1 db2,
    leads db !! i = Some lead
    ∧ update_lead user (l_id lead) data1 now1 db = (Ok (l_id lead), db1)
    ∧ leads db1 = <[i := lead1]> (leads db)
    ∧ leads db1 !! i = Some lead1
    ∧ update_lead user (l_id lead) data2 now2 db1 = (Ok (l_id lead), db2)
    ∧ leads db2 = <[i := lead2]> (leads db1)
    ∧ leads db2 !! i = Some lead2
    ∧ l_id lead1 = l_id lead ∧ l_id lead2 = l_id lead
    ∧ l_lead_status lead1 = Some status
    ∧ l_converted_on lead1 = l_converted_on lead
    ∧ l_lead_status lead2 = Some "converted"
    ∧ l_converted_on lead2 = Some now2.
Proof.
  intros (_ & Hpk & _) Hin Hed Hd1 Hstatus Hd2.
  destruct (list_find_unique (lead_editable user (l_id lead)) l_id
              (leads db) lead Hpk Hin Hed) as [i Hf].
  { by intros y (? & _). }
  destruct (update_lead_row user (l_id lead) data1 now1 db i lead Hf)
    as (lead1 & Hu1 & Hed1 & Hid1 & _ & _ & _ & _ & _ & _ & _ & Hst1 & _).
  assert (l_lead_status lead1 = Some status
          ∧ l_converted_on lead1 = l_converted_on lead) as [Hs1 Hc1].
  { unfold lead_status_update in Hst1. rewrite Hd1 in Hst1.
    rewrite bool_decide_eq_true_2 in Hst1 by set_solver.
    rewrite (bool_decide_eq_false_2 (status = "converted")) in Hst1
      by set_solver.
    by injection Hst1 as -> ->. }
  assert (list_find (lead_editable user (l_id lead))
            (leads (put_lead i lead1 db)) = Some (i, lead1)) as Hf1.
  { simpl. by eapply list_find_insert_same. }
  destruct (update_lead_converted user (l_id lead) data2 now2
              (put_lead i lead1 db) i lead1 Hf1 Hd2)
    as (lead2 & Hu2 & _ & Hid2 & Hs2 & Hc2).
  pose proof Hf as (Hi & _)%list_find_Some.
  destruct (put_lead_lookup i lead lead1 db Hi) as [Hl1 Hi1].
  destruct (put_lead_lookup i lead1 lead2 (put_lead i lead1 db) Hi1)
    as [Hl2 Hi2].
  exists i, lead1, lead2, (put_lead i lead1 db),
    (put_lead i lead2 (put_lead i lead1 db)).
  split_and!; try done.
  - by rewrite Hu2, Hid1.
  - congruence.
  - rewrite Hc2, decide_False; [done|]. rewrite Hs1. set_solver.
Qed.

(** user2, the assignee of the converted lead 2 of the demo store, reopens
    it and converts it again a day later: the stamp of day 940 survives the
    reopening and is then replaced. *)
Lemma reconversion_restamps_witness :
  ∃ lead1 lead2 db1 db2,
    update_lead user2 2 {[ "lead_status" := Py.VStr "open" ]}
      demo_now demo_db = (Ok 2, db1)
    ∧ update_lead user2 2 {[ "lead_status" := Py.VStr "converted" ]}
        (demo_now + Py.days 1) db1 = (Ok 2, db2)
    ∧ leads db1 = [lead_a; lead1; lead_c]
    ∧ leads db2 = [lead_a; lead2; lead_c]
    ∧ l_converted_on lead_b = Some (Py.days 940)
    ∧ l_lead_status lead1 = Some "open"
    ∧ l_converted_on lead1 = Some (Py.days 940)
    ∧ l_converted_on lead2 = Some (demo_now + Py.days 1).
Proof.
  assert (primary_keys demo_db) as Hpk by by apply (bool_decide_unpack _).
  assert (lead_editable user2 (l_id lead_b) lead_b) as Hed
    by by apply (bool_decide_unpack _).
  destruct (reconversion_restamps user2
              {[ "lead_status" := Py.VStr "open" ]}
              {[ "lead_status" := Py.VStr "converted" ]} "open"
              demo_now (demo_now + Py.days 1) demo_db lead_b Hpk)
    as (i & lead1 & lead2 & db1 & db2 & Hi & Hu1 & Hl1 & _ & Hu2 & Hl2 & _
        & _ & _ & Hs1 & Hc1 & _ & Hc2);
    [set_solver|done|done|set_solver|done|].
  assert (i = 1%nat) as ->.
  { destruct i as [|[|[|i]]]; [by vm_compute in Hi|done|by vm_compute in Hi..]. }
  exists lead1, lead2, db1, db2.
  split_and!; [done|done|done|by rewrite Hl2, Hl1|done|done|by rewrite Hc1|done].
Defined.

(** ** Updating and deleting a project *)

Section project_writes.
Context (fromisoformat : string → option Z) (options : list string).

(** The only way a date of the body makes the handler fail. *)
Lemma parse_date_raises value e :
  parse_date_with_default_time fromisoformat value = inl e →
  e = Py.TypeError ∧ Py.truthy value ∧ ∀ s, value ≠ Py.VStr s.
Proof.
  unfold parse_date_with_default_time.
  destruct (Py.truthy value) eqn:Ht; simpl; [|done].
  destruct value as [| | |s]; try (by intros [= <-]).
  destruct (fromisoformat s); [done|]. by destruct (fromisoformat _).
Qed.

Lemma date_update_raises data key current e :
  date_update fromisoformat data key current = inl e →
  e = Py.TypeError
  ∧ ∃ v, data !! key = Some v ∧ Py.truthy v ∧ ∀ s, v ≠ Py.VStr s.
Proof.
  unfold date_update. destruct (data !! key) as [v|]; [|done].
  intros (-> & Ht & Hs)%parse_date_raises. eauto.
Qed.

(** The three ways [update_project] ends. *)
Lemma update_project_cases user project_id data db :
  (list_find (project_in_tenant user project_id) (projects db) = None
   ∧ update_project fromisoformat options user project_id data db
     = (Error 404 "Project not found", db))
  ∨ (∃ i p e,
       list_find (project_in_tenant user project_id) (projects db)
       = Some (i, p)
       ∧ update_project fromisoformat options user project_id data db
         = (Raise e, db)
       ∧ (date_update fromisoformat data "project_start" (p_project_start p)
          = inl e
          ∨ date_update fromisoformat data "project_end" (p_project_end p)
            = inl e))
  ∨ (∃ i p p',
       list_find (project_in_tenant user project_id) (projects db)
       = Some (i, p)
       ∧ update_project fromisoformat options user project_id data db
         = (Ok (p_id p), with_projects (<[i := p']> (projects db)) db)
       ∧ p_id p' = p_id p ∧ p_tenant_id p' = p_tenant_id p
       ∧ p_created_by p' = p_created_by p ∧ p_created_at p' = p_created_at p
       ∧ (p_project_status p' = p_project_status p
          ∨ (data !! "project_status" = Some (Py.VStr (p_project_status p'))
             ∧ p_project_status p' ∈ options))
       ∧ date_update fromisoformat data "project_start" (p_project_start p)
         = inr (p_project_start p')
       ∧ date_update fromisoformat data "project_end" (p_project_end p)
         = inr (p_project_end p')
       ∧ p_columns p' = copy_fields id project_fields data (p_columns p)).
Proof.
  unfold update_project.
  destruct (list_find (project_in_tenant user project_id) (projects db))
    as [[i p]|] eqn:Hf; [|by left].
  right.
  destruct (date_update fromisoformat data "project_start" (p_project_start p))
    as [e|d1] eqn:H1.
  { left. exists i, p, e. auto. }
  destruct (date_update fromisoformat data "project_end" (p_project_end p))
    as [e|d2] eqn:H2.
  { left. exists i, p, e. auto. }
  right. eexists i, p, _. split; [done|]. split; [reflexivity|].
  cbn [p_id p_tenant_id p_created_by p_created_at p_project_status
       p_project_start p_project_end p_columns].
  split_and!; try done.
  destruct (data !! "project_status") as [[| | |s]|]; try by left.
  case_bool_decide; [by right|by left].
Qed.

(** X13. [update_project] writes all of an update or nothing: unless it
    answers with the id, the store is as it was. It fails only with a
    [TypeError], and only when [project_start] or [project_end] of the body
    is a non-empty value that is no string. In every case the other tables
    are untouched, and in the project table no row changes its id, tenant,
    creator or creation date, no row outside the caller's tenant or with
    another id changes at all, a status changes only to one of
    [PROJECT_STATUS_OPTIONS], and only the seven listed columns can
    change. *)
Theorem update_project_atomic (user : User) (project_id : Z)
    (data : gmap string Py.value) (db : DB) :
  let r := update_project fromisoformat options user project_id data db in
  ((∀ id, r.1 ≠ Ok id) → r.2 = db)
  ∧ (∀ e, r.1 = Raise e →
       e = Py.TypeError
       ∧ ∃ key v, key ∈ ["project_start"; "project_end"]
           ∧ data !! key = Some v ∧ Py.truthy v ∧ ∀ s, v ≠ Py.VStr s)
  ∧ users r.2 = users db ∧ clients r.2 = clients db ∧ leads r.2 = leads db
  ∧ interactions r.2 = interactions db ∧ activity_log r.2 = activity_log db
  ∧ Forall2 (λ p p',
       p_id p' = p_id p ∧ p_tenant_id p' = p_tenant_id p
       ∧ p_created_by p' = p_created_by p ∧ p_created_at p' = p_created_at p
       ∧ (¬ project_in_tenant user project_id p → p' = p)
       ∧ (p_project_status p' = p_project_status p
          ∨ p_project_status p' ∈ options)
       ∧ (∀ key, key ∉ project_fields →
                 p_columns p' !! key = p_columns p !! key))
      (projects db) (projects r.2).
Proof.
  intros r. subst r.
  destruct (update_project_cases user project_id data db)
    as [[_ ->]|[(i & p & e & _ & -> & He)|(i & p & p' & Hf & -> & Hrow)]];
    cbn [fst snd].
  - split_and!; try done. by apply Forall2_diag; intros; split_and!; auto.
  - split_and!; try done.
    + intros e' [= <-].
      destruct He as [He|He]; apply date_update_raises in He
        as (-> & v & Hv & Ht & Hs); (split; [done|]).
      * exists "project_start", v. split_and!; [set_solver|done..].
      * exists "project_end", v. split_and!; [set_solver|done..].
    + by apply Forall2_diag; intros; split_and!; auto.
  - destruct Hrow as (Hid & Ht & Hcb & Hca & Hst & _ & _ & Hcol).
    split_and!; try done.
    + intros Hno. by destruct (Hno (p_id p)).
    + cbn [with_projects projects].
      apply list_find_Some in Hf as (Hi & Hin & _).
      apply (Forall2_insert_row _ _ i p p');
        [by intros; split_and!; auto|done|].
      split_and!; try done.
      * destruct Hst as [?|[_ ?]]; auto.
      * intros key Hkey. rewrite Hcol. by apply copy_fields_other.
Qed.

(** X14. A date of the body that is a string never makes the update fail,
    whatever it spells, and what is read from it is written to the row of
    the project. A date without a time of day is read as midnight; a string
    that is no date even then is stored as NULL, which erases the date the
    project had. A date the body does not hold is kept. *)
Theorem update_project_dates (user : User) (data : gmap string Py.value)
    (db : DB) (p : Project) :
  primary_keys db →
  p ∈ projects db → p_tenant_id p = u_tenant_id user →
  (∀ key v, key ∈ ["project_start"; "project_end"] →
            data !! key = Some v → ∃ s, v = Py.VStr s) →
  ∃ i p' db',
    projects db !! i = Some p
    ∧ update_project fromisoformat options user (p_id p) data db
      = (Ok (p_id p), db')
    ∧ projects db' = <[i := p']> (projects db)
    ∧ projects db' !! i = Some p'
    ∧ p_id p' = p_id p
    ∧ (∀ s, data !! "project_start" = Some (Py.VStr s) →
         p_project_start p'
         = if String.eqb s "" then None
           else match fromisoformat s with
                | Some d => Some d
                | None => fromisoformat (s ++ "T00:00:00")
                end)
    ∧ (∀ s, data !! "project_end" = Some (Py.VStr s) →
         fromisoformat s = None → fromisoformat (s ++ "T00:00:00") = None →
         p_project_end p' = None)
    ∧ (data !! "project_start" = None →
       p_project_start p' = p_project_start p)
    ∧ (data !! "project_end" = None → p_project_end p' = p_project_end p).
Proof.
  intros (_ & _ & Hpk & _) Hin Ht Hdates.
  destruct (list_find_unique (project_in_tenant user (p_id p)) p_id
              (projects db) p Hpk Hin) as [i Hf]; [done|by intros y [? _]|].
  pose proof Hf as (Hi & _)%list_find_Some.
  destruct (update_project_cases user (p_id p) data db)
    as [[Hnone _]|[(i' & q & e & Hf' & _ & He)|(i' & q & p' & Hf' & Hupd & Hrow)]].
  - congruence.
  - exfalso.
    destruct He as [He|He]; apply date_update_raises in He
      as (_ & v & Hv & _ & Hs); apply Hdates in Hv as [s ->];
      try set_solver; by destruct (Hs s).
  - rewrite Hf in Hf'. injection Hf' as <- <-.
    destruct Hrow as (Hid & _ & _ & _ & _ & H1 & H2 & _).
    exists i, p', (with_projects (<[i := p']> (projects db)) db).
    split_and!; [done|done|done| |done|..].
    + cbn [with_projects projects]. apply list_lookup_insert_eq.
      by eapply lookup_lt_Some.
    + intros s Hs. unfold date_update in H1. rewrite Hs in H1.
      unfold parse_date_with_default_time in H1. cbn [Py.truthy] in H1.
      destruct (String.eqb s ""); cbn [negb] in H1; [by injection H1|].
      destruct (fromisoformat s); [by injection H1|].
      destruct (fromisoformat (s ++ "T00:00:00")); by injection H1.
    + intros s Hs Hn1 Hn2. unfold date_update in H2. rewrite Hs in H2.
      unfold parse_date_with_default_time in H2. rewrite Hn1, Hn2 in H2.
      destruct (negb (Py.truthy (Py.VStr s))); by injection H2.
    + intros Hs. unfold date_update in H1. rewrite Hs in H1.
      by injection H1.
    + intros Hs. unfold date_update in H2. rewrite Hs in H2.
      by injection H2.
Qed.

(** X15. Deleting a project removes the row for good: afterwards no user
    fetches, updates or deletes that id (404, nothing written), every other
    project is still in the table, and the other tables are as before. *)
Theorem deleted_project_is_gone (user : User) (db : DB) (p : Project) :
  primary_keys db →
  p ∈ projects db → p_tenant_id p = u_tenant_id user →
  ∃ db',
    delete_project user (p_id p) db = (Ok "Project deleted", db')
    ∧ primary_keys db'
    ∧ (∀ q, q ∈ projects db' ↔ q ∈ projects db ∧ q ≠ p)
    ∧ users db' = users db ∧ clients db' = clients db ∧ leads db' = leads db
    ∧ interactions db' = interactions db ∧ activity_log db' = activity_log db
    ∧ ∀ viewer,
        get_project viewer (p_id p) db' = (Error 404 "Project not found", db')
        ∧ delete_project viewer (p_id p) db'
          = (Error 404 "Project not found", db')
        ∧ ∀ data,
            update_project fromisoformat options viewer (p_id p) data db'
            = (Error 404 "Project not found", db').
Proof.
  intros (Hpc & Hpl & Hpk & Hpu) Hin Ht.
  destruct (list_find_unique (project_in_tenant user (p_id p)) p_id
              (projects db) p Hpk Hin) as [i Hf]; [done|by intros y [? _]|].
  pose proof Hf as (Hi & _)%list_find_Some.
  exists (with_projects (delete i (projects db)) db).
  assert (∀ viewer,
            list_find (project_in_tenant viewer (p_id p))
              (delete i (projects db)) = None) as Hgone.
  { intros viewer.
    destruct (list_find _ (delete i (projects db))) as [[j q]|] eqn:Hq;
      [|done].
    apply list_find_Some in Hq as (Hj & [Hid _] & _).
    by destruct (delete_key_gone p_id (projects db) i p q Hpk Hi);
      [eapply list_elem_of_lookup_2|]. }
  split_and!; try done.
  - unfold delete_project. by rewrite Hf.
  - split_and!; try done. cbn [with_projects projects].
    by apply NoDup_delete_key.
  - intros q. cbn [with_projects projects]. split.
    + intros Hq. split; [by eapply elem_of_delete_inv|]. intros ->.
      by destruct (delete_key_gone p_id (projects db) i p p Hpk Hi).
    + intros [Hq Hne]. by eapply elem_of_delete_other.
  - intros viewer.
    unfold get_project, delete_project, update_project.
    cbn [with_projects projects]. by rewrite Hgone.
Qed.

End project_writes.

(** user1 sets the start of project 2 of the demo store to a day and its
    end to a word. *)
Lemma update_project_dates_witness :
  ∃ p' db',
    update_project one_date ["pending"; "won"; "lost"] user1 2
      {[ "project_start" := Py.VStr "2024-05-01";
         "project_end" := Py.VStr "soon" ]} demo_db
    = (Ok 2, db')
    ∧ projects db' = [project_a; p']
    ∧ p_project_start p' = Some (Py.days 700)
    ∧ p_project_end p' = None.
Proof.
  assert (primary_keys demo_db) as Hpk by by apply (bool_decide_unpack _).
  destruct (update_project_dates one_date ["pending"; "won"; "lost"] user1
              {[ "project_start" := Py.VStr "2024-05-01";
                 "project_end" := Py.VStr "soon" ]} demo_db project_b Hpk)
    as (i & p' & db' & Hi & Hupd & Hps & _ & _ & Hstart & Hend & _);
    [set_solver|done| |].
  { intros key v Hkey Hv.
    apply elem_of_cons in Hkey as [->|Hkey].
    - vm_compute in Hv. injection Hv as <-. by eexists.
    - apply list_elem_of_singleton in Hkey as ->.
      vm_compute in Hv. injection Hv as <-. by eexists. }
  assert (i = 1%nat) as ->.
  { destruct i as [|[|i]]; [by vm_compute in Hi|done|by vm_compute in Hi]. }
  exists p', db'. split_and!; [done|done|..].
  - by rewrite (Hstart "2024-05-01") by by vm_compute.
  - by rewrite (Hend "soon") by by vm_compute.
Defined.

(** user1 deletes the project user2 created; user2 no longer finds it. *)
Lemma deleted_project_is_gone_witness :
  ∃ db',
    delete_project user1 2 demo_db = (Ok "Project deleted", db')
    ∧ projects db' = [project_a]
    ∧ (get_project user2 2 db').1 = Error 404 "Project not found".
Proof.
  assert (primary_keys demo_db) as Hpk by by apply (bool_decide_unpack _).
  destruct (deleted_project_is_gone (λ _, None) [] user1 demo_db project_b Hpk)
    as (db' & Hdel & _ & _ & _ & _ & _ & _ & _ & Hgone); [set_solver|done|].
  exists db'. split_and!; [done| |].
  - change 2 with (p_id project_b) in Hdel. vm_compute in Hdel.
    by injection Hdel as <-.
  - destruct (Hgone user2) as (Hget & _). change 2 with (p_id project_b).
    by rewrite Hget.
Defined.

(** ** Soft deletion *)

(** X16. A client's creator or assignee soft-deletes it: the row stays in
    the table, marked with the time and the caller, and every other row and
    table is as before. From then on the id is gone for every user, admins
    included: fetching it, deleting it again and listing its projects
    answer 404, and so does assigning it to somebody, while an assignment
    that names no assignee is answered 400 as for any other id; no page of
    either client list shows it. *)
Theorem deleted_client_is_gone
    (send : string → string → Py.value → string → option Py.exn)
    (user : User) (now : Z) (db : DB) (c : Client) :
  primary_keys db →
  c ∈ clients db → client_editable user (c_id c) c →
  ∃ i c' db',
    clients db !! i = Some c
    ∧ delete_client user (c_id c) now db
      = (Ok "Client soft-deleted successfully", db')
    ∧ clients db' = <[i := c']> (clients db)
    ∧ c_deleted_at c' = Some now ∧ c_deleted_by c' = Some (u_id user)
    ∧ c_id c' = c_id c ∧ c_tenant_id c' = c_tenant_id c
    ∧ c_created_by c' = c_created_by c ∧ c_assigned_to c' = c_assigned_to c
    ∧ c_name c' = c_name c ∧ c_columns c' = c_columns c
    ∧ primary_keys db'
    ∧ users db' = users db ∧ leads db' = leads db
    ∧ interactions db' = interactions db ∧ projects db' = projects db
    ∧ activity_log db' = activity_log db
    ∧ ∀ viewer,
        get_client viewer (c_id c) db' = (Error 404 "Client not found", db')
        ∧ (∀ now', delete_client viewer (c_id c) now' db'
                   = (Error 404 "Client not found", db'))
        ∧ (∀ assigned_to now',
             assign_client send viewer (c_id c) assigned_to now' db'
             = (if given assigned_to then Error 404 "Client not found"
                else Error 400 "Missing assigned_to", db'))
        ∧ list_projects_by_client viewer (c_id c) db'
          = Error 404 "Client not found"
        ∧ (∀ args now' body x,
             list_clients viewer args now' db' = Ok body
             ∨ list_all_clients viewer args now' db' = Ok body →
             x ∈ listed_clients body → c_id x ≠ c_id c).
Proof.
  intros (Hpc & Hpl & Hpp & Hpu) Hin Hed.
  destruct (list_find_unique (client_editable user (c_id c)) c_id
              (clients db) c Hpc Hin Hed) as [i Hf].
  { by intros y (? & _). }
  pose proof Hf as (Hi & _)%list_find_Some.
  set (c' := client_soft_delete (u_id user) now c).
  exists i, c', (put_client i c' db).
  assert (∀ x, x ∈ clients (put_client i c' db) → c_id x = c_id c →
               c_deleted_at x ≠ None) as Hrow.
  { intros x Hx Hid.
    by rewrite (insert_key_unique c_id (clients db) i c c' x). }
  split_and!; try done.
  - unfold delete_client. by rewrite Hf.
  - split_and!; try done. cbn [put_client clients].
    by apply (NoDup_insert_key c_id _ i c).
  - intros viewer. split_and!.
    + destruct (get_client_cases viewer (c_id c) (put_client i c' db))
        as [[x Hget]|[Hget _]]; [|done].
      assert ((get_client viewer (c_id c) (put_client i c' db)).1 = Ok x)
        as Hok by by rewrite Hget.
      apply get_client_Ok in Hok as (Hx & Hid & _ & Hlive & _).
      by destruct (Hrow x).
    + intros now'. unfold delete_client.
      destruct (list_find _ (clients (put_client i c' db)))
        as [[j x]|] eqn:Hx; [|done].
      apply list_find_Some in Hx as (Hj & (Hid & _ & Hlive & _) & _).
      by destruct (Hrow x); [eapply list_elem_of_lookup_2|..].
    + intros assigned_to now'. destruct (given assigned_to) eqn:Hgiven.
      * apply assign_client_not_found; [by rewrite Hgiven|].
        intros x Hx Hid _. by apply Hrow.
      * apply assign_client_missing. rewrite Hgiven. by intros [].
    + unfold list_projects_by_client.
      destruct (list_find _ (clients (put_client i c' db)))
        as [[j x]|] eqn:Hx; [|done].
      apply list_find_Some in Hx as (Hj & (Hid & _ & Hlive) & _).
      by destruct (Hrow x); [eapply list_elem_of_lookup_2|..].
    + intros args now' body x Hbody Hx Hid.
      assert (x ∈ clients (put_client i c' db) ∧ c_deleted_at x = None)
        as [Hx' Hlive].
      { destruct Hbody as [Hbody|Hbody].
        - by eapply list_clients_not_deleted.
        - by eapply list_all_clients_not_deleted. }
      by destruct (Hrow x).
Qed.

(** user1 soft-deletes client 1 of the demo store; not even the admin
    fetches it afterwards. *)
Lemma deleted_client_is_gone_witness :
  ∃ c' db',
    delete_client user1 1 demo_now demo_db
    = (Ok "Client soft-deleted successfully", db')
    ∧ clients db' = [c'; client_b; client_c; client_d; client_e]
    ∧ c_deleted_at c' = Some demo_now
    ∧ (get_client admin 1 demo_db).1 = Ok client_a
    ∧ (get_client admin 1 db').1 = Error 404 "Client not found"
    ∧ (assign_client mail_ok admin 1 (Some 3) demo_now db').1
      = Error 404 "Client not found"
    ∧ (assign_client mail_ok admin 1 None demo_now db').1
      = Error 400 "Missing assigned_to".
Proof.
  assert (primary_keys demo_db) as Hpk by by apply (bool_decide_unpack _).
  assert (client_editable user1 (c_id client_a) client_a) as Hed
    by by apply (bool_decide_unpack _).
  destruct (deleted_client_is_gone mail_ok user1 demo_now demo_db client_a Hpk)
    as (i & c' & db' & Hi & Hdel & Hcs & Hat & _ & _ & _ & _ & _ & _ & _ & _
        & _ & _ & _ & _ & _ & Hgone); [set_solver|done|].
  assert (i = 0%nat) as ->.
  { destruct i as [|[|[|[|[|i]]]]]; [done|by vm_compute in Hi..]. }
  destruct (Hgone admin) as (Hget & _ & Hassign & _).
  exists c', db'. split_and!; [done|done|done|by vm_compute|..];
    change 1 with (c_id client_a).
  - by rewrite Hget.
  - by rewrite Hassign.
  - by rewrite Hassign.
Defined.

(** X17. The same for a lead: its creator or assignee soft-deletes it, the
    row stays and is marked, and afterwards fetching, updating, deleting,
    assigning and listing the projects of that id answer 404 for every
    user, and none of the three lead lists shows it. *)
Theorem deleted_lead_is_gone
    (send : string → string → Py.value → string → option Py.exn)
    (user : User) (now : Z) (db : DB) (l : Lead) :
  primary_keys db →
  l ∈ leads db → lead_editable user (l_id l) l →
  ∃ i l' db',
    leads db !! i = Some l
    ∧ delete_lead user (l_id l) now db
      = (Ok "Lead soft-deleted successfully", db')
    ∧ leads db' = <[i := l']> (leads db)
    ∧ l_deleted_at l' = Some now ∧ l_deleted_by l' = Some (u_id user)
    ∧ l_id l' = l_id l ∧ l_tenant_id l' = l_tenant_id l
    ∧ l_created_by l' = l_created_by l ∧ l_assigned_to l' = l_assigned_to l
    ∧ l_lead_status l' = l_lead_status l
    ∧ l_converted_on l' = l_converted_on l ∧ l_columns l' = l_columns l
    ∧ primary_keys db'
    ∧ users db' = users db ∧ clients db' = clients db
    ∧ interactions db' = interactions db ∧ projects db' = projects db
    ∧ activity_log db' = activity_log db
    ∧ ∀ viewer,
        get_lead viewer (l_id l) db' = (Error 404 "Lead not found", db')
        ∧ (∀ now', delete_lead viewer (l_id l) now' db'
                   = (Error 404 "Lead not found", db'))
        ∧ (∀ data now', update_lead viewer (l_id l) data now' db'
                        = (Error 404 "Lead not found", db'))
        ∧ (∀ assigned_to now',
             assign_lead send viewer (l_id l) assigned_to now' db'
             = (Error 404 "Lead not found", db'))
        ∧ list_projects_by_lead viewer (l_id l) db'
          = Error 404 "Lead not found"
        ∧ (∀ ls x,
             list_leads viewer db' = Ok ls
             ∨ list_all_leads_admin viewer db' = Ok ls
             ∨ list_assigned_leads viewer db' = Ok ls →
             x ∈ ls → l_id x ≠ l_id l).
Proof.
  intros (Hpc & Hpl & Hpp & Hpu) Hin Hed.
  destruct (list_find_unique (lead_editable user (l_id l)) l_id
              (leads db) l Hpl Hin Hed) as [i Hf].
  { by intros y (? & _). }
  pose proof Hf as (Hi & _)%list_find_Some.
  set (l' := lead_soft_delete (u_id user) now l).
  exists i, l', (put_lead i l' db).
  assert (∀ x, x ∈ leads (put_lead i l' db) → l_id x = l_id l →
               l_deleted_at x ≠ None) as Hrow.
  { intros x Hx Hid.
    by rewrite (insert_key_unique l_id (leads db) i l l' x). }
  assert (∀ viewer,
            list_find (lead_editable viewer (l_id l))
              (leads (put_lead i l' db)) = None) as Hnone.
  { intros viewer.
    destruct (list_find _ (leads (put_lead i l' db))) as [[j x]|] eqn:Hx;
      [|done].
    apply list_find_Some in Hx as (Hj & (Hid & _ & _ & Hlive) & _).
    by destruct (Hrow x); [eapply list_elem_of_lookup_2|..]. }
  split_and!; try done.
  - unfold delete_lead. by rewrite Hf.
  - split_and!; try done. cbn [put_lead leads].
    by apply (NoDup_insert_key l_id _ i l).
  - intros viewer. split_and!.
    + destruct (get_lead_cases viewer (l_id l) (put_lead i l' db))
        as [[x Hget]|[Hget _]]; [|done].
      assert ((get_lead viewer (l_id l) (put_lead i l' db)).1 = Ok x)
        as Hok by by rewrite Hget.
      apply get_lead_Ok in Hok as (Hx & Hid & _ & Hlive & _).
      by destruct (Hrow x).
    + intros now'. unfold delete_lead. by rewrite Hnone.
    + intros data now'. unfold update_lead. by rewrite Hnone.
    + intros assigned_to now'.
      apply assign_lead_not_found. intros x Hx Hid _. by apply Hrow.
    + unfold list_projects_by_lead.
      destruct (list_find _ (leads (put_lead i l' db)))
        as [[j x]|] eqn:Hx; [|done].
      apply list_find_Some in Hx as (Hj & (Hid & _ & Hlive) & _).
      by destruct (Hrow x); [eapply list_elem_of_lookup_2|..].
    + intros ls x Hls Hx Hid.
      assert (x ∈ leads (put_lead i l' db) ∧ l_deleted_at x = None)
        as [Hx' Hlive].
      { unfold list_leads, list_all_leads_admin, list_assigned_leads in Hls.
        destruct Hls as [[= <-]|[[= <-]|[= <-]]];
          apply list_elem_of_filter in Hx as [HP Hx]; (split; [done|]);
          [apply lead_listed_spec in HP as (_ & ? & _); done|..];
          repeat (apply andb_True in HP as [HP ?]);
          repeat match goal with
                 | H : Is_true (bool_decide _) |- _ =>
                     apply bool_decide_unpack in H
                 end; done. }
      by destruct (Hrow x).
Qed.

(** user2, its assignee, soft-deletes lead 2 of the demo store; the
    creator, user1, can no longer update it. *)
Lemma deleted_lead_is_gone_witness :
  ∃ l' db',
    delete_lead user2 2 demo_now demo_db
    = (Ok "Lead soft-deleted successfully", db')
    ∧ leads db' = [lead_a; l'; lead_c]
    ∧ l_deleted_by l' = Some 3
    ∧ (update_lead user1 2 ∅ demo_now db').1 = Error 404 "Lead not found".
Proof.
  assert (primary_keys demo_db) as Hpk by by apply (bool_decide_unpack _).
  assert (lead_editable user2 (l_id lead_b) lead_b) as Hed
    by by apply (bool_decide_unpack _).
  destruct (deleted_lead_is_gone mail_ok user2 demo_now demo_db lead_b Hpk)
    as (i & l' & db' & Hi & Hdel & Hls & _ & Hby & _ & _ & _ & _ & _ & _ & _
        & _ & _ & _ & _ & _ & _ & Hgone); [set_solver|done|].
  assert (i = 1%nat) as ->.
  { destruct i as [|[|[|i]]]; [by vm_compute in Hi|done|by vm_compute in Hi..]. }
  exists l', db'. split_and!; [done|done|done|].
  destruct (Hgone user1) as (_ & _ & Hupd & _). change 2 with (l_id lead_b).
  by rewrite Hupd.
Defined.

(** ** What an assignment does to the lists *)

(** X18. An admin assigns a live client of the tenant to an active user of
    the tenant, and the mail goes out: the row is written with the new
    assignee, the admin and the time. From then on the client is on the
    pages of the assignee's list and of nobody else's, its creator
    included; the creator can still fetch it by id and may still edit and
    delete it. *)
Theorem assignment_moves_client
    (send : string → string → Py.value → string → option Py.exn)
    (user assignee : User) (now : Z) (db : DB) (c : Client) :
  primary_keys db →
  c ∈ clients db → c_tenant_id c = u_tenant_id user → c_deleted_at c = None →
  assignee ∈ users db → u_tenant_id assignee = u_tenant_id user →
  u_is_active assignee = true → u_id assignee ≠ 0 →
  send (u_email assignee) "client" (Py.VStr (c_name c)) (u_email user) = None →
  ∃ i c' db',
    clients db !! i = Some c
    ∧ assign_client send user (c_id c) (Some (u_id assignee)) now db
      = (Ok "Client assigned successfully", db')
    ∧ clients db' = <[i := c']> (clients db)
    ∧ c_assigned_to c' = Some (u_id assignee)
    ∧ c_updated_by c' = Some (u_id user) ∧ c_updated_at c' = Some now
    ∧ c_id c' = c_id c ∧ c_created_by c' = c_created_by c
    ∧ c_name c' = c_name c ∧ c_columns c' = c_columns c
    ∧ primary_keys db'
    ∧ (∀ viewer args now' per_page,
         Py.int_arg args "per_page" 20 = inr per_page → 0 < per_page →
         activity_arg args ∉ ["active"; "inactive"; "new"] →
         on_some_page viewer args now' db' c'
         ↔ u_tenant_id viewer = u_tenant_id user
           ∧ u_id viewer = u_id assignee)
    ∧ (∀ viewer,
         u_tenant_id viewer = u_tenant_id user →
         u_id viewer = c_created_by c →
         (get_client viewer (c_id c) db').1 = Ok c'
         ∧ client_editable viewer (c_id c) c').
Proof.
  intros (Hpc & Hpl & Hpp & Hpu) Hin Ht Hlive Hu Hut Hact Hnz Hsend.
  destruct (list_find_unique
              (λ x, c_id x = c_id c ∧ c_tenant_id x = u_tenant_id user
                    ∧ c_deleted_at x = None) c_id
              (clients db) c Hpc Hin) as [i Hf]; [done|by intros y (? & _)|].
  destruct (list_find_unique (assignable user (Some (u_id assignee))) u_id
              (users db) assignee Hpu Hu) as [j Hfu];
    [done|by intros y ([= ?] & _)|].
  pose proof Hf as (Hi & _)%list_find_Some.
  assert (given (Some (u_id assignee))) as Hgiven.
  { unfold given. cbn [from_option Py.truthy].
    apply negb_prop_intro. intros Hz%Is_true_eq_true%Z.eqb_eq. done. }
  set (c' := client_assign (Some (u_id assignee)) (u_id user) now c).
  exists i, c', (put_client i c' db).
  assert (∀ x, x ∈ clients (put_client i c' db) → c_id x = c_id c → x = c')
    as Hrow.
  { intros x Hx Hid.
    by apply (insert_key_unique c_id (clients db) i c c' x). }
  assert (c' ∈ clients (put_client i c' db)) as Hin'.
  { cbn [put_client clients]. by eapply elem_of_insert_same. }
  split_and!; try done.
  - rewrite (assign_client_valid send user (c_id c) (Some (u_id assignee)) now
               db i c j assignee Hgiven Hf Hfu).
    by rewrite Hsend.
  - split_and!; try done. cbn [put_client clients].
    by apply (NoDup_insert_key c_id _ i c).
  - intros viewer args now' per_page Hpp' Hpos Hother.
    rewrite (on_some_page_rows viewer args now' _ per_page c' Hpp' Hpos)
      by (intros [Ha _]; rewrite Ha in Hother; set_solver).
    rewrite client_activity_filter_other by done. cbn [q_rows].
    rewrite list_elem_of_filter, client_listed_spec.
    subst c'. cbn [client_assign c_tenant_id c_deleted_at c_assigned_to
                   c_created_by].
    split.
    + intros ((Htv & _ & [[= ?]|[? _]]) & _); [|done]. split; congruence.
    + intros [Htv Hid]. split; [|done]. split_and!; [congruence|done|].
      left. by rewrite Hid.
  - intros viewer Htv Hcb. split.
    + destruct (get_client_cases viewer (c_id c) (put_client i c' db))
        as [[x Hget]|[_ Hno]].
      * assert ((get_client viewer (c_id c) (put_client i c' db)).1 = Ok x)
          as Hok by by rewrite Hget.
        rewrite Hok. f_equal.
        apply get_client_Ok in Hok as (Hx & Hid & _). by apply Hrow.
      * destruct (Hno c'); [done|done|by rewrite Htv|done|]. right. by left.
    + unfold client_editable. subst c'. cbn. split_and!; try done.
      * congruence.
      * by left.
Qed.

(** The admin of the demo store assigns client 1, which user1 created, to
    user2: it moves from user1's list to user2's. *)
Lemma assignment_moves_client_witness :
  ∃ c' db',
    assign_client mail_ok admin 1 (Some 3) demo_now demo_db
    = (Ok "Client assigned successfully", db')
    ∧ on_some_page user1 ∅ demo_now demo_db client_a
    ∧ on_some_page user2 ∅ demo_now db' c'
    ∧ ¬ on_some_page user1 ∅ demo_now db' c'
    ∧ (get_client user1 1 db').1 = Ok c'.
Proof.
  assert (primary_keys demo_db) as Hpk by by apply (bool_decide_unpack _).
  destruct (assignment_moves_client mail_ok admin user2 demo_now demo_db
              client_a Hpk)
    as (i & c' & db' & _ & Hassign & _ & _ & _ & _ & _ & _ & _ & _ & _
        & Hpages & Hget); [set_solver|done|done|set_solver|done..|].
  assert (Py.int_arg ∅ "per_page" 20 = inr 20) as Hpp by done.
  assert (activity_arg ∅ ∉ ["active"; "inactive"; "new"]) as Hother
    by (apply (bool_decide_unpack _); by vm_compute).
  exists c', db'. split_and!; [done| | | |].
  - apply (on_some_page_complete user1 ∅ demo_now demo_db 20);
      [done|done|by intros [? _]|].
    rewrite client_activity_filter_other by done. cbn [q_rows].
    apply list_elem_of_filter. split; [done|set_solver].
  - by apply (Hpages user2 ∅ demo_now 20 Hpp).
  - intros Hon. by apply (Hpages user1 ∅ demo_now 20 Hpp) in Hon as [_ ?].
  - by destruct (Hget user1).
Defined.

(** X19. An admin assigns a live lead of the tenant, to an active user of
    the tenant or to nobody ([assigned_to] null or left out, which
    [assign_lead] accepts without looking anything up): the row is written
    whether or not the mail goes out. Afterwards the lead is on the list of
    the new assignee only, and when it was unassigned it is back on its
    creator's list; the creator fetches it by id either way. *)
Theorem assignment_moves_lead
    (send : string → string → Py.value → string → option Py.exn)
    (user : User) (assigned_to : option Z) (now : Z) (db : DB) (l : Lead) :
  primary_keys db →
  l ∈ leads db → l_tenant_id l = u_tenant_id user → l_deleted_at l = None →
  (given assigned_to → ∃ u, u ∈ users db ∧ assignable user assigned_to u) →
  ∃ i l' db',
    leads db !! i = Some l
    ∧ assign_lead send user (l_id l) assigned_to now db
      = (Ok "Lead assigned successfully", db')
    ∧ leads db' = <[i := l']> (leads db)
    ∧ l_assigned_to l' = assigned_to
    ∧ l_updated_by l' = Some (u_id user) ∧ l_updated_at l' = Some now
    ∧ l_id l' = l_id l ∧ l_created_by l' = l_created_by l
    ∧ l_lead_status l' = l_lead_status l
    ∧ l_converted_on l' = l_converted_on l ∧ l_columns l' = l_columns l
    ∧ primary_keys db'
    ∧ (∀ viewer ls,
         list_leads viewer db' = Ok ls →
         l' ∈ ls
         ↔ u_tenant_id viewer = u_tenant_id user
           ∧ (assigned_to = Some (u_id viewer)
              ∨ (assigned_to = None ∧ u_id viewer = l_created_by l)))
    ∧ (∀ viewer,
         u_tenant_id viewer = u_tenant_id user →
         u_id viewer = l_created_by l →
         (get_lead viewer (l_id l) db').1 = Ok l').
Proof.
  intros (Hpc & Hpl & Hpp & Hpu) Hin Ht Hlive Hvalid.
  destruct (list_find_unique
              (λ x, l_id x = l_id l ∧ l_tenant_id x = u_tenant_id user
                    ∧ l_deleted_at x = None) l_id
              (leads db) l Hpl Hin) as [i Hf]; [done|by intros y (? & _)|].
  pose proof Hf as (Hi & _)%list_find_Some.
  set (l' := lead_assign assigned_to (u_id user) now l).
  exists i, l', (put_lead i l' db).
  assert (∀ x, x ∈ leads (put_lead i l' db) → l_id x = l_id l → x = l')
    as Hrow.
  { intros x Hx Hid.
    by apply (insert_key_unique l_id (leads db) i l l' x). }
  assert (l' ∈ leads (put_lead i l' db)) as Hin'.
  { cbn [put_lead leads]. by eapply elem_of_insert_same. }
  split_and!; try done.
  - destruct (given assigned_to) eqn:Hgiven.
    + destruct Hvalid as (u & Hu & Hass); [done|].
      destruct (list_find_is_Some (assignable user assigned_to) (users db) u
                  Hu Hass) as (j & y & Hfu).
      by eapply assign_lead_valid.
    + unfold assign_lead. by rewrite Hf, Hgiven.
  - split_and!; try done. cbn [put_lead leads].
    by apply (NoDup_insert_key l_id _ i l).
  - intros viewer ls [= <-].
    rewrite list_elem_of_filter, lead_listed_spec.
    subst l'. cbn [lead_assign l_tenant_id l_deleted_at l_assigned_to
                   l_created_by].
    split.
    + intros ((Htv & _ & Hown) & _). split; [congruence|]. naive_solver.
    + intros [Htv Hown]. split; [|done]. split_and!; [congruence|done|].
      naive_solver.
  - intros viewer Htv Hcb.
    destruct (get_lead_cases viewer (l_id l) (put_lead i l' db))
      as [[x Hget]|[_ Hno]].
    + assert ((get_lead viewer (l_id l) (put_lead i l' db)).1 = Ok x)
        as Hok by by rewrite Hget.
      rewrite Hok. f_equal.
      apply get_lead_Ok in Hok as (Hx & Hid & _). by apply Hrow.
    + destruct (Hno l'); [done|done|by rewrite Htv|done|]. right. by left.
Qed.

(** The admin of the demo store takes lead 2 from user2: it goes back to
    the list of user1, who created it. *)
Lemma assignment_moves_lead_witness :
  ∃ l' db',
    assign_lead mail_down admin 2 None demo_now demo_db
    = (Ok "Lead assigned successfully", db')
    ∧ l_id l' = 2 ∧ l_assigned_to l' = None
    ∧ list_leads user2 demo_db = Ok [lead_b]
    ∧ (∀ ls, list_leads user2 db' = Ok ls → l' ∉ ls)
    ∧ (∀ ls, list_leads user1 db' = Ok ls → l' ∈ ls).
Proof.
  assert (primary_keys demo_db) as Hpk by by apply (bool_decide_unpack _).
  destruct (assignment_moves_lead mail_down admin None demo_now demo_db
              lead_b Hpk)
    as (i & l' & db' & _ & Hassign & _ & Hat & _ & _ & Hid & _ & _ & _ & _
        & _ & Hlists & _); [set_solver|done|done|done|].
  exists l', db'. split_and!; [done|done|done|done|..].
  - intros ls Hls Hin. apply (Hlists user2 ls Hls) in Hin as [_ [?|[_ ?]]];
      done.
  - intros ls Hls. apply (Hlists user1 ls Hls). split; [done|]. by right.
Defined.

(** ** The projects of a client or a lead *)

(** Rows that carry a date come out of [newest_first] newest first. *)
Lemma newest_first_sorted db ps i j p q a b :
  newest_first db ps !! i = Some p → newest_first db ps !! j = Some q →
  (i < j)%nat → p_created_at p = Some a → p_created_at q = Some b → b ≤ a.
Proof.
  intros Hi Hj Hlt Ha Hb.
  pose proof (order_by_desc_sorted
                (Sql.null_le (Sql.desc_nulls_first (dialect db)))
                p_created_at ps) as Hs.
  pose proof (StronglySorted_lookup _ _ i j p q Hs Hi Hj Hlt) as Hle.
  cbv beta in Hle. rewrite Ha, Hb in Hle. by apply null_le_Some in Hle.
Qed.

Lemma elem_of_newest_first db ps p : p ∈ newest_first db ps ↔ p ∈ ps.
Proof.
  unfold newest_first.
  by rewrite (order_by_desc_perm
                (Sql.null_le (Sql.desc_nulls_first (dialect db)))
                p_created_at ps).
Qed.

(** The three ways [list_projects_by_client] ends. *)
Lemma list_projects_by_client_cases user client_id db :
  (list_find (λ c, c_id c = client_id ∧ c_tenant_id c = u_tenant_id user
                   ∧ c_deleted_at c = None) (clients db) = None
   ∧ list_projects_by_client user client_id db = Error 404 "Client not found")
  ∨ (∃ i c,
       list_find (λ c, c_id c = client_id ∧ c_tenant_id c = u_tenant_id user
                       ∧ c_deleted_at c = None) (clients db) = Some (i, c)
       ∧ ((is_admin user = false ∧ c_created_by c ≠ u_id user
           ∧ c_assigned_to c ≠ Some (u_id user)
           ∧ list_projects_by_client user client_id db = Error 403 "Forbidden")
          ∨ ((is_admin user ∨ c_created_by c = u_id user
              ∨ c_assigned_to c = Some (u_id user))
             ∧ list_projects_by_client user client_id db
               = Ok (newest_first db
                       (filter (λ p, of_client client_id p
                                     && bool_decide
                                          (p_tenant_id p = u_tenant_id user))
                               (projects db)))))).
Proof.
  unfold list_projects_by_client.
  destruct (list_find _ (clients db)) as [[i c]|]; [|by left].
  right. exists i, c. split; [done|].
  destruct (is_admin user); cbn [negb andb]; [right; split; [by left|done]|].
  destruct (decide (c_assigned_to c = Some (u_id user))) as [Ha|Ha].
  { rewrite bool_decide_eq_false_2 by tauto. right. split; [auto|done]. }
  rewrite bool_decide_eq_true_2 by done. cbn [andb].
  destruct (decide (c_created_by c = u_id user)) as [Hc|Hc].
  { rewrite bool_decide_eq_false_2 by tauto. right. split; [auto|done]. }
  rewrite bool_decide_eq_true_2 by done. by left.
Qed.

(** X20. The projects of a client are served to exactly the users who can
    fetch the client: an admin of its tenant, its creator, its assignee.
    Another user of the tenant is answered 403 here, where fetching the
    client answers 404. The reply holds the tenant's projects that name the
    client, whoever created them — so also projects the caller's own
    project list leaves out — and the dated ones newest first. *)
Theorem projects_of_client (user : User) (client_id : Z) (db : DB) :
  primary_keys db →
  ((∃ ps, list_projects_by_client user client_id db = Ok ps)
   ↔ ∃ c, (get_client user client_id db).1 = Ok c)
  ∧ (list_projects_by_client user client_id db = Error 403 "Forbidden"
     ↔ ∃ c, c ∈ clients db ∧ c_id c = client_id
          ∧ c_tenant_id c = u_tenant_id user ∧ c_deleted_at c = None
          ∧ is_admin user = false ∧ c_created_by c ≠ u_id user
          ∧ c_assigned_to c ≠ Some (u_id user))
  ∧ (list_projects_by_client user client_id db = Error 403 "Forbidden" →
     get_client user client_id db = (Error 404 "Client not found", db))
  ∧ ∀ ps,
      list_projects_by_client user client_id db = Ok ps →
      (∀ p, p ∈ ps
            ↔ p ∈ projects db
              ∧ p_columns p !! "client_id" = Some (Py.VInt client_id)
              ∧ p_tenant_id p = u_tenant_id user)
      ∧ (∀ mine p, list_projects user db = Ok mine → p ∈ ps →
           p ∈ mine ↔ p_created_by p = u_id user)
      ∧ (∀ i j p q a b,
           ps !! i = Some p → ps !! j = Some q → (i < j)%nat →
           p_created_at p = Some a → p_created_at q = Some b → b ≤ a).
Proof.
  intros (Hpc & _).
  assert (∀ i c x,
            list_find (λ c, c_id c = client_id
                            ∧ c_tenant_id c = u_tenant_id user
                            ∧ c_deleted_at c = None) (clients db)
            = Some (i, c) →
            x ∈ clients db → c_id x = client_id → x = c) as Hrow.
  { intros i c x (Hi & (Hid & _) & _)%list_find_Some Hx Hx'.
    apply (primary_key c_id (clients db)); [done|done| |congruence].
    by eapply list_elem_of_lookup_2. }
  assert (∀ ps,
            list_projects_by_client user client_id db = Ok ps →
            ∀ p, p ∈ ps
                 ↔ p ∈ projects db
                   ∧ p_columns p !! "client_id" = Some (Py.VInt client_id)
                   ∧ p_tenant_id p = u_tenant_id user) as Hmem.
  { intros ps Hps p.
    destruct (list_projects_by_client_cases user client_id db)
      as [[_ H]|(i & c & _ & [(_ & _ & _ & H)|[_ H]])];
      rewrite H in Hps; try done.
    injection Hps as <-.
    rewrite elem_of_newest_first, list_elem_of_filter. unfold of_client.
    rewrite andb_True, !bool_decide_spec. tauto. }
  destruct (list_projects_by_client_cases user client_id db)
    as [[Hf H]|(i & c & Hf & [(Hna & Hcb & Hat & H)|[Hown H]])]; rewrite H.
  - assert (∀ c, (get_client user client_id db).1 ≠ Ok c) as Hget.
    { intros c (Hc & Hid & Ht & Hlive & _)%get_client_Ok.
      destruct (list_find_is_Some
                  (λ c, c_id c = client_id ∧ c_tenant_id c = u_tenant_id user
                        ∧ c_deleted_at c = None) (clients db) c Hc)
        as (j & y & Hy); [done|congruence]. }
    split_and!; try done.
    + split; [by intros [? ?]|]. intros [c Hc]. by destruct (Hget c).
    + split; [done|]. intros (c & Hc & Hid & Ht & Hlive & _).
      destruct (list_find_is_Some
                  (λ c, c_id c = client_id ∧ c_tenant_id c = u_tenant_id user
                        ∧ c_deleted_at c = None) (clients db) c Hc)
        as (j & y & Hy); [done|congruence].
  - pose proof Hf as (Hi & (Hid & Ht & Hlive) & _)%list_find_Some.
    assert (get_client user client_id db
            = (Error 404 "Client not found", db)) as Hget.
    { destruct (get_client_cases user client_id db) as [[x Hx]|[? _]];
        [|done].
      assert ((get_client user client_id db).1 = Ok x) as Hok
        by by rewrite Hx.
      apply get_client_Ok in Hok as (Hx' & Hidx & _ & _ & Hown).
      rewrite (Hrow i c x Hf Hx' Hidx) in Hown.
      rewrite Hna in Hown. by destruct Hown as [?|[?|?]]. }
    split_and!; try done.
    + split; [by intros [? ?]|]. intros [x Hx]. by rewrite Hget in Hx.
    + split; [|done]. intros _. exists c. split_and!; try done.
      by eapply list_elem_of_lookup_2.
  - pose proof Hf as (Hi & (Hid & Ht & Hlive) & _)%list_find_Some.
    split_and!; try done.
    + split; [|by eexists]. intros _.
      destruct (get_client_cases user client_id db) as [[x Hx]|[_ Hno]].
      * exists x. by rewrite Hx.
      * destruct (Hno c); [by eapply list_elem_of_lookup_2|done..].
    + split; [done|]. intros (x & Hx & Hidx & _ & _ & Hna & Hcb & Hat).
      rewrite (Hrow i c x Hf Hx Hidx) in Hcb, Hat.
      rewrite Hna in Hown. by destruct Hown as [?|[?|?]].
    + intros ps [= <-]. split_and!.
      * by apply Hmem.
      * intros mine p [= <-] Hp. apply (Hmem _ H) in Hp as (Hp & _ & Htp).
        rewrite list_elem_of_filter, andb_True, !bool_decide_spec. tauto.
      * intros *. apply newest_first_sorted.
Qed.

(** user1 created client 1 and sees the project user2 made for it, which
    their own project list does not show; user2 is refused. *)
Lemma projects_of_client_witness :
  list_projects_by_client user1 1 demo_db_attached = Ok [project_c]
  ∧ list_projects user1 demo_db_attached = Ok []
  ∧ list_projects_by_client user2 1 demo_db_attached = Error 403 "Forbidden"
  ∧ get_client user2 1 demo_db_attached
    = (Error 404 "Client not found", demo_db_attached).
Proof.
  assert (primary_keys demo_db_attached) as Hpk
    by by apply (bool_decide_unpack _).
  destruct (projects_of_client user2 1 demo_db_attached Hpk)
    as (_ & _ & H403 & _).
  split_and!; [by vm_compute..|]. apply H403. by vm_compute.
Defined.

(** The three ways [list_projects_by_lead] ends. *)
Lemma list_projects_by_lead_cases user lead_id db :
  (list_find (λ l, l_id l = lead_id ∧ l_tenant_id l = u_tenant_id user
                   ∧ l_deleted_at l = None) (leads db) = None
   ∧ list_projects_by_lead user lead_id db = Error 404 "Lead not found")
  ∨ (∃ i l,
       list_find (λ l, l_id l = lead_id ∧ l_tenant_id l = u_tenant_id user
                       ∧ l_deleted_at l = None) (leads db) = Some (i, l)
       ∧ ((is_admin user = false ∧ l_created_by l ≠ u_id user
           ∧ l_assigned_to l ≠ Some (u_id user)
           ∧ list_projects_by_lead user lead_id db = Error 403 "Forbidden")
          ∨ ((is_admin user ∨ l_created_by l = u_id user
              ∨ l_assigned_to l = Some (u_id user))
             ∧ list_projects_by_lead user lead_id db
               = Ok (newest_first db
                       (filter (λ p, of_lead lead_id p
                                     && bool_decide
                                          (p_tenant_id p = u_tenant_id user))
                               (projects db)))))).
Proof.
  unfold list_projects_by_lead.
  destruct (list_find _ (leads db)) as [[i l]|]; [|by left].
  right. exists i, l. split; [done|].
  destruct (is_admin user); cbn [negb andb]; [right; split; [by left|done]|].
  destruct (decide (l_assigned_to l = Some (u_id user))) as [Ha|Ha].
  { rewrite bool_decide_eq_false_2 by tauto. right. split; [auto|done]. }
  rewrite bool_decide_eq_true_2 by done. cbn [andb].
  destruct (decide (l_created_by l = u_id user)) as [Hc|Hc].
  { rewrite bool_decide_eq_false_2 by tauto. right. split; [auto|done]. }
  rewrite bool_decide_eq_true_2 by done. by left.
Qed.

(** X21. The projects of a lead, likewise: served to exactly the users who
    can fetch the lead, 403 for another user of the tenant where the fetch
    answers 404, and the reply holds the tenant's projects that name the
    lead, whoever created them, the dated ones newest first. *)
Theorem projects_of_lead (user : User) (lead_id : Z) (db : DB) :
  primary_keys db →
  ((∃ ps, list_projects_by_lead user lead_id db = Ok ps)
   ↔ ∃ l, (get_lead user lead_id db).1 = Ok l)
  ∧ (list_projects_by_lead user lead_id db = Error 403 "Forbidden"
     ↔ ∃ l, l ∈ leads db ∧ l_id l = lead_id
          ∧ l_tenant_id l = u_tenant_id user ∧ l_deleted_at l = None
          ∧ is_admin user = false ∧ l_created_by l ≠ u_id user
          ∧ l_assigned_to l ≠ Some (u_id user))
  ∧ (list_projects_by_lead user lead_id db = Error 403 "Forbidden" →
     get_lead user lead_id db = (Error 404 "Lead not found", db))
  ∧ ∀ ps,
      list_projects_by_lead user lead_id db = Ok ps →
      (∀ p, p ∈ ps
            ↔ p ∈ projects db
              ∧ p_columns p !! "lead_id" = Some (Py.VInt lead_id)
              ∧ p_tenant_id p = u_tenant_id user)
      ∧ (∀ i j p q a b,
           ps !! i = Some p → ps !! j = Some q → (i < j)%nat →
           p_created_at p = Some a → p_created_at q = Some b → b ≤ a).
Proof.
  intros (_ & Hpl & _).
  assert (∀ i l x,
            list_find (λ l, l_id l = lead_id
                            ∧ l_tenant_id l = u_tenant_id user
                            ∧ l_deleted_at l = None) (leads db)
            = Some (i, l) →
            x ∈ leads db → l_id x = lead_id → x = l) as Hrow.
  { intros i l x (Hi & (Hid & _) & _)%list_find_Some Hx Hx'.
    apply (primary_key l_id (leads db)); [done|done| |congruence].
    by eapply list_elem_of_lookup_2. }
  destruct (list_projects_by_lead_cases user lead_id db)
    as [[Hf H]|(i & l & Hf & [(Hna & Hcb & Hat & H)|[Hown H]])]; rewrite H.
  - assert (∀ l, (get_lead user lead_id db).1 ≠ Ok l) as Hget.
    { intros l (Hl & Hid & Ht & Hlive & _)%get_lead_Ok.
      destruct (list_find_is_Some
                  (λ l, l_id l = lead_id ∧ l_tenant_id l = u_tenant_id user
                        ∧ l_deleted_at l = None) (leads db) l Hl)
        as (j & y & Hy); [done|congruence]. }
    split_and!; try done.
    + split; [by intros [? ?]|]. intros [l Hl]. by destruct (Hget l).
    + split; [done|]. intros (l & Hl & Hid & Ht & Hlive & _).
      destruct (list_find_is_Some
                  (λ l, l_id l = lead_id ∧ l_tenant_id l = u_tenant_id user
                        ∧ l_deleted_at l = None) (leads db) l Hl)
        as (j & y & Hy); [done|congruence].
  - pose proof Hf as (Hi & (Hid & Ht & Hlive) & _)%list_find_Some.
    assert (get_lead user lead_id db
            = (Error 404 "Lead not found", db)) as Hget.
    { destruct (get_lead_cases user lead_id db) as [[x Hx]|[? _]];
        [|done].
      assert ((get_lead user lead_id db).1 = Ok x) as Hok
        by by rewrite Hx.
      apply get_lead_Ok in Hok as (Hx' & Hidx & _ & _ & Hown).
      rewrite (Hrow i l x Hf Hx' Hidx) in Hown.
      rewrite Hna in Hown. by destruct Hown as [?|[?|?]]. }
    split_and!; try done.
    + split; [by intros [? ?]|]. intros [x Hx]. by rewrite Hget in Hx.
    + split; [|done]. intros _. exists l. split_and!; try done.
      by eapply list_elem_of_lookup_2.
  - pose proof Hf as (Hi & (Hid & Ht & Hlive) & _)%list_find_Some.
    split_and!; try done.
    + split; [|by eexists]. intros _.
      destruct (get_lead_cases user lead_id db) as [[x Hx]|[_ Hno]].
      * exists x. by rewrite Hx.
      * destruct (Hno l); [by eapply list_elem_of_lookup_2|done..].
    + split; [done|]. intros (x & Hx & Hidx & _ & _ & Hna & Hcb & Hat).
      rewrite (Hrow i l x Hf Hx Hidx) in Hcb, Hat.
      rewrite Hna in Hown. by destruct Hown as [?|[?|?]].
    + intros ps [= <-]. split.
      * intros p.
        rewrite elem_of_newest_first, list_elem_of_filter. unfold of_lead.
        rewrite andb_True, !bool_decide_spec. tauto.
      * intros *. apply newest_first_sorted.
Qed.

(** The admin sees the project user2 made for lead 1; user2, who neither
    created the lead nor is its assignee, is refused. *)
Lemma projects_of_lead_witness :
  list_projects_by_lead admin 1 demo_db_attached = Ok [project_d]
  ∧ list_projects_by_lead user2 1 demo_db_attached = Error 403 "Forbidden"
  ∧ get_lead user2 1 demo_db_attached
    = (Error 404 "Lead not found", demo_db_attached).
Proof.
  assert (primary_keys demo_db_attached) as Hpk
    by by apply (bool_decide_unpack _).
  destruct (projects_of_lead user2 1 demo_db_attached Hpk)
    as (_ & _ & H403 & _).
  split_and!; [by vm_compute..|]. apply H403. by vm_compute.
Defined.

(** ** Creating a lead *)

Section lead_creation.
Context (new_id : Z) (default_status : option string).

(** X22. [create_lead] needs a name and nothing else: without the key it
    raises [KeyError]. With it, the new row is appended under the caller's
    tenant and id, unassigned and live; each of the thirteen text fields
    holds what the body holds ([phone_label] "work" and the others NULL
    where the body has no such key), and no other key of the body has any
    effect. When the id is new, the store keeps its primary keys, the
    caller fetches the lead by its id, and it is on the caller's list and on
    nobody else's. *)
Theorem created_lead_is_owned (user : User) (data : gmap string Py.value)
    (now : Z) (db : DB) :
  primary_keys db → new_id ∉ l_id <$> leads db →
  (data !! "name" = None →
   create_lead new_id default_status user data now db = KeyError "name")
  ∧ (∀ data',
       (∀ field, field ∈ lead_text_fields → data' !! field = data !! field) →
       create_lead new_id default_status user data' now db
       = create_lead new_id default_status user data now db)
  ∧ (is_Some (data !! "name") →
     ∃ l db',
       create_lead new_id default_status user data now db = Created new_id db'
       ∧ leads db' = leads db ++ [l]
       ∧ users db' = users db ∧ clients db' = clients db
       ∧ interactions db' = interactions db ∧ projects db' = projects db
       ∧ activity_log db' = activity_log db
       ∧ primary_keys db'
       ∧ l_id l = new_id ∧ l_tenant_id l = u_tenant_id user
       ∧ l_created_by l = u_id user ∧ l_assigned_to l = None
       ∧ l_created_at l = now ∧ l_deleted_at l = None
       ∧ l_lead_status l = default_status ∧ l_converted_on l = None
       ∧ (∀ field, field ∈ lead_text_fields →
            l_columns l !! field
            = Some (match data !! field with
                    | Some v => v
                    | None => if decide (field = "phone_label")
                              then Py.VStr "work" else Py.VNone
                    end))
       ∧ (get_lead user new_id db').1 = Ok l
       ∧ (∀ viewer ls,
            list_leads viewer db' = Ok ls →
            l ∈ ls ↔ u_tenant_id viewer = u_tenant_id user
                     ∧ u_id viewer = u_id user)).
Proof.
  intros (Hpc & Hpl & Hpp & Hpu) Hfresh. split_and!.
  - intros Hname. unfold create_lead. by rewrite Hname.
  - intros data' Hsame. unfold create_lead, get_or. cbn [foldr].
    by rewrite !Hsame by (apply (bool_decide_unpack _); by vm_compute).
  - intros [name Hname]. unfold create_lead. rewrite Hname.
    eexists _, _. split; [reflexivity|].
    cbn [leads users clients interactions projects activity_log
         l_id l_tenant_id l_created_by l_assigned_to l_created_at
         l_deleted_at l_lead_status l_converted_on l_columns].
    match goal with
    | |- leads db ++ [?row] = _ ∧ _ => set (l := row)
    end.
    assert (∀ x, x ∈ leads db ++ [l] → l_id x = new_id → x = l) as Hrow.
    { intros x [Hx|Hx%list_elem_of_singleton]%elem_of_app Hid; [|done].
      destruct Hfresh. apply list_elem_of_fmap. eauto. }
    split_and!; try done.
    + try (split_and!; try done). cbn [leads].
      rewrite fmap_app. apply list.NoDup_app.
      split_and!; [done| |apply list.NoDup_singleton].
      intros k Hk ->%list_elem_of_singleton. done.
    + intros field Hfield. unfold get_or. cbn [l_columns].
      repeat (apply elem_of_cons in Hfield as [->|Hfield]);
        [..|by apply elem_of_nil in Hfield];
        cbn [foldr];
        repeat (rewrite lookup_insert_ne by done);
        rewrite lookup_insert_eq; try done;
        by rewrite ?Hname; destruct (data !! _).
    + destruct (get_lead_cases user new_id
                  {| users := users db; clients := clients db;
                     leads := leads db ++ [l];
                     interactions := interactions db;
                     projects := projects db;
                     activity_log := activity_log db;
                     dialect := dialect db |})
        as [[x Hget]|[_ Hno]].
      * match type of Hget with
        | ?g = _ => assert (g.1 = Ok x) as Hok by by rewrite Hget
        end.
        rewrite Hok. f_equal.
        apply get_lead_Ok in Hok as (Hx & Hid & _). by apply Hrow.
      * destruct (Hno l); [|done..|right; by left].
        cbn [leads]. apply elem_of_app. right. apply list_elem_of_here.
    + intros viewer ls [= <-]. cbn [leads].
      rewrite list_elem_of_filter, lead_listed_spec.
      subst l. cbn [l_tenant_id l_deleted_at l_assigned_to l_created_by].
      split.
      * intros ((Htv & _ & [?|[_ ?]]) & _); [done|]. split; congruence.
      * intros [Htv Hid]. split.
        -- split_and!; [congruence|done|]. right. split; congruence.
        -- apply elem_of_app. right. apply list_elem_of_here.
Qed.

End lead_creation.

(** user1 creates a lead that the store numbers 10; the body also asks for
    an assignee, which the handler does not read. *)
Lemma created_lead_is_owned_witness :
  ∃ l db',
    create_lead 10 (Some "open") user1
      {[ "name" := Py.VStr "Oscar"; "assigned_to" := Py.VInt 3 ]}
      demo_now demo_db = Created 10 db'
    ∧ create_lead 10 (Some "open") user1 {[ "name" := Py.VStr "Oscar" ]}
        demo_now demo_db = Created 10 db'
    ∧ l_assigned_to l = None
    ∧ l_columns l !! "phone_label" = Some (Py.VStr "work")
    ∧ (get_lead user1 10 db').1 = Ok l
    ∧ (∀ ls, list_leads user2 db' = Ok ls → l ∉ ls).
Proof.
  assert (primary_keys demo_db) as Hpk by by apply (bool_decide_unpack _).
  assert (10 ∉ l_id <$> leads demo_db) as Hfresh
    by (apply (bool_decide_unpack _); by vm_compute).
  destruct (created_lead_is_owned 10 (Some "open") user1
              {[ "name" := Py.VStr "Oscar"; "assigned_to" := Py.VInt 3 ]}
              demo_now demo_db Hpk Hfresh) as (_ & Hsame & Hnew).
  destruct Hnew as (l & db' & Hcreate & _ & _ & _ & _ & _ & _ & _ & _ & _ & _
                    & Hat & _ & _ & _ & _ & Hcol & Hget & Hlists);
    [by eexists|].
  exists l, db'. split_and!; [done| |done| |done|].
  - rewrite <- Hcreate. apply Hsame. intros field Hfield.
    repeat (apply elem_of_cons in Hfield as [->|Hfield]);
      [..|by apply elem_of_nil in Hfield]; by vm_compute.
  - rewrite (Hcol "phone_label"); [by vm_compute|].
    apply (bool_decide_unpack _). by vm_compute.
  - intros ls Hls Hin. by apply (Hlists user2 ls Hls) in Hin as [_ ?].
Defined.

(** ** Tenants *)

(** A row written back inside a tenant is no row of another tenant. *)
Lemma insert_other_tenant {A} (tenant_of : A → Z) t (l : list A) i x y z :
  l !! i = Some x → tenant_of x = t → tenant_of y = t → tenant_of z ≠ t →
  z ∈ <[i := y]> l ↔ z ∈ l.
Proof.
  intros Hi Hx Hy Hz. split.
  - intros [->|?]%elem_of_insert_inv; done.
  - intros Hin. eapply elem_of_insert_other; [done..|congruence].
Qed.

Lemma delete_other_tenant {A} (tenant_of : A → Z) t (l : list A) i x z :
  l !! i = Some x → tenant_of x = t → tenant_of z ≠ t →
  z ∈ delete i l ↔ z ∈ l.
Proof.
  intros Hi Hx Hz. split.
  - apply elem_of_delete_inv.
  - intros Hin. eapply elem_of_delete_other; [done..|congruence].
Qed.

Lemma other_tenants_untouched_refl t db : other_tenants_untouched t db db.
Proof. by split_and!. Qed.

Lemma put_client_other_tenants t i c c' db :
  clients db !! i = Some c → c_tenant_id c = t → c_tenant_id c' = t →
  other_tenants_untouched t db (put_client i c' db).
Proof.
  intros Hi Hc Hc'. split_and!; try done.
  intros z Hz. by apply (insert_other_tenant c_tenant_id t _ i c c').
Qed.

Lemma put_lead_other_tenants t i l l' db :
  leads db !! i = Some l → l_tenant_id l = t → l_tenant_id l' = t →
  other_tenants_untouched t db (put_lead i l' db).
Proof.
  intros Hi Hl Hl'. split_and!; try done.
  intros z Hz. by apply (insert_other_tenant l_tenant_id t _ i l l').
Qed.

(** X23. No handler that writes touches another tenant: whatever the
    request and whoever the caller, after deleting, assigning or updating a
    client, a lead or a project, or creating a lead, the rows of every
    tenant but the caller's are the rows there were, and the users and the
    Interactions are unchanged. *)
Theorem writes_stay_in_tenant
    (send : string → string → Py.value → string → option Py.exn)
    (fromisoformat : string → option Z) (options : list string)
    (new_id : Z) (default_status : option string)
    (user : User) (id : Z) (assigned_to : option Z)
    (data : gmap string Py.value) (now : Z) (db : DB) :
  let unchanged := other_tenants_untouched (u_tenant_id user) db in
  unchanged (delete_client user id now db).2
  ∧ unchanged (assign_client send user id assigned_to now db).2
  ∧ unchanged (update_lead user id data now db).2
  ∧ unchanged (delete_lead user id now db).2
  ∧ unchanged (assign_lead send user id assigned_to now db).2
  ∧ unchanged (update_project fromisoformat options user id data db).2
  ∧ unchanged (delete_project user id db).2
  ∧ ∀ db', create_lead new_id default_status user data now db
           = Created new_id db' → unchanged db'.
Proof.
  intros unchanged. subst unchanged. split_and!.
  - unfold delete_client.
    destruct (list_find _ (clients db)) as [[i c]|] eqn:Hf;
      [|apply other_tenants_untouched_refl].
    apply list_find_Some in Hf as (Hi & (_ & Ht & _) & _).
    by apply (put_client_other_tenants _ i c).
  - unfold assign_client.
    destruct (given assigned_to); cbn [negb];
      [|apply other_tenants_untouched_refl].
    destruct (list_find _ (clients db)) as [[i c]|] eqn:Hf;
      [|apply other_tenants_untouched_refl].
    destruct (list_find _ (users db)) as [[j u]|];
      [|apply other_tenants_untouched_refl].
    destruct (send _ _ _ _); [apply other_tenants_untouched_refl|].
    apply list_find_Some in Hf as (Hi & (_ & Ht & _) & _).
    by apply (put_client_other_tenants _ i c).
  - destruct (list_find (lead_editable user id) (leads db))
      as [[i l]|] eqn:Hf.
    + destruct (update_lead_row user id data now db i l Hf)
        as (l' & -> & _ & _ & Ht' & _).
      apply list_find_Some in Hf as (Hi & (_ & Ht & _) & _).
      apply (put_lead_other_tenants _ i l); [done|done|congruence].
    + unfold update_lead. rewrite Hf. apply other_tenants_untouched_refl.
  - unfold delete_lead.
    destruct (list_find _ (leads db)) as [[i l]|] eqn:Hf;
      [|apply other_tenants_untouched_refl].
    apply list_find_Some in Hf as (Hi & (_ & Ht & _) & _).
    by apply (put_lead_other_tenants _ i l).
  - unfold assign_lead.
    destruct (list_find _ (leads db)) as [[i l]|] eqn:Hf;
      [|apply other_tenants_untouched_refl].
    apply list_find_Some in Hf as (Hi & (_ & Ht & _) & _).
    assert (other_tenants_untouched (u_tenant_id user) db
              (put_lead i (lead_assign assigned_to (u_id user) now l) db))
      as Hput by by apply (put_lead_other_tenants _ i l).
    destruct (given assigned_to); cbn [andb];
      [case_bool_decide; [apply other_tenants_untouched_refl|]|done].
    destruct (list_find (λ u, Some (u_id u) = assigned_to) (users db))
      as [[j u]|]; [|done].
    by destruct (send _ _ _ _).
  - destruct (update_project_cases fromisoformat options user id data db)
      as [[_ ->]|[(i & p & e & _ & -> & _)|(i & p & p' & Hf & -> & Hrow)]];
      [apply other_tenants_untouched_refl..|].
    destruct Hrow as (_ & Ht' & _).
    apply list_find_Some in Hf as (Hi & (_ & Ht) & _).
    split_and!; try done. intros z Hz.
    apply (insert_other_tenant p_tenant_id (u_tenant_id user) _ i p p');
      [done|done|congruence|done].
  - unfold delete_project.
    destruct (list_find _ (projects db)) as [[i p]|] eqn:Hf;
      [|apply other_tenants_untouched_refl].
    apply list_find_Some in Hf as (Hi & (_ & Ht) & _).
    split_and!; try done. intros z Hz.
    by apply (delete_other_tenant p_tenant_id (u_tenant_id user) _ i p).
  - intros db'. unfold create_lead.
    destruct (data !! "name"); [|done]. intros [= <-].
    split_and!; try done. intros z Hz. cbn [leads].
    rewrite elem_of_app, list_elem_of_singleton. split; [|by left].
    intros [?|Heq]; [done|]. subst z. by destruct Hz.
Qed.

(** ** The lists side by side *)

(** X24. The default lists of two different users never show the same row:
    a lead or a client is on the list of its assignee, or of its creator
    while it has no assignee, and of nobody else. What a user's lead list
    shows is on the admin list of the tenant; the list of assigned leads is
    the part of the admin list that has an assignee, whoever that is,
    while the list of assigned clients is the part of the caller's own
    client list that is assigned to the caller. *)
Theorem default_lists_partition (viewer other : User) (db : DB) :
  u_id viewer ≠ u_id other →
  (∀ l mine theirs,
     list_leads viewer db = Ok mine → list_leads other db = Ok theirs →
     l ∈ mine → l ∉ theirs)
  ∧ (∀ c args args' now now' mine theirs,
       list_clients viewer args now db = Ok mine →
       list_clients other args' now' db = Ok theirs →
       c ∈ listed_clients mine → c ∉ listed_clients theirs)
  ∧ (∀ l mine all,
       list_leads viewer db = Ok mine →
       list_all_leads_admin viewer db = Ok all → l ∈ mine → l ∈ all)
  ∧ (∀ l assigned all,
       list_assigned_leads viewer db = Ok assigned →
       list_all_leads_admin viewer db = Ok all →
       l ∈ assigned ↔ l ∈ all ∧ l_assigned_to l ≠ None)
  ∧ (∀ c assigned,
       list_assigned_clients viewer db = Ok assigned →
       c ∈ assigned
       ↔ c ∈ clients db ∧ client_listed viewer c
         ∧ c_assigned_to c = Some (u_id viewer)).
Proof.
  intros Hne. split_and!.
  - intros l mine theirs [= <-] [= <-].
    rewrite !list_elem_of_filter, !lead_listed_spec.
    intros [(_ & _ & Hmine) _] [(_ & _ & Htheirs) _].
    destruct Hmine as [Hm|[Hm ?]], Htheirs as [Ht|[Ht ?]]; congruence.
  - intros c args args' now now' mine theirs Hmine Htheirs Hc Hc'.
    apply (client_listing_subseteq _ _ _ _ _ _ Hmine) in Hc.
    apply (client_listing_subseteq _ _ _ _ _ _ Htheirs) in Hc'.
    apply list_elem_of_filter in Hc as [(_ & _ & Hm)%client_listed_spec _].
    apply list_elem_of_filter in Hc' as [(_ & _ & Ht)%client_listed_spec _].
    destruct Hm as [Hm|[Hm ?]], Ht as [Ht|[Ht ?]]; congruence.
  - intros l mine all [= <-] [= <-].
    rewrite !list_elem_of_filter, lead_listed_spec.
    intros [(Ht & Hlive & _) Hin]. split; [|done].
    by rewrite andb_True, !bool_decide_spec.
  - intros l assigned all [= <-] [= <-].
    rewrite !list_elem_of_filter, !andb_True, !bool_decide_spec. tauto.
  - intros c assigned [= <-].
    rewrite list_elem_of_filter, !andb_True, !bool_decide_spec,
      client_listed_spec.
    tauto.
Qed.

(** user1 and user2 of the demo store. *)
Lemma default_lists_partition_witness :
  list_leads user1 demo_db = Ok [lead_a]
  ∧ list_leads user2 demo_db = Ok [lead_b]
  ∧ (lead_a ∉ [lead_b])
  ∧ list_all_leads_admin user1 demo_db = Ok [lead_a; lead_b].
Proof.
  assert (u_id user1 ≠ u_id user2) as Hne by done.
  destruct (default_lists_partition user1 user2 demo_db Hne)
    as (Hleads & _).
  split_and!; [by vm_compute..| |by vm_compute].
  apply (Hleads lead_a [lead_a] [lead_b]); [by vm_compute..|].
  apply list_elem_of_here.
Defined.

(** ** The status of a project *)

(** X25. That every project has one of [PROJECT_STATUS_OPTIONS] is kept by
    the three handlers that write projects. [create_project] gives the new
    row the status of the body when that is one of the options and the
    first option otherwise, under the caller's tenant and id; with a new id
    every user of the tenant fetches the row. It needs a non-empty option
    list (else [IndexError]) and then a [project_name] (else [KeyError]),
    checked in that order and before the dates are read. *)
Theorem project_status_invariant (fromisoformat : string → option Z)
    (options : list string) (new_id : Z) (user : User) (id : Z)
    (data : gmap string Py.value) (now : Z) (db : DB) :
  statuses_known options db →
  statuses_known options
    (update_project fromisoformat options user id data db).2
  ∧ statuses_known options (delete_project user id db).2
  ∧ (∀ db',
       create_project fromisoformat options new_id user data now db
       = ProjectCreated new_id db' →
       statuses_known options db'
       ∧ users db' = users db ∧ clients db' = clients db
       ∧ leads db' = leads db ∧ interactions db' = interactions db
       ∧ activity_log db' = activity_log db
       ∧ ∃ p, projects db' = projects db ++ [p]
           ∧ p_id p = new_id ∧ p_tenant_id p = u_tenant_id user
           ∧ p_created_by p = u_id user ∧ p_created_at p = Some now
           ∧ Some (p_project_status p)
             = match data !! "project_status" with
               | Some (Py.VStr s) =>
                   if decide (s ∈ options) then Some s else head options
               | _ => head options
               end
           ∧ (new_id ∉ p_id <$> projects db →
              ∀ viewer, u_tenant_id viewer = u_tenant_id user →
                        (get_project viewer new_id db').1 = Ok p))
  ∧ (options = [] →
     create_project fromisoformat options new_id user data now db
     = ProjectIndexError)
  ∧ (options ≠ [] → data !! "project_name" = None →
     create_project fromisoformat options new_id user data now db
     = ProjectKeyError "project_name").
Proof.
  intros Hknown. split_and!.
  - destruct (update_project_cases fromisoformat options user id data db)
      as [[_ ->]|[(i & p & e & _ & -> & _)|(i & p & p' & Hf & -> & Hrow)]];
      [done..|].
    destruct Hrow as (_ & _ & _ & _ & Hst & _).
    apply list_find_Some in Hf as (Hi & _).
    intros z. cbn [snd with_projects projects].
    intros [->|?]%elem_of_insert_inv; [|by apply Hknown].
    destruct Hst as [->|[_ ?]]; [|done].
    apply Hknown. by eapply list_elem_of_lookup_2.
  - unfold delete_project.
    destruct (list_find _ (projects db)) as [[i p]|]; [|done].
    intros z. cbn [snd with_projects projects].
    intros ?%elem_of_delete_inv. by apply Hknown.
  - intros db'. unfold create_project.
    destruct options as [|first rest] eqn:Hoptions; [done|].
    destruct (data !! "project_name") as [name|]; [|done].
    destruct (parse_date_with_default_time fromisoformat
                (get_or data "project_start" Py.VNone)) as [?|d1]; [done|].
    destruct (parse_date_with_default_time fromisoformat
                (get_or data "project_end" Py.VNone)) as [?|d2]; [done|].
    intros [= <-]. cbn [with_projects projects users clients leads
                        interactions activity_log].
    match goal with
    | |- context [projects db ++ [?row]] => set (p := row)
    end.
    assert (Some (p_project_status p)
            = match data !! "project_status" with
              | Some (Py.VStr s) =>
                  if decide (s ∈ first :: rest) then Some s else Some first
              | _ => Some first
              end) as Hst.
    { subst p. cbn [p_project_status].
      destruct (data !! "project_status") as [[| | |s]|]; try done.
      by case_bool_decide; [rewrite decide_True|rewrite decide_False]. }
    split_and!; try done.
    + intros z [?|Hz%list_elem_of_singleton]%elem_of_app;
        [by apply Hknown|]. subst z.
      clear Hst. subst p. cbn [p_project_status].
      destruct (data !! "project_status") as [[| | |s]|]; try set_solver.
      case_bool_decide; [done|set_solver].
    + exists p. split_and!; try done.
      intros Hfresh viewer Htv. unfold get_project.
      cbn [with_projects projects].
      destruct (list_find_is_Some (project_in_tenant viewer new_id)
                  (projects db ++ [p]) p) as (j & y & Hy).
      { apply elem_of_app. right. apply list_elem_of_here. }
      { by split. }
      rewrite Hy.
      apply list_find_Some in Hy as (Hj & [Hid _] & _).
      apply list_elem_of_lookup_2, elem_of_app in Hj
        as [Hin|Hj%list_elem_of_singleton]; [|by subst y].
      destruct Hfresh. apply list_elem_of_fmap. eauto.
  - intros ->. done.
  - intros Hne Hname. unfold create_project.
    destruct options; [done|]. by rewrite Hname.
Qed.

(** user1 creates a project with a status the store does not know. *)
Lemma project_status_invariant_witness :
  ∃ p db',
    create_project (λ _, None) ["pending"; "won"; "lost"] 5 user1
      {[ "project_name" := Py.VStr "Deck";
         "project_status" := Py.VStr "maybe" ]} demo_now demo_db
    = ProjectCreated 5 db'
    ∧ projects db' = [project_a; project_b; p]
    ∧ p_project_status p = "pending"
    ∧ statuses_known ["pending"; "won"; "lost"] db'
    ∧ (get_project user2 5 db').1 = Ok p.
Proof.
  assert (statuses_known ["pending"; "won"; "lost"] demo_db) as Hknown.
  { intros p Hp. apply list_elem_of_In in Hp.
    repeat destruct Hp as [<-|Hp]; [by left..|done]. }
  destruct (project_status_invariant (λ _, None) ["pending"; "won"; "lost"] 5
              user1 0
              {[ "project_name" := Py.VStr "Deck";
                 "project_status" := Py.VStr "maybe" ]}
              demo_now demo_db Hknown) as (_ & _ & Hcreate & _).
  destruct (Hcreate
              (with_projects
                 (projects demo_db
                  ++ [{| p_id := 5; p_tenant_id := 1; p_created_by := 2;
                         p_project_status := "pending";
                         p_project_start := None; p_project_end := None;
                         p_created_at := Some demo_now;
                         p_columns :=
                           <["project_name" := Py.VStr "Deck"]>
                           (<["type" := Py.VStr "None"]>
                           (<["client_id" := Py.VNone]>
                           (<["lead_id" := Py.VNone]>
                           (<["project_description" := Py.VNone]>
                           (<["notes" := Py.VNone]>
                           (<["project_worth" := Py.VNone]> ∅)))))) |}])
                 demo_db))
    as (Hknown' & _ & _ & _ & _ & _ & p & Hps & _ & _ & _ & _ & Hst & Hget);
    [by vm_compute|].
  eexists p, _. split_and!; [by vm_compute|done| |done|].
  - vm_compute in Hst. by injection Hst.
  - apply Hget; [|done]. apply (bool_decide_unpack _). by vm_compute.
Defined.
